(** * Tantra admin console: participant resolution, listing and export

    A shallow embedding of [src/app.py] (a Flask application over a
    Firestore document store) and the properties of its handlers.

    Modelling conventions.
    - A Python [str] is a Rocq [string] read as a sequence of code points
      below 256 (Latin-1); [str.lower], [str.strip], [int(str)] and string
      comparison are written out for that range.
    - A Firestore value is a [value]: null, boolean, integer, string or map.
      Floating-point numbers, timestamps and arrays are outside the model.
    - A Python [dict] is an association list in insertion order, read with
      the first binding of a key.
    - A Firestore collection is the list of its documents, (id, fields), in
      the order in which [stream()] yields them; document ids are opaque
      strings (single path segments).
    - A Python exception is the result [Raised]; a handler that returns
      gives [Ok]. *)

From stdpp Require Import gmap strings list.
From Stdlib Require Import ZArith String Ascii List Sorted Permutation
  OrderedTypeEx DecimalString Lia.
From Stdlib Require DecimalPos.
Import ListNotations.
Local Open Scope string_scope.
Local Open Scope Z_scope.

(* ================================================================== *)
(** ** Python results *)

Inductive pyres (A : Type) : Type :=
| Ok (a : A)
| Raised.
Arguments Ok {A} a.
Arguments Raised {A}.

#[global] Instance pyres_ret : MRet pyres := fun A a => Ok a.

#[global] Instance pyres_bind : MBind pyres := fun A B k m =>
  match m with
  | Ok a => k a
  | Raised => Raised
  end.

(* ================================================================== *)
(** ** Values and dictionaries *)

Inductive value : Type :=
| VNone
| VBool (b : bool)
| VInt (n : Z)
| VStr (s : string)
| VDict (d : list (string * value)).

(** A Python dict / the fields of a Firestore document. *)
Definition dict : Type := list (string * value).

(** First binding of [k] in an association list. *)
Fixpoint assoc {A : Type} (k : string) (d : list (string * A)) : option A :=
  match d with
  | [] => None
  | (k', v) :: t => if String.eqb k k' then Some v else assoc k t
  end.

(** [d.get(k, dflt)] and [d.get(k)]. *)
Definition get_default (d : dict) (k : string) (dflt : value) : value :=
  match assoc k d with
  | Some v => v
  | None => dflt
  end.

Definition get (d : dict) (k : string) : value := get_default d k VNone.

(** Python truth value: [None], [False], [0], the empty string and the empty
    dict are false. *)
Definition truthy (v : value) : bool :=
  match v with
  | VNone => false
  | VBool b => b
  | VInt n => negb (n =? 0)
  | VStr s => negb (String.eqb s "")
  | VDict d => match d with [] => false | _ => true end
  end.

(** [a or b]. *)
Definition py_or (a b : value) : value := if truthy a then a else b.

(** [isinstance(v, dict)]. *)
Definition is_dict (v : value) : bool :=
  match v with VDict _ => true | _ => false end.

(** Numeric reading of a value for [==] and [<]: [bool] is a subclass of
    [int] in Python. *)
Definition as_int (v : value) : option Z :=
  match v with
  | VBool b => Some (if b then 1 else 0)
  | VInt n => Some n
  | _ => None
  end.

(** Python [a == b]. Dicts are equal when they have the same keys with equal
    values, whatever the insertion order. *)
Fixpoint py_eqb (a b : value) {struct a} : bool :=
  match a, b with
  | VNone, VNone => true
  | VStr x, VStr y => String.eqb x y
  | VDict x, VDict y =>
      (length x =? length y)%nat &&
      (fix all (l : list (string * value)) : bool :=
         match l with
         | [] => true
         | (k, v) :: t =>
             match assoc k y with
             | Some v' => py_eqb v v'
             | None => false
             end && all t
         end) x
  | (VBool _ | VInt _), (VBool _ | VInt _) =>
      match as_int a, as_int b with
      | Some x, Some y => x =? y
      | _, _ => false
      end
  | _, _ => false
  end.

(** Equality of a Firestore [where(field, '==', v)] filter: as [py_eqb],
    except that a boolean never equals an integer. *)
Fixpoint fs_eqb (a b : value) {struct a} : bool :=
  match a, b with
  | VNone, VNone => true
  | VBool x, VBool y => Bool.eqb x y
  | VInt x, VInt y => x =? y
  | VStr x, VStr y => String.eqb x y
  | VDict x, VDict y =>
      (length x =? length y)%nat &&
      (fix all (l : list (string * value)) : bool :=
         match l with
         | [] => true
         | (k, v) :: t =>
             match assoc k y with
             | Some v' => fs_eqb v v'
             | None => false
             end && all t
         end) x
  | _, _ => false
  end.

(** Python [a < b]: defined between two strings (code-point order) and
    between two numbers; every other pair raises TypeError. *)
Definition py_lt (a b : value) : pyres bool :=
  match a, b with
  | VStr x, VStr y => Ok (String.ltb x y)
  | (VBool _ | VInt _), (VBool _ | VInt _) =>
      match as_int a, as_int b with
      | Some x, Some y => Ok (x <? y)
      | _, _ => Raised
      end
  | _, _ => Raised
  end.

(** [a < b] on two tuples of the same length: the first position where the
    components are not [==] decides, with [<] on those components. *)
Fixpoint tuple_lt (a b : list value) : pyres bool :=
  match a, b with
  | x :: a', y :: b' => if py_eqb x y then tuple_lt a' b' else py_lt x y
  | [], _ :: _ => Ok true
  | _, [] => Ok false
  end.

(* ================================================================== *)
(** ** Strings *)

Definition code (c : ascii) : N := N_of_ascii c.

Definition in_range (lo hi : N) (c : ascii) : bool :=
  ((lo <=? code c) && (code c <=? hi))%N.

(** Characters that [str.lower] changes: A-Z and the upper-case letters of
    Latin-1 (U+00C0..U+00DE without the multiplication sign U+00D7). *)
Definition is_upper (c : ascii) : bool :=
  in_range 65 90 c || in_range 192 214 c || in_range 216 222 c.

Definition lower_char (c : ascii) : ascii :=
  if is_upper c then ascii_of_N (code c + 32) else c.

(** [s.lower()]. *)
Fixpoint str_lower (s : string) : string :=
  match s with
  | EmptyString => EmptyString
  | String c t => String (lower_char c) (str_lower t)
  end.

(** [c.isspace()]: TAB..CR, FS..US, space, NEL and the no-break space. *)
Definition py_isspace (c : ascii) : bool :=
  in_range 9 13 c || in_range 28 32 c
  || (code c =? 133)%N || (code c =? 160)%N.

Fixpoint lstrip (p : ascii -> bool) (s : string) : string :=
  match s with
  | EmptyString => EmptyString
  | String c t => if p c then lstrip p t else s
  end.

Fixpoint rstrip (p : ascii -> bool) (s : string) : string :=
  match s with
  | EmptyString => EmptyString
  | String c t =>
      match rstrip p t with
      | EmptyString => if p c then EmptyString else String c EmptyString
      | r => String c r
      end
  end.

(** [s.strip()] with the set of characters to remove given by [p]. *)
Definition strip (p : ascii -> bool) (s : string) : string :=
  rstrip p (lstrip p s).

(** [s.strip()]. *)
Definition str_strip (s : string) : string := strip py_isspace s.

(** [[a-z0-9]] *)
Definition is_lower_alnum (c : ascii) : bool :=
  in_range 97 122 c || in_range 48 57 c.

(** [[A-Za-z0-9]] *)
Definition is_alnum (c : ascii) : bool :=
  in_range 65 90 c || is_lower_alnum c.

Definition is_underscore (c : ascii) : bool := (code c =? 95)%N.

(** [re.sub(r'[^a-z0-9]+', '_', s)]: every maximal run of characters outside
    [[a-z0-9]] becomes one underscore. [in_run] tells that the previous
    character belonged to such a run. *)
Fixpoint sub_runs (in_run : bool) (s : string) : string :=
  match s with
  | EmptyString => EmptyString
  | String c t =>
      if is_lower_alnum c then String c (sub_runs false t)
      else if in_run then sub_runs true t
      else String "_" (sub_runs true t)
  end.

(** *** [int(s)] and [str(n)] *)

(** White space that [int()] skips around the number: TAB..CR, space, NEL and
    the no-break space (not FS..US). *)
Definition is_int_space (c : ascii) : bool :=
  in_range 9 13 c || (code c =? 32)%N
  || (code c =? 133)%N || (code c =? 160)%N.

Definition digit_val (c : ascii) : option Z :=
  if in_range 48 57 c then Some (Z.of_N (code c) - 48) else None.

(** The digits after a first digit, value so far [acc]: digits, with single
    underscores allowed between two digits. *)
Fixpoint parse_digits (acc : Z) (s : string) : option Z :=
  match s with
  | EmptyString => Some acc
  | String c t =>
      match digit_val c with
      | Some d => parse_digits (10 * acc + d) t
      | None =>
          if is_underscore c then
            match t with
            | String c' t' =>
                match digit_val c' with
                | Some d => parse_digits (10 * acc + d) t'
                | None => None
                end
            | EmptyString => None
            end
          else None
      end
  end.

Definition parse_unsigned (s : string) : option Z :=
  match s with
  | String c t =>
      match digit_val c with
      | Some d => parse_digits d t
      | None => None
      end
  | EmptyString => None
  end.

(** [int(s)] in base 10; [None] stands for ValueError. *)
Definition py_int (s : string) : option Z :=
  match strip is_int_space s with
  | String "+" t => parse_unsigned t
  | String "-" t => Z.opp <$> parse_unsigned t
  | s' => parse_unsigned s'
  end.

(** [str(n)] for an integer. *)
Definition str_of_int (n : Z) : string := NilZero.string_of_int (Z.to_int n).

(* ================================================================== *)
(** ** The document store *)

(** The documents of a collection, (id, fields), in [stream()] order. *)
Definition collection : Type := list (string * dict).

Record store : Type := mkStore {
  departments : collection;
  events : collection;
  participants : collection;
  registrations : collection;
  users : collection
}.

(** [d[k] = v] on a dict, and a merge of one field into a document. *)
Fixpoint assoc_set {A : Type} (k : string) (v : A) (d : list (string * A))
  : list (string * A) :=
  match d with
  | [] => [(k, v)]
  | (k', v') :: t =>
      if String.eqb k k' then (k, v) :: t else (k', v') :: assoc_set k v t
  end.

(** [collection.document(id).get()]: [Some fields] when the snapshot
    [exists]. *)
Definition document_get (c : collection) (id : string) : option dict :=
  assoc id c.

(** The same with an id read from a document: the client builds the document
    path from strings only, any other value raises. *)
Definition document_get_value (c : collection) (id : value)
  : pyres (option dict) :=
  match id with
  | VStr s => Ok (document_get c s)
  | _ => Raised
  end.

(** [collection.document(id).set(fields)]: the document replaces the one
    with that id, or is new; the place of a new document in the stream is
    not fixed by the model (here: last). *)
Definition document_set (c : collection) (id : string) (fields : dict)
  : collection :=
  assoc_set id fields c.

(** [collection.document(id).update({k: v})] on an existing document. *)
Fixpoint document_update (c : collection) (id : string) (k : string)
  (v : value) : collection :=
  match c with
  | [] => []
  | (id', d) :: t =>
      if String.eqb id id' then (id', assoc_set k v d) :: t
      else (id', d) :: document_update t id k v
  end.

(** [collection.where(field, '==', v).stream()]. *)
Definition where_eq (field : string) (v : value) (c : collection)
  : collection :=
  List.filter (fun doc =>
    match assoc field (snd doc) with
    | Some x => fs_eqb x v
    | None => false
    end) c.

(** [collection.where(field, 'in', ids).stream()] for a list of strings. *)
Definition where_in (field : string) (ids : list string) (c : collection)
  : collection :=
  List.filter (fun doc =>
    match assoc field (snd doc) with
    | Some (VStr s) => existsb (String.eqb s) ids
    | _ => false
    end) c.

(** [query.limit(n)]. *)
Definition limit (n : nat) (c : collection) : collection := firstn n c.

(* ================================================================== *)
(** ** Dashboard: [index] *)

Section Dashboard.

(** [str()] of a dict is Python's [repr], which the model leaves open. *)
Variable repr_dict : dict -> string.

(** [str(v)]. *)
Definition py_str (v : value) : string :=
  match v with
  | VNone => "None"
  | VBool true => "True"
  | VBool false => "False"
  | VInt n => str_of_int n
  | VStr s => s
  | VDict d => repr_dict d
  end.

(** [p.get('email') or p.get('phone') or pdoc.id] *)
Definition ident_of (pdoc : string * dict) : value :=
  py_or (py_or (get (snd pdoc) "email") (get (snd pdoc) "phone"))
        (VStr (fst pdoc)).

(** The loop filling the set [unique_participants]. *)
Fixpoint unique_loop (parts : collection) (unique_participants : gset string)
  : gset string :=
  match parts with
  | [] => unique_participants
  | pdoc :: rest =>
      let ident := ident_of pdoc in
      if truthy ident then
        unique_loop rest
          (unique_participants ∪ {[ str_lower (str_strip (py_str ident)) ]})
      else unique_loop rest unique_participants
  end.

(** The four summary counts [index] hands to the template:
    total_departments, total_events, total_registrations and
    total_unique_participants (the two rendered lists are left out). *)
Record dashboard : Type := mkDashboard {
  total_departments : nat;
  total_events : nat;
  total_registrations : nat;
  total_unique_participants : nat
}.

Definition index (st : store) : dashboard :=
  let depts := departments st in
  let events := events st in
  let parts := participants st in
  let unique_participants := unique_loop parts ∅ in
  {| total_departments := length depts;
     total_events := length events;
     total_registrations := length parts;
     total_unique_participants := size unique_participants |}.

End Dashboard.

(* ================================================================== *)
(** ** [add_event] and [toggle_event_status] *)

(** [[(dept.id, dept.to_dict()['name']) for dept in departments]]: a
    department without a name raises KeyError. *)
Fixpoint dept_list (depts : collection) : pyres (list (string * value)) :=
  match depts with
  | [] => Ok []
  | (id, d) :: t =>
      match assoc "name" d with
      | Some name => rest ← dept_list t; Ok ((id, name) :: rest)
      | None => Raised
      end
  end.

(** The POST form of [add_event], for a request that carries the six
    fields read with [request.form[...]] (dept_id, name, description, date,
    time, venue); a request without one of them fails before anything is
    stored and is not a value of this type. [image_url] is the URL under
    which the upload was saved (empty without an upload), [created_at] the
    value stored for [datetime.utcnow()]. *)
Record event_form : Type := mkEventForm {
  f_dept_id : string;
  f_name : string;
  f_description : string;
  f_date : string;
  f_time : string;
  f_venue : string;
  f_image_url : string;
  f_status : option string;
  f_price : option string;
  f_prize : option string;
  f_created_at : value
}.

(** The scan for the highest numeric event id. *)
Fixpoint max_id_loop (all_events : collection) (max_id : Z) : Z :=
  match all_events with
  | [] => max_id
  | ev :: rest =>
      match py_int (fst ev) with
      | Some eid =>
          if eid >? max_id then max_id_loop rest eid
          else max_id_loop rest max_id
      | None => max_id_loop rest max_id
      end
  end.

Definition form_get (o : option string) (dflt : string) : string :=
  match o with Some s => s | None => dflt end.

Definition new_event_id (st : store) : Z := max_id_loop (events st) 0 + 1.

Definition new_event_doc (st : store) (f : event_form) (status : Z) : dict :=
  let payment_qr_url :=
    match document_get (departments st) (f_dept_id f) with
    | Some d => get_default d "qr_url" (VStr "")
    | None => VStr ""
    end in
  [ ("id", VInt (new_event_id st));
    ("department", VStr (f_dept_id f));
    ("name", VStr (f_name f));
    ("description", VStr (f_description f));
    ("date", VStr (f_date f));
    ("time", VStr (f_time f));
    ("venue", VStr (f_venue f));
    ("image_url", VStr (f_image_url f));
    ("payment_qr_url", payment_qr_url);
    ("price", VStr (form_get (f_price f) ""));
    ("prize", VStr (form_get (f_prize f) ""));
    ("status", VInt status);
    ("created_at", f_created_at f) ].

(** [add_event] on a POST request: the store after the request. *)
Definition add_event (st : store) (f : event_form) : pyres store :=
  _ ← dept_list (departments st);
  match py_int (form_get (f_status f) "1") with
  | None => Raised
  | Some status =>
      let new_id := new_event_id st in
      Ok {| departments := departments st;
            events := document_set (events st) (str_of_int new_id)
                        (new_event_doc st f status);
            participants := participants st;
            registrations := registrations st;
            users := users st |}
  end.

(** [toggle_event_status]: the store after the request (the response is a
    redirect to the dashboard in every case). *)
Definition toggle_event_status (st : store) (event_id : option string)
  : store :=
  match event_id with
  | None => st
  | Some event_id =>
      if String.eqb event_id "" then st
      else
        match document_get (events st) event_id with
        | None => st
        | Some ev =>
            let current := get_default ev "status" (VInt 1) in
            let new_status := if py_eqb current (VInt 1) then 0 else 1 in
            {| departments := departments st;
               events := document_update (events st) event_id "status"
                           (VInt new_status);
               participants := participants st;
               registrations := registrations st;
               users := users st |}
        end
  end.

(* ================================================================== *)
(** ** The participant resolver *)

Definition as_dict (v : value) : option dict :=
  match v with VDict d => Some d | _ => None end.

(** The first document of a stream, as [for doc in q: return doc.to_dict()]
    reads it. *)
Definition first_doc (c : collection) : option dict :=
  match c with
  | [] => None
  | doc :: _ => Some (snd doc)
  end.

(** [_resolve_participant_from_registration(reg_data)]: [Ok (Some p)] when a
    dict is returned, [Ok None] when [None] is returned. *)
Definition _resolve_participant_from_registration (st : store)
  (reg_data : dict) : pyres (option dict) :=
  if negb (truthy (VDict reg_data)) then Ok None
  else
    (* Inline participant object *)
    let inline := get reg_data "participant" in
    match (if truthy inline then as_dict inline else None) with
    | Some p => Ok (Some p)
    | None =>
        (* Common id fields *)
        let pid := py_or (py_or (get reg_data "participant_id")
                                (get reg_data "user_id"))
                         (get reg_data "uid") in
        by_id ← (if truthy pid then
                   ref ← document_get_value (participants st) pid;
                   match ref with
                   | Some p => Ok (Some p)
                   | None => document_get_value (users st) pid
                   end
                 else Ok None);
        match by_id with
        | Some p => Ok (Some p)
        | None =>
            (* Try to resolve by email *)
            let email := py_or (py_or (get reg_data "participant_email")
                                      (get reg_data "email"))
                               (get reg_data "user_email") in
            if truthy email then
              match first_doc (limit 1 (where_eq "email" email
                                          (participants st))) with
              | Some p => Ok (Some p)
              | None =>
                  Ok (first_doc (limit 1 (where_eq "email" email (users st))))
              end
            else Ok None
        end
    end.

(** [not p] for the value a resolver call returned. *)
Definition not_p (p : option dict) : bool :=
  match p with
  | Some d => negb (truthy (VDict d))
  | None => true
  end.

(* ================================================================== *)
(** ** [sorted(rows, key=...)] *)

Section Sorted.

Context {A : Type}.
Variable key : A -> list value.

(** Insert [x], which preceded every element of [l] in the input, into the
    sorted list [l]: before the first element that is not smaller. *)
Fixpoint insert_sorted (x : A) (l : list A) : pyres (list A) :=
  match l with
  | [] => Ok [x]
  | y :: t =>
      b ← tuple_lt (key y) (key x);
      if b : bool then
        match insert_sorted x t with
        | Ok r => Ok (y :: r)
        | Raised => Raised
        end
      else Ok (x :: y :: t)
  end.

(** A stable sort that compares keys with [<] only. When every two keys of
    the list can be compared, the result is the one stable sorted
    arrangement, whichever comparisons the sort performs; a comparison that
    raises aborts the sort. *)
Fixpoint py_sorted (l : list A) : pyres (list A) :=
  match l with
  | [] => Ok []
  | x :: t => r ← py_sorted t; insert_sorted x r
  end.

End Sorted.

(* ================================================================== *)
(** ** [view_participants] *)

(** The query string of a request. *)
Record request_args : Type := mkArgs {
  arg_dept_id : option string;
  arg_event_id : option string;
  arg_format : option string
}.

(** Truth value of [request.args.get(k)]. *)
Definition arg_truthy (o : option string) : bool :=
  match o with
  | Some s => negb (String.eqb s "")
  | None => false
  end.

(** [request.args.get(k)] as a Python value. *)
Definition arg_value (o : option string) : value :=
  match o with
  | Some s => VStr s
  | None => VNone
  end.

Definition view_row (p : dict) : dict :=
  let p_dept := py_or (get p "department") (VStr "") in
  let p_event := py_or (get p "event") (VStr "") in
  [ ("name", get p "name");
    ("email", get p "email");
    ("phone", get p "phone");
    ("college", get p "college");
    ("branch", get p "branch/Class");
    ("year", get p "year");
    ("event_name", p_event);
    ("dept_name", p_dept);
    ("event_id", VStr "");
    ("transaction_id", py_or (get p "transactionId") (get p "transaction_id")) ].

(** The department name selected through [dept_id]: [None] without a
    [dept_id] or when no such department exists. *)
Definition selected_dept_name (st : store) (dept_id : option string) : value :=
  if arg_truthy dept_id then
    match document_get (departments st) (form_get dept_id "") with
    | Some d => get d "name"
    | None => VNone
    end
  else VNone.

(** The filtering loop over the participants collection. *)
Definition view_rows (st : store) (args : request_args) : list dict :=
  let dept_name := selected_dept_name st (arg_dept_id args) in
  let selected_event_id := arg_value (arg_event_id args) in
  map view_row
    (List.filter (fun p =>
       let p_dept := py_or (get p "department") (VStr "") in
       let p_event := py_or (get p "event") (VStr "") in
       negb (truthy dept_name && negb (py_eqb p_dept dept_name))
       && negb (truthy selected_event_id
                && negb (py_eqb p_event selected_event_id)))
     (map snd (participants st))).

Definition key_dept_event_name (r : dict) : list value :=
  [ get_default r "dept_name" (VStr "");
    get_default r "event_name" (VStr "");
    get_default r "name" (VStr "") ].

Definition key_dept_name (r : dict) : list value :=
  [ get_default r "dept_name" (VStr ""); get_default r "name" (VStr "") ].

(** [view_participants]: the list [participants] handed to the template. *)
Definition view_participants (st : store) (args : request_args)
  : pyres (list dict) :=
  _ ← dept_list (departments st);
  let sort_by_event := arg_truthy (arg_event_id args) in
  let participants_info := view_rows st args in
  if sort_by_event then py_sorted key_dept_event_name participants_info
  else py_sorted key_dept_name participants_info.

(* ================================================================== *)
(** ** [_gather_participants] *)

(** [range(start, stop, step)] for a positive step; the fuel [stop] is enough
    since every turn advances by at least one. *)
Fixpoint range_from (fuel start stop step : nat) : list nat :=
  match fuel with
  | O => []
  | S fuel' =>
      if (start <? stop)%nat
      then start :: range_from fuel' (start + step)%nat stop step
      else []
  end.

Definition py_range (start stop step : nat) : list nat :=
  range_from stop start stop step.

(** [l[i:j]] for [0 <= i <= j]. *)
Definition slice {A : Type} (i j : nat) (l : list A) : list A :=
  firstn (j - i) (skipn i l).

Definition BATCH : nat := 10.

(** [event_map.get(ev_id, {})]; the keys of [event_map] are strings. *)
Definition event_map_get (event_map : list (string * dict)) (ev_id : value)
  : dict :=
  match ev_id with
  | VStr s => match assoc s event_map with Some d => d | None => [] end
  | _ => []
  end.

Definition gather_row (event_map : list (string * dict)) (reg_data p : dict)
  : dict :=
  let ev_id := get reg_data "event_id" in
  let ev_data := event_map_get event_map ev_id in
  [ ("name", get p "name");
    ("email", get p "email");
    ("phone", get p "phone");
    ("college", get p "college");
    ("branch", get p "branch");
    ("year", get p "year");
    ("event_name", get ev_data "name");
    ("dept_name", py_or (py_or (get ev_data "department")
                               (get ev_data "dept_id")) (VStr ""));
    ("event_id", ev_id);
    ("transaction_id", get reg_data "transaction_id") ].

(** The inner loop, [for reg in regs_query], appending to [rows]. *)
Fixpoint regs_loop (st : store) (event_map : list (string * dict))
  (regs_query : collection) (rows : list dict) : pyres (list dict) :=
  match regs_query with
  | [] => Ok rows
  | reg :: rest =>
      let reg_data := snd reg in
      p ← _resolve_participant_from_registration st reg_data;
      if not_p p then regs_loop st event_map rest rows
      else regs_loop st event_map rest
             (rows ++ [gather_row event_map reg_data (default [] p)])%list
  end.

(** The outer loop, [for i in range(0, len(event_ids), BATCH)]. The first
    component of the result is the list of [in]-filter queries sent to the
    registrations collection so far, each given by its [batch_ids]. *)
Fixpoint batch_loop (st : store) (event_ids : list string)
  (event_map : list (string * dict)) (indices : list nat)
  (queries : list (list string)) (rows : list dict)
  : list (list string) * pyres (list dict) :=
  match indices with
  | [] => (queries, Ok rows)
  | i :: rest =>
      let batch_ids := slice i (i + BATCH) event_ids in
      let regs_query := where_in "event_id" batch_ids (registrations st) in
      match regs_loop st event_map regs_query rows with
      | Ok rows' =>
          batch_loop st event_ids event_map rest (queries ++ [batch_ids])%list rows'
      | Raised => ((queries ++ [batch_ids])%list, Raised)
      end
  end.

(** The event ids and the event map of a department, or of one event. *)
Definition gather_events (st : store) (dept_id : string)
  (event_id : option string) : list string * list (string * dict) :=
  if arg_truthy event_id then
    let id := form_get event_id "" in
    match document_get (events st) id with
    | Some d => ([id], [(id, d)])
    | None => ([], [])
    end
  else
    let evs := where_eq "department" (VStr dept_id) (events st) in
    (map fst evs,
     fold_left (fun m e => assoc_set (fst e) (snd e) m) evs []).

(** [_gather_participants(dept_id, event_id)]: the [in]-filter queries it
    sends and its result. *)
Definition _gather_participants (st : store) (dept_id : string)
  (event_id : option string) : list (list string) * pyres (list dict) :=
  if String.eqb dept_id "" then ([], Ok [])
  else
    let '(event_ids, event_map) := gather_events st dept_id event_id in
    match event_ids with
    | [] => ([], Ok [])
    | _ =>
        batch_loop st event_ids event_map
          (py_range 0 (length event_ids) BATCH) [] []
    end.

(* ================================================================== *)
(** ** [export_participants] *)

(** Whether the optional export libraries can be imported. *)
Record environment : Type := mkEnv {
  has_pandas : bool;
  has_reportlab : bool
}.

Inductive response : Type :=
| SendFile (download_name : string) (mimetype : string)
    (table : list (list value))
| Response (body : string) (status : Z).

(** The helper [_sanitize] of [export_participants]; a value without
    [lower()] raises AttributeError. *)
Definition _sanitize (s : value) : pyres string :=
  if negb (truthy s) then Ok ""
  else
    match s with
    | VStr s =>
        let s := str_lower s in
        let s := sub_runs false s in
        let s := strip is_underscore s in
        Ok (if String.eqb s "" then "value" else s)
    | _ => Raised
    end.

Definition export_row (p : dict) : dict :=
  [ ("name", get_default p "name" (VStr ""));
    ("email", get_default p "email" (VStr ""));
    ("phone", get_default p "phone" (VStr ""));
    ("college", get_default p "college" (VStr ""));
    ("branch", get_default p "branch" (VStr ""));
    ("year", get_default p "year" (VStr ""));
    ("event_name", get_default p "event" (VStr ""));
    ("dept_name", get_default p "department" (VStr ""));
    ("transaction_id", py_or (get p "transactionId")
                             (get_default p "transaction_id" (VStr ""))) ].

Definition headers : list string :=
  [ "name"; "email"; "phone"; "college"; "branch"; "year"; "event_name";
    "dept_name"; "transaction_id" ].

(** The event name selected through [event_id]: the name of the event with
    that document id, else [event_id] itself. *)
Definition selected_event_name (st : store) (event_id : option string)
  : value :=
  if arg_truthy event_id then
    match document_get (events st) (form_get event_id "") with
    | Some d => get d "name"
    | None => arg_value event_id
    end
  else VNone.

(** The rows of the export before sorting. *)
Definition export_rows (st : store) (args : request_args) : list dict :=
  let dept_name := selected_dept_name st (arg_dept_id args) in
  let event_name := selected_event_name st (arg_event_id args) in
  let q := participants st in
  let q := if truthy dept_name then where_eq "department" dept_name q else q in
  let q := if truthy event_name then where_eq "event" event_name q else q in
  map (fun doc => export_row (snd doc)) q.

(** *** The two writers *)

(** A pandas DataFrame: its column labels and its records. *)
Record DataFrame : Type := mkDataFrame {
  df_columns : list string;
  df_records : list dict
}.

Fixpoint union_keys (seen ks : list string) : list string :=
  match ks with
  | [] => seen
  | k :: t =>
      if existsb (String.eqb k) seen then union_keys seen t
      else union_keys (seen ++ [k])%list t
  end.

(** [pd.DataFrame(rows)]: the columns are the keys of the rows in order of
    first appearance. *)
Definition pd_DataFrame (rows : list dict) : DataFrame :=
  {| df_columns := fold_left (fun seen r => union_keys seen (map fst r)) rows [];
     df_records := rows |}.

(** [for h in headers: if h not in df.columns: df[h] = ''] *)
Definition df_add_missing (df : DataFrame) (hs : list string) : DataFrame :=
  fold_left (fun df h =>
    if existsb (String.eqb h) (df_columns df) then df
    else {| df_columns := (df_columns df ++ [h])%list;
            df_records := map (fun r => (r ++ [(h, VStr "")])%list) (df_records df) |})
    hs df.

(** The sheet [df.to_excel(buf, index=False)] writes: the column labels, then
    one line per record. *)
Definition to_excel (df : DataFrame) : list (list value) :=
  map VStr (df_columns df)
  :: map (fun r => map (get r) (df_columns df)) (df_records df).

(** The table of the PDF: [[headers] + [[r.get(h, '') for h in headers]]]. *)
Definition pdf_data (rows : list dict) : list (list value) :=
  map VStr headers
  :: map (fun r => map (fun h => get_default r h (VStr "")) headers) rows.

Definition xlsx_mimetype : string :=
  "application/vnd.openxmlformats-officedocument.spreadsheetml.sheet".

(** [export_participants]. *)
Definition export_participants (env : environment) (st : store)
  (args : request_args) : pyres response :=
  let fmt := str_lower (form_get (arg_format args) "xlsx") in
  let dept_name := selected_dept_name st (arg_dept_id args) in
  let event_name := selected_event_name st (arg_event_id args) in
  rows ← py_sorted key_dept_event_name (export_rows st args);
  part_dept ← (if truthy dept_name then _sanitize dept_name
               else Ok "all_departments");
  part_event ← (if truthy event_name then _sanitize event_name
                else Ok "all_events");
  let base_filename := "tantra_" ++ part_dept ++ "_" ++ part_event in
  if String.eqb fmt "xlsx" then
    if has_pandas env then
      let df := df_add_missing (pd_DataFrame rows) headers in
      Ok (SendFile (base_filename ++ ".xlsx") xlsx_mimetype (to_excel df))
    else
      Ok (Response
            "pandas is required to export XLSX. Install with `pip install pandas openpyxl`"
            500)
  else if String.eqb fmt "pdf" then
    if has_reportlab env then
      Ok (SendFile (base_filename ++ ".pdf") "application/pdf" (pdf_data rows))
    else
      Ok (Response
            "reportlab is required to export PDF. Install with `pip install reportlab`"
            500)
  else Ok (Response "Unsupported format. Allowed: xlsx, pdf" 400).

(* ================================================================== *)
(** * Notions used in the statements *)

(** ** Shapes of strings and numerals *)

(** Every character of a string satisfies [p]. *)
Fixpoint all_chars (p : ascii -> bool) (s : string) : bool :=
  match s with
  | EmptyString => true
  | String c t => p c && all_chars p t
  end.

Definition is_digit (c : ascii) : bool := in_range 48 57 c.

(** The value of a decimal numeral read from the left with [acc] so far. *)
Fixpoint uint_val (d : Decimal.uint) (acc : Z) : Z :=
  match d with
  | Decimal.Nil => acc
  | Decimal.D0 l => uint_val l (10 * acc + 0)
  | Decimal.D1 l => uint_val l (10 * acc + 1)
  | Decimal.D2 l => uint_val l (10 * acc + 2)
  | Decimal.D3 l => uint_val l (10 * acc + 3)
  | Decimal.D4 l => uint_val l (10 * acc + 4)
  | Decimal.D5 l => uint_val l (10 * acc + 5)
  | Decimal.D6 l => uint_val l (10 * acc + 6)
  | Decimal.D7 l => uint_val l (10 * acc + 7)
  | Decimal.D8 l => uint_val l (10 * acc + 8)
  | Decimal.D9 l => uint_val l (10 * acc + 9)
  end.

Fixpoint str_filter (p : ascii -> bool) (s : string) : string :=
  match s with
  | EmptyString => EmptyString
  | String c t => if p c then String c (str_filter p t) else str_filter p t
  end.

Definition starts_with (p : ascii -> bool) (s : string) : bool :=
  match s with
  | EmptyString => false
  | String c _ => p c
  end.

Fixpoint ends_with (p : ascii -> bool) (s : string) : bool :=
  match s with
  | EmptyString => false
  | String c EmptyString => p c
  | String _ t => ends_with p t
  end.

(** Two neighbouring characters both satisfy [p]. *)
Fixpoint has_adjacent (p : ascii -> bool) (s : string) : bool :=
  match s with
  | EmptyString => false
  | String c t => (p c && starts_with p t) || has_adjacent p t
  end.

Definition is_file_char (c : ascii) : bool :=
  is_lower_alnum c || is_underscore c.

(** ** The order of the sort keys *)

(** Lexicographic comparison of tuples of strings, each component compared
    by code points: the order Python gives tuples of [str]. *)
Fixpoint lex_compare (a b : list string) : comparison :=
  match a, b with
  | [], [] => Eq
  | [], _ :: _ => Lt
  | _ :: _, [] => Gt
  | x :: a', y :: b' =>
      match String.compare x y with
      | Eq => lex_compare a' b'
      | c => c
      end
  end.

Definition lex_ltb (a b : list string) : bool :=
  match lex_compare a b with Lt => true | _ => false end.

(** [a <= b] for tuples of strings. *)
Definition lex_le (a b : list string) : Prop := lex_compare a b <> Gt.

(** The string held by a value, for values that are strings. *)
Definition str_of (v : value) : string :=
  match v with VStr s => s | _ => "" end.

Definition is_str (v : value) : bool :=
  match v with VStr _ => true | _ => false end.

(** A row ordered before another by (dept_name, event_name, name), and by
    (dept_name, name). *)
Definition le_dept_event_name (r1 r2 : dict) : Prop :=
  lex_le (map str_of (key_dept_event_name r1))
         (map str_of (key_dept_event_name r2)).

Definition le_dept_name (r1 r2 : dict) : Prop :=
  lex_le (map str_of (key_dept_name r1)) (map str_of (key_dept_name r2)).

(** The three sort fields of a row are strings. *)
Definition str_keys (r : dict) : Prop :=
  forallb is_str (key_dept_event_name r) = true.

(** ** Well-formed stores *)

(** Every department document has a [name] field. *)
Definition departments_named (st : store) : Prop :=
  Forall (fun d => is_Some (assoc "name" (snd d))) (departments st).

(** Field [k] of a document is a string or absent. *)
Definition str_or_missing (d : dict) (k : string) : bool :=
  match assoc k d with
  | None | Some (VStr _) => true
  | Some _ => false
  end.

(** The fields the export sorts by and builds the file name from hold
    strings wherever they are present: name, department and event of every
    participant, and the name of every department and event. *)
Definition store_typed (st : store) : Prop :=
  Forall (fun p => str_or_missing (snd p) "name" = true /\
                   str_or_missing (snd p) "department" = true /\
                   str_or_missing (snd p) "event" = true) (participants st) /\
  Forall (fun d => str_or_missing (snd d) "name" = true) (departments st) /\
  Forall (fun e => str_or_missing (snd e) "name" = true) (events st).

(** The resolver returns for this registration (no exception). *)
Definition resolves (st : store) (reg : string * dict) : Prop :=
  _resolve_participant_from_registration st (snd reg) <> Raised.

(** ** Readings of the handlers' results *)

(** The status the toggle stores, from the fields of the event: a missing
    status is read as 1, the default of [ev.get('status', 1)], and 1 is
    toggled to 0. *)
Definition toggled_status (ev : dict) : Z :=
  match assoc "status" ev with
  | None => 0
  | Some current => if py_eqb current (VInt 1) then 0 else 1
  end.

(** The reading under which a missing status belongs to the values that are
    set to 1. *)
Definition toggled_status_missing_to_1 (ev : dict) : Z :=
  match assoc "status" ev with
  | None => 1
  | Some current => if py_eqb current (VInt 1) then 0 else 1
  end.

(** The normalized identity of a participant document,
    [lower(strip(email or phone or doc-id))]. *)
Definition normalized_identity (repr_dict : dict -> string)
  (pdoc : string * dict) : string :=
  str_lower (str_strip (py_str repr_dict (ident_of pdoc))).

(** The cells of a row under the canonical headers. *)
Definition row_cells (r : dict) : list value := map (get r) headers.

Definition unsupported_format : response :=
  Response "Unsupported format. Allowed: xlsx, pdf" 400.

(** The parts of a response that carries a file. *)
Definition file_name (r : pyres response) : string :=
  match r with
  | Ok (SendFile n _ _) => n
  | _ => ""
  end.

Definition file_table (r : pyres response) : list (list value) :=
  match r with
  | Ok (SendFile _ _ t) => t
  | _ => []
  end.

Definition reg_inline (reg_data : dict) : value := get reg_data "participant".

(** The first present (true) one of participant_id, user_id, uid. *)
Definition reg_pid (reg_data : dict) : value :=
  py_or (py_or (get reg_data "participant_id") (get reg_data "user_id"))
        (get reg_data "uid").

(** The first present (true) one of participant_email, email, user_email. *)
Definition reg_email (reg_data : dict) : value :=
  py_or (py_or (get reg_data "participant_email") (get reg_data "email"))
        (get reg_data "user_email").

(** The first document of a collection whose [email] field equals [email]. *)
Fixpoint first_with_email (email : value) (c : collection) : option dict :=
  match c with
  | [] => None
  | doc :: rest =>
      match assoc "email" (snd doc) with
      | Some x =>
          if fs_eqb x email then Some (snd doc)
          else first_with_email email rest
      | None => first_with_email email rest
      end
  end.

(** Clause (1) of the resolver contract as the specification words it: an
    embedded participant dict is returned verbatim. *)
Definition returns_embedded_verbatim (st : store) (reg_data : dict) : Prop :=
  forall p, reg_inline reg_data = VDict p ->
            _resolve_participant_from_registration st reg_data = Ok (Some p).

(** The [batch_ids] of the successive turns of the outer loop. *)
Definition batches (event_ids : list string) : list (list string) :=
  map (fun i => slice i (i + BATCH) event_ids)
      (py_range 0 (length event_ids) BATCH).

(** The registrations a batch query returns. *)
Definition batch_regs (st : store) (batch_ids : list string) : collection :=
  where_in "event_id" batch_ids (registrations st).

(** The resolver yields a participant record for this registration, not
    NotFound. *)
Definition resolvable (st : store) (reg : string * dict) : bool :=
  match _resolve_participant_from_registration st (snd reg) with
  | Ok (Some _) => true
  | _ => false
  end.

(** The resolver yields a non-empty participant record. *)
Definition resolved_nonempty (st : store) (reg : string * dict) : bool :=
  match _resolve_participant_from_registration st (snd reg) with
  | Ok (Some (_ :: _)) => true
  | _ => false
  end.

(** The rows contributed by the registrations of one query. *)
Definition batch_rows (st : store) (event_map : list (string * dict))
  (regs : collection) : list dict :=
  flat_map (fun reg =>
    match _resolve_participant_from_registration st (snd reg) with
    | Ok (Some (f :: p)) => [gather_row event_map (snd reg) (f :: p)]
    | _ => []
    end) regs.

(** The reading of the row count as the number of registrations for which
    the resolver does not yield NotFound. *)
Definition row_count_is_resolvable_count (st : store) (dept_id : string)
  (event_id : option string) : Prop :=
  forall rows,
    snd (_gather_participants st dept_id event_id) = Ok rows ->
    length rows =
    length (List.filter (resolvable st)
              (flat_map (batch_regs st)
                 (batches (fst (gather_events st dept_id event_id))))).

(** ** Sample data *)

Definition env_full : environment :=
  {| has_pandas := true; has_reportlab := true |}.

Definition no_args : request_args :=
  {| arg_dept_id := None; arg_event_id := None; arg_format := None |}.

Definition pdf_args : request_args :=
  {| arg_dept_id := None; arg_event_id := None; arg_format := Some "pdf" |}.

Definition store_empty : store :=
  {| departments := []; events := []; participants := [];
     registrations := []; users := [] |}.

Definition store_no_status : store :=
  {| departments := [];
     events := [("7", [("name", VStr "Quiz"); ("department", VStr "cs")])];
     participants := [];
     registrations := [];
     users := [] |}.

Definition sample_form : event_form :=
  {| f_dept_id := "cs"; f_name := "Quiz"; f_description := "A quiz";
     f_date := "2025-01-10"; f_time := "10:00"; f_venue := "Hall";
     f_image_url := ""; f_status := None; f_price := Some "50";
     f_prize := None; f_created_at := VNone |}.

Definition store_three_events : store :=
  {| departments := [("cs", [("name", VStr "Computer Science")])];
     events := [("2", []); ("draft", []); ("10", []); ("9", [])];
     participants := [];
     registrations := [];
     users := [] |}.

Definition store_same_email : store :=
  {| departments := [];
     events := [];
     participants :=
       [ ("p1", [("name", VStr "Amy"); ("email", VStr "Amy@Example.COM ")]);
         ("p2", [("name", VStr "Amy B"); ("email", VStr " amy@example.com")]);
         ("p3", [("name", VStr "Bob"); ("phone", VStr "555 0100")]) ];
     registrations := [];
     users := [] |}.

Definition amy : dict :=
  [("name", VStr "Amy"); ("email", VStr "amy@example.org")].

Definition store_amy : store :=
  {| departments := [("cs", [("name", VStr "Computer Science")])];
     events := [("1", [("name", VStr "Quiz"); ("department", VStr "cs")])];
     participants := [("p1", amy)];
     registrations :=
       [ ("r1", [("event_id", VStr "1"); ("participant_id", VStr "p1")]);
         ("r2", [("event_id", VStr "1"); ("participant_id", VStr "ghost")]);
         ("r3", [("event_id", VStr "1"); ("email", VStr "amy@example.org")]) ];
     users := [("u1", [("name", VStr "Uma"); ("email", VStr "uma@example.org")])] |}.

Definition reg_empty_embedded : dict :=
  [("participant", VDict []); ("participant_id", VStr "p1")].

Definition reg_stale_id : dict :=
  [("participant_id", VStr "ghost"); ("email", VStr "amy@example.org")].

Definition store_empty_participant : store :=
  {| departments := [("cs", [("name", VStr "Computer Science")])];
     events := [("1", [("name", VStr "Quiz"); ("department", VStr "cs")])];
     participants := [("p1", [])];
     registrations :=
       [("r1", [("event_id", VStr "1"); ("participant_id", VStr "p1")])];
     users := [] |}.

Definition event_numbered (n : Z) : string * dict :=
  (str_of_int n, [("name", VStr "Event"); ("department", VStr "cs")]).

(** Fifteen events of one department, with registrations for the first, the
    tenth and the eleventh. *)
Definition store_fifteen : store :=
  {| departments := [("cs", [("name", VStr "Computer Science")])];
     events := map event_numbered
                 [1; 2; 3; 4; 5; 6; 7; 8; 9; 10; 11; 12; 13; 14; 15];
     participants := [("p1", amy)];
     registrations :=
       [ ("r1", [("event_id", VStr "11"); ("participant_id", VStr "p1")]);
         ("r2", [("event_id", VStr "1"); ("participant_id", VStr "ghost")]);
         ("r3", [("event_id", VStr "10"); ("email", VStr "amy@example.org")]);
         ("r4", [("event_id", VStr "99"); ("participant_id", VStr "p1")]) ];
     users := [] |}.

Definition p_amy_zumba : dict :=
  [("name", VStr "Amy"); ("department", VStr "Arts"); ("event", VStr "Zumba")].

Definition p_bob_acting : dict :=
  [("name", VStr "Bob"); ("department", VStr "Arts"); ("event", VStr "Acting")].

Definition store_two_events : store :=
  {| departments := [("d1", [("name", VStr "Arts")])];
     events := [];
     participants :=
       [ ("p1", [("name", VStr "Amy"); ("department", VStr "Arts");
                 ("event", VStr "Zumba")]);
         ("p2", [("name", VStr "Bob"); ("department", VStr "Arts");
                 ("event", VStr "Acting")]) ];
     registrations := [];
     users := [] |}.

Definition store_missing_name : store :=
  {| departments := [("d1", [("name", VStr "Arts")])];
     events := [];
     participants :=
       [ ("p1", [("name", VStr "Bob"); ("department", VStr "Arts")]);
         ("p2", [("department", VStr "Arts")]) ];
     registrations := [];
     users := [] |}.

(* ================================================================== *)
(** * The other handlers *)

(** ** [make_static_url] *)

Definition is_slash (c : ascii) : bool := (code c =? 47)%N.

(** [make_static_url(filename)]: [curr_link.rstrip('/') + path], where [path]
    is what [url_for('static', filename=filename)] returns. *)
Definition make_static_url (curr_link path : string) : string :=
  rstrip is_slash curr_link ++ path.

(** ** [index]: the recent events *)

(** [{d.id: d.to_dict().get('name', '') for d in depts}] *)
Definition dept_map (depts : collection) : list (string * value) :=
  fold_left (fun m d =>
               assoc_set (fst d) (get_default (snd d) "name" (VStr "")) m)
            depts [].

(** [dept_map.get(did, (did or ''))]: the keys are strings; a map cannot be
    hashed and raises TypeError. *)
Definition dept_map_get (m : list (string * value)) (did : value)
  : pyres value :=
  match did with
  | VDict _ => Raised
  | VStr s =>
      Ok (match assoc s m with
          | Some name => name
          | None => py_or did (VStr "")
          end)
  | _ => Ok (py_or did (VStr ""))
  end.

(** The loop of [index] that fills [recent_events]. *)
Fixpoint recent_events_loop (m : list (string * value)) (events : collection)
  : pyres (list dict) :=
  match events with
  | [] => Ok []
  | e :: rest =>
      let ed := snd e in
      let did := get ed "department" in
      dept_name ← dept_map_get m did;
      match recent_events_loop m rest with
      | Ok l =>
          Ok ([ ("id", VStr (fst e));
                ("name", get ed "name");
                ("dept_id", did);
                ("dept_name", dept_name);
                ("date", get ed "date");
                ("status", get_default ed "status" (VInt 1)) ] :: l)
      | Raised => Raised
      end
  end.

Definition recent_events (st : store) : pyres (list dict) :=
  recent_events_loop (dept_map (departments st)) (events st).

(** ** [dept_events] and [get_event] *)

(** The body of [jsonify] in [dept_events]: the events and, unless the id is
    empty, the [dept_id]. *)
Record events_json : Type := mkEventsJson {
  ej_events : list dict;
  ej_dept_id : option string
}.

Definition event_summary (e : string * dict) : dict :=
  let ed := snd e in
  [ ("id", VStr (fst e));
    ("name", get ed "name");
    ("date", get ed "date");
    ("status", get_default ed "status" (VInt 1));
    ("image_url", get_default ed "image_url" (VStr ""));
    ("venue", get_default ed "venue" (VStr ""));
    ("department", get_default ed "department" (VStr "")) ].

Definition dept_events (st : store) (dept_id : string) : events_json :=
  if String.eqb dept_id "" then {| ej_events := []; ej_dept_id := None |}
  else
    {| ej_events :=
         map event_summary (where_eq "department" (VStr dept_id) (events st));
       ej_dept_id := Some dept_id |}.

Inductive event_json : Type :=
| EventError (error : string) (status : Z)
| EventFound (event : dict).

Definition event_details (id : string) (ed : dict) : dict :=
  [ ("id", VStr id);
    ("name", get ed "name");
    ("description", get_default ed "description" (VStr ""));
    ("date", get_default ed "date" (VStr ""));
    ("time", get_default ed "time" (VStr ""));
    ("venue", get_default ed "venue" (VStr ""));
    ("image_url", get_default ed "image_url" (VStr ""));
    ("status", get_default ed "status" (VInt 1));
    ("department", get_default ed "department" (VStr ""));
    ("price", get_default ed "price" (VStr ""));
    ("prize", get_default ed "prize" (VStr "")) ].

Definition get_event (st : store) (event_id : string) : event_json :=
  if String.eqb event_id "" then EventError "missing id" 400
  else
    match document_get (events st) event_id with
    | None => EventError "not found" 404
    | Some ed => EventFound (event_details event_id ed)
    end.

(** ** [add_department] *)

(** The POST form of [add_department]; [logo_url] and [qr_url] are the URLs
    under which the uploads were saved (empty without an upload). *)
Record department_form : Type := mkDepartmentForm {
  d_name : string;
  d_description : string;
  d_logo_url : string;
  d_qr_url : string;
  d_created_at : value
}.

Definition new_department_doc (f : department_form) : dict :=
  [ ("name", VStr (d_name f));
    ("description", VStr (d_description f));
    ("logo_url", VStr (d_logo_url f));
    ("qr_url", VStr (d_qr_url f));
    ("created_at", d_created_at f) ].

(** [add_department] on a POST request; [auto_id] is the id that
    [db.collection('departments').document()] generates. *)
Definition add_department (st : store) (auto_id : string)
  (f : department_form) : store :=
  {| departments := document_set (departments st) auto_id
                      (new_department_doc f);
     events := events st;
     participants := participants st;
     registrations := registrations st;
     users := users st |}.

(** ** [db_content] *)

Record dept_content : Type := mkDeptContent {
  dc_dept_id : string;
  dc_dept_name : value;
  dc_description : value;
  dc_logo_url : value;
  dc_qr_url : value;
  dc_events : list dict
}.

(** [ev = e.to_dict(); ev['_id'] = e.id] *)
Definition with_id (e : string * dict) : dict :=
  assoc_set "_id" (VStr (fst e)) (snd e).

(** The list [all_data] that [db_content] hands to the template. *)
Definition db_content (st : store) : list dept_content :=
  map (fun dept =>
         let dept_data := snd dept in
         {| dc_dept_id := fst dept;
            dc_dept_name := get dept_data "name";
            dc_description := get dept_data "description";
            dc_logo_url := get dept_data "logo_url";
            dc_qr_url := get dept_data "qr_url";
            dc_events :=
              map with_id
                (where_eq "dept_id" (VStr (fst dept)) (events st)) |})
      (departments st).

(** ** [fix_events] *)

(** The POST form of [fix_events]. *)
Record fix_form : Type := mkFixForm {
  fx_event_id : option string;
  fx_dept_id : option string
}.

(** [collection.document(id).update({k: v})] without a check before: the
    store refuses to update a document that does not exist. *)
Definition document_update_checked (c : collection) (id k : string)
  (v : value) : pyres collection :=
  match document_get c id with
  | Some _ => Ok (document_update c id k v)
  | None => Raised
  end.

(** [not did or did not in dept_ids], with [dept_ids] a set of strings; a
    non-empty map cannot be hashed and raises TypeError. *)
Definition is_problematic (dept_ids : list string) (did : value)
  : pyres bool :=
  if negb (truthy did) then Ok true
  else
    match did with
    | VStr s => Ok (negb (existsb (String.eqb s) dept_ids))
    | VDict _ => Raised
    | _ => Ok true
    end.

Definition problematic_entry (e : string * dict) : dict :=
  [ ("id", VStr (fst e));
    ("name", get (snd e) "name");
    ("date", get (snd e) "date");
    ("dept_id", get (snd e) "dept_id") ].

(** The loop of [fix_events] that fills [problematic]. *)
Fixpoint problematic_loop (dept_ids : list string) (events : collection)
  : pyres (list dict) :=
  match events with
  | [] => Ok []
  | e :: rest =>
      b ← is_problematic dept_ids (get (snd e) "dept_id");
      match problematic_loop dept_ids rest with
      | Ok l => Ok (if b : bool then problematic_entry e :: l else l)
      | Raised => Raised
      end
  end.

(** What [fix_events] leaves and renders: the store, the list of problematic
    events and the message. [post] is the form of a POST request, [None] for
    a GET. *)
Record fix_result : Type := mkFixResult {
  fr_store : store;
  fr_events : list dict;
  fr_message : string
}.

Definition fix_events (st : store) (post : option fix_form)
  : pyres fix_result :=
  let dept_ids := map fst (departments st) in
  updated ←
    match post with
    | Some f =>
        if arg_truthy (fx_event_id f) && arg_truthy (fx_dept_id f) then
          evs ← document_update_checked (events st)
                  (form_get (fx_event_id f) "") "dept_id"
                  (VStr (form_get (fx_dept_id f) ""));
          Ok ({| departments := departments st;
                 events := evs;
                 participants := participants st;
                 registrations := registrations st;
                 users := users st |},
              "Updated event department.")
        else Ok (st, "")
    | None => Ok (st, "")
    end;
  problematic ← problematic_loop dept_ids (events (fst updated));
  Ok {| fr_store := fst updated;
        fr_events := problematic;
        fr_message := snd updated |}.

(** ** [view_participants]: the events offered for selection *)

(** [events_for_select]: the names of the events of the selected department,
    or of all events; the template takes the name as value and as label. *)
Definition events_for_select (st : store) (dept_id : option string)
  : list value :=
  map (fun e => get (snd e) "name")
    (if arg_truthy dept_id
     then where_eq "department" (VStr (form_get dept_id "")) (events st)
     else events st).

(* ================================================================== *)
(** ** Notions used in the further statements *)

(** Document ids are unique within a collection. *)
Definition unique_ids (c : collection) : Prop := NoDup (map fst c).

(** A value that cannot be a member of a set: a non-empty map. *)
Definition unhashable (v : value) : bool := truthy v && is_dict v.

(** The value is the id of one of the departments. *)
Definition names_department (ids : list string) (v : value) : bool :=
  match v with
  | VStr s => negb (String.eqb s "") && existsb (String.eqb s) ids
  | _ => false
  end.

(** The events whose [dept_id] names no department. *)
Definition unassigned (st : store) : collection :=
  List.filter
    (fun e => negb (names_department (map fst (departments st))
                      (get (snd e) "dept_id")))
    (events st).

(** The form that the fix page posts. *)
Definition fix_post (event_id dept_id : string) : option fix_form :=
  Some {| fx_event_id := Some event_id; fx_dept_id := Some dept_id |}.

(** Some data. *)
Definition store_dept_id : store :=
  {| departments := [ ("cs", [("name", VStr "Computer Science")]);
                      ("ec", [("name", VStr "Electronics")]) ];
     events :=
       [ ("1", [("name", VStr "Quiz"); ("dept_id", VStr "cs")]);
         ("2", [("name", VStr "Race"); ("department", VStr "ec")]);
         ("3", [("name", VStr "Jam"); ("dept_id", VStr "gone")]) ];
     participants := [];
     registrations := [];
     users := [] |}.

(** Field [k] of the document equals [v], or no value is asked for. *)
Definition field_is (k : string) (v : value) (p : dict) : bool :=
  negb (truthy v)
  || match assoc k p with Some x => fs_eqb x v | None => false end.

(** The participants of a department and an event, in stream order. *)
Definition selected (st : store) (dept event : value) : list dict :=
  List.filter (fun p => field_is "department" dept p && field_is "event" event p)
    (map snd (participants st)).

Definition str_or_none (v : value) : bool :=
  match v with VNone | VStr _ => true | _ => false end.

(** Every participant has a name, and name, department and event are strings
    where present. *)
Definition participants_typed (st : store) : Prop :=
  Forall (fun p => is_str (get (snd p) "name") = true /\
                   str_or_missing (snd p) "department" = true /\
                   str_or_missing (snd p) "event" = true) (participants st).

(** The sort key of the listing. *)
Definition view_key (args : request_args) : dict -> list value :=
  if arg_truthy (arg_event_id args) then key_dept_event_name
  else key_dept_name.

Definition store_arts : store :=
  {| departments := [("d1", [("name", VStr "Arts")]);
                     ("d2", [("name", VStr "Music")])];
     events := [("7", [("name", VStr "Zumba"); ("department", VStr "d1")])];
     participants :=
       [ ("p1", [("name", VStr "Cy"); ("department", VStr "Arts");
                 ("event", VStr "Zumba")]);
         ("p2", [("name", VStr "Amy"); ("department", VStr "Music");
                 ("event", VStr "Choir")]);
         ("p3", [("name", VStr "Bob"); ("department", VStr "Arts");
                 ("event", VStr "Acting")]);
         ("p4", [("name", VStr "Amy"); ("department", VStr "Arts");
                 ("event", VStr "Zumba")]) ];
     registrations := [];
     users := [] |}.

Definition arts_args : request_args :=
  {| arg_dept_id := Some "d1"; arg_event_id := None; arg_format := None |}.

(** The name the dashboard shows for the department value of an event: the
    stored name of the department with that id, else the value itself, and
    the empty string for a false value. *)
Definition shown_dept_name (st : store) (did : value) : value :=
  match did with
  | VStr s =>
      match document_get (departments st) s with
      | Some d => get_default d "name" (VStr "")
      | None => did
      end
  | _ => py_or did (VStr "")
  end.

(** ** The sanitization as the specification words it *)

(** [c], a character of [[a-z0-9]], in front of the words of [t]: it extends
    the first word when [t] begins with such a character, and is a word of
    its own otherwise. *)
Definition cons_word (c : ascii) (t : string) (ws : list string)
  : list string :=
  if starts_with is_lower_alnum t then
    match ws with
    | w :: ws' => String c w :: ws'
    | [] => [String c EmptyString]
    end
  else String c EmptyString :: ws.

(** The words of a string: its maximal runs of characters of [[a-z0-9]], in
    order. Every other character separates words. *)
Fixpoint alnum_words (s : string) : list string :=
  match s with
  | EmptyString => []
  | String c t =>
      if is_lower_alnum c then cons_word c t (alnum_words t)
      else alnum_words t
  end.

(** The words with one underscore between neighbours. *)
Fixpoint join_words (ws : list string) : string :=
  match ws with
  | [] => ""
  | w :: rest =>
      match rest with
      | [] => w
      | _ :: _ => w ++ "_" ++ join_words rest
      end
  end.

(** Lower-case, one underscore for every run of other characters, none at
    the ends, and [value] when nothing is left: the words of the lower-cased
    string joined by underscores, or [value] without a word. *)
Definition spec_sanitize (s : string) : string :=
  match alnum_words (str_lower s) with
  | [] => "value"
  | ws => join_words ws
  end.

(** A department whose name is the empty string, and a request for it. *)
Definition store_empty_name : store :=
  {| departments := [("d1", [("name", VStr "")])];
     events := [];
     participants := [];
     registrations := [];
     users := [] |}.

Definition d1_args : request_args :=
  {| arg_dept_id := Some "d1"; arg_event_id := None; arg_format := None |}.

(* ================================================================== *)
(** * Properties *)

(** Unfolding of the monadic bind of [pyres]. *)
Ltac simpl_bind :=
  unfold mbind, pyres_bind, mret, pyres_ret in *; simpl in *.

Ltac unfold_bind :=
  unfold mbind, pyres_bind, mret, pyres_ret in *; cbn beta iota in *.

(** ** Association lists and documents *)

Lemma assoc_set_eq {A : Type} (k : string) (v : A) (d : list (string * A)) :
  assoc k (assoc_set k v d) = Some v.
Proof.
  induction d as [|[k' v'] t IH]; simpl.
  - by rewrite String.eqb_refl.
  - destruct (String.eqb k k') eqn:E; simpl.
    + by rewrite String.eqb_refl.
    + by rewrite E.
Qed.

Lemma assoc_set_ne {A : Type} (k k' : string) (v : A) (d : list (string * A)) :
  k ≠ k' -> assoc k' (assoc_set k v d) = assoc k' d.
Proof.
  intros Hne. induction d as [|[k0 v0] t IH]; simpl.
  - destruct (String.eqb_spec k' k); congruence.
  - destruct (String.eqb_spec k k0) as [->|Hk]; simpl.
    + destruct (String.eqb_spec k' k0); congruence.
    + destruct (String.eqb_spec k' k0); congruence.
Qed.

Lemma assoc_set_keys {A : Type} (k : string) (v : A) (d : list (string * A)) :
  is_Some (assoc k d) -> map fst (assoc_set k v d) = map fst d.
Proof.
  induction d as [|[k0 v0] t IH]; simpl; intros [x Hx]; [done|].
  destruct (String.eqb_spec k k0) as [->|Hk]; simpl; [done|].
  f_equal. apply IH. eauto.
Qed.

Lemma document_update_get (c : collection) (id k : string) (v : value) :
  document_get (document_update c id k v) id
  = assoc_set k v <$> document_get c id.
Proof.
  unfold document_get. induction c as [|[id' d] t IH]; simpl; [done|].
  destruct (String.eqb_spec id id') as [->|Hne]; simpl.
  - by rewrite String.eqb_refl.
  - destruct (String.eqb_spec id id'); [congruence|done].
Qed.

Lemma document_update_get_ne (c : collection) (id id' k : string) (v : value) :
  id ≠ id' ->
  document_get (document_update c id k v) id' = document_get c id'.
Proof.
  intros Hne. unfold document_get.
  induction c as [|[id0 d] t IH]; simpl; [done|].
  destruct (String.eqb_spec id id0) as [->|H0]; simpl.
  - destruct (String.eqb_spec id' id0); congruence.
  - destruct (String.eqb_spec id' id0); congruence.
Qed.

Lemma document_update_ids (c : collection) (id k : string) (v : value) :
  map fst (document_update c id k v) = map fst c.
Proof.
  induction c as [|[id0 d] t IH]; simpl; [done|].
  destruct (String.eqb id id0); simpl; congruence.
Qed.

Lemma document_update_length (c : collection) (id k : string) (v : value) :
  length (document_update c id k v) = length c.
Proof.
  induction c as [|[id0 d] t IH]; simpl; [done|].
  destruct (String.eqb id id0); simpl; congruence.
Qed.

(* ================================================================== *)
(** ** [toggle_event_status] *)

(** C10, as amended: for an existing event document the toggle writes the
    [status] field only. Every other field of that document, every other
    document, the order of the collection and the other collections are
    unchanged. The new status is 0 when the current status equals 1 (Python
    [==]) and 1 for any other stored value; a missing status counts as 1 and
    is therefore set to 0. When [event_id] is missing, empty, or names no
    document, the store is left as it was. *)
Theorem toggle_event_status_frame (st : store) (event_id : option string) :
  let st' := toggle_event_status st event_id in
  departments st' = departments st /\
  participants st' = participants st /\
  registrations st' = registrations st /\
  users st' = users st /\
  map fst (events st') = map fst (events st) /\
  (forall id, event_id <> Some id ->
     document_get (events st') id = document_get (events st) id) /\
  (forall id ev,
     event_id = Some id -> id <> "" ->
     document_get (events st) id = Some ev ->
     exists ev',
       document_get (events st') id = Some ev' /\
       (forall k, k <> "status" -> assoc k ev' = assoc k ev) /\
       assoc "status" ev' = Some (VInt (toggled_status ev))) /\
  (event_id = None \/ event_id = Some "" \/
   (exists id, event_id = Some id /\ document_get (events st) id = None) ->
   st' = st).
Proof.
  unfold toggle_event_status.
  destruct event_id as [eid|]; simpl; [|by split_and!].
  destruct (String.eqb_spec eid "") as [->|Hne].
  { split_and!; try done. by intros id ev [= <-] Hid. }
  destruct (document_get (events st) eid) as [ev|] eqn:Hget; simpl.
  - split_and!; try done.
    + apply document_update_ids.
    + intros id Hid. apply document_update_get_ne. congruence.
    + intros id ev0 [= <-] _ Hev.
      assert (ev0 = ev) as -> by congruence.
      eexists. split; [|split].
      * rewrite document_update_get, Hget. reflexivity.
      * intros k Hk. apply assoc_set_ne. congruence.
      * rewrite assoc_set_eq. unfold toggled_status, get_default.
        destruct (assoc "status" ev); done.
    + intros [H|[H|(id & [= <-] & H)]]; try discriminate; congruence.
  - split_and!; try done.
    intros id ev [= <-] _ Hev. congruence.
Qed.

Lemma toggle_event_status_frame_witness :
  let st' := toggle_event_status store_no_status (Some "7") in
  map fst (events st') = ["7"] /\
  document_get (events st') "7"
  = Some [("name", VStr "Quiz"); ("department", VStr "cs");
          ("status", VInt 0)] /\
  toggle_event_status store_no_status (Some "8") = store_no_status.
Proof.
  pose proof (toggle_event_status_frame store_no_status (Some "7"))
    as (_ & _ & _ & _ & Hids & _ & _ & _).
  pose proof (toggle_event_status_frame store_no_status (Some "8"))
    as (_ & _ & _ & _ & _ & _ & _ & Hsame).
  split; [exact Hids|]. split; [reflexivity|].
  apply Hsame. right. right. exists "8". split; reflexivity.
Defined.

(** C10 as stated fails: an event document without a [status] field is set
    to 0 by the toggle, not to 1. *)
Lemma toggle_missing_status_counterexample :
  exists ev ev',
    document_get (events store_no_status) "7" = Some ev /\
    assoc "status" ev = None /\
    document_get (events (toggle_event_status store_no_status (Some "7"))) "7"
    = Some ev' /\
    assoc "status" ev' = Some (VInt 0) /\
    assoc "status" ev' <> Some (VInt (toggled_status_missing_to_1 ev)).
Proof.
  eexists _, _. repeat split; try reflexivity. discriminate.
Qed.

(* ================================================================== *)
(** ** Decimal numerals: [int(str(n)) = n] *)

Lemma rstrip_none (p : ascii -> bool) (s : string) :
  all_chars (fun c => negb (p c)) s = true -> rstrip p s = s.
Proof.
  induction s as [|c t IH]; simpl; [done|].
  intros [Hc Ht]%andb_prop. rewrite (IH Ht).
  destruct t; [|done].
  by destruct (p c).
Qed.

Lemma strip_none (p : ascii -> bool) (s : string) :
  all_chars (fun c => negb (p c)) s = true -> strip p s = s.
Proof.
  intros H. unfold strip.
  assert (lstrip p s = s) as ->.
  { destruct s as [|c t]; simpl in *; [done|].
    apply andb_prop in H as [Hc _]. by destruct (p c). }
  by apply rstrip_none.
Qed.

Lemma string_of_uint_digits (d : Decimal.uint) :
  all_chars is_digit (NilEmpty.string_of_uint d) = true.
Proof. induction d; simpl; auto. Qed.

Lemma string_of_uint_no_space (d : Decimal.uint) :
  all_chars (fun c => negb (is_int_space c)) (NilEmpty.string_of_uint d) = true.
Proof. induction d; simpl; auto. Qed.

Lemma parse_digits_uint (d : Decimal.uint) (acc : Z) :
  parse_digits acc (NilEmpty.string_of_uint d) = Some (uint_val d acc).
Proof. revert acc. induction d; intros acc; simpl; auto. Qed.

Lemma uint_val_pos (d : Decimal.uint) (acc : positive) :
  uint_val d (Z.pos acc) = Z.pos (Pos.of_uint_acc d acc).
Proof.
  revert acc. induction d; intros acc; simpl; [done|..];
    match goal with
    | |- uint_val _ ?z = Z.pos (Pos.of_uint_acc _ ?q) =>
        replace z with (Z.pos q) by lia; apply IHd
    end.
Qed.

Lemma uint_val_0 (d : Decimal.uint) :
  uint_val d 0 = Z.of_N (Pos.of_uint d).
Proof.
  induction d; simpl; try done; try exact IHd;
    match goal with
    | |- uint_val _ ?z = Z.pos (Pos.of_uint_acc _ ?q) =>
        replace z with (Z.pos q) by lia; apply uint_val_pos
    end.
Qed.

Lemma parse_unsigned_uint (d : Decimal.uint) :
  d <> Decimal.Nil ->
  parse_unsigned (NilEmpty.string_of_uint d) = Some (Z.of_N (Pos.of_uint d)).
Proof.
  intros Hd. rewrite <- uint_val_0, <- parse_digits_uint.
  destruct d; first [congruence | reflexivity].
Qed.

Lemma str_of_int_pos (p : positive) :
  str_of_int (Z.pos p) = NilEmpty.string_of_uint (Pos.to_uint p).
Proof.
  unfold str_of_int. simpl.
  pose proof (DecimalPos.Unsigned.to_uint_nonnil p).
  destruct (Pos.to_uint p); simpl; congruence.
Qed.

(** [int(str(n)) == n] for a positive [n]. *)
Lemma py_int_str_of_int (n : Z) : 0 < n -> py_int (str_of_int n) = Some n.
Proof.
  destruct n as [|p|p]; try lia. intros _.
  rewrite str_of_int_pos. unfold py_int.
  rewrite strip_none by apply string_of_uint_no_space.
  pose proof (DecimalPos.Unsigned.to_uint_nonnil p) as Hnil.
  pose proof (parse_unsigned_uint _ Hnil) as Hparse.
  rewrite DecimalPos.Unsigned.of_to in Hparse. simpl in Hparse.
  destruct (Pos.to_uint p); simpl in *; congruence.
Qed.

Lemma str_of_int_digits (n : Z) :
  0 < n -> all_chars is_digit (str_of_int n) = true.
Proof.
  destruct n as [|p|p]; try lia. intros _.
  rewrite str_of_int_pos. apply string_of_uint_digits.
Qed.

(* ================================================================== *)
(** ** [add_event] *)

Lemma max_id_loop_ge (evs : collection) (m : Z) : m <= max_id_loop evs m.
Proof.
  revert m. induction evs as [|ev rest IH]; intros m; simpl; [lia|].
  destruct (py_int (fst ev)) as [eid|]; [|apply IH].
  destruct (Z.gtb_spec eid m); [|apply IH].
  specialize (IH eid). lia.
Qed.

Lemma max_id_loop_bound (evs : collection) (m : Z) (ev : string * dict) (n : Z) :
  In ev evs -> py_int (fst ev) = Some n -> n <= max_id_loop evs m.
Proof.
  revert m. induction evs as [|e rest IH]; intros m; simpl; [done|].
  intros [->|Hin] Hn.
  - rewrite Hn. destruct (Z.gtb_spec n m).
    + apply max_id_loop_ge.
    + pose proof (max_id_loop_ge rest m). lia.
  - destruct (py_int (fst e)) as [eid|]; [|by apply IH].
    destruct (Z.gtb_spec eid m); by apply IH.
Qed.

Lemma max_id_loop_attained (evs : collection) (m : Z) :
  max_id_loop evs m = m \/
  exists ev, In ev evs /\ py_int (fst ev) = Some (max_id_loop evs m).
Proof.
  revert m. induction evs as [|e rest IH]; intros m; simpl; [by left|].
  destruct (py_int (fst e)) as [eid|] eqn:He.
  - destruct (Z.gtb_spec eid m).
    + right. destruct (IH eid) as [->|(ev & Hin & Hev)]; eauto.
    + destruct (IH m) as [Hm|(ev & Hin & Hev)]; eauto.
  - destruct (IH m) as [Hm|(ev & Hin & Hev)]; eauto.
Qed.

Lemma assoc_In {A : Type} (k : string) (v : A) (d : list (string * A)) :
  assoc k d = Some v -> In (k, v) d.
Proof.
  induction d as [|[k' v'] t IH]; simpl; [done|].
  destruct (String.eqb_spec k k') as [->|Hne]; [intros [= ->]; by left|].
  intros H. right. by apply IH.
Qed.

Lemma assoc_set_fresh {A : Type} (k : string) (v : A) (d : list (string * A)) :
  assoc k d = None -> assoc_set k v d = (d ++ [(k, v)])%list.
Proof.
  induction d as [|[k' v'] t IH]; simpl; [done|].
  destruct (String.eqb k k'); [done|]. intros H. by rewrite IH.
Qed.

Lemma dept_list_ok (depts : collection) :
  Forall (fun d => is_Some (assoc "name" (snd d))) depts ->
  exists l, dept_list depts = Ok l.
Proof.
  induction 1 as [|[id d] t [name Hname] _ [l IH]]; simpl in *; [by eexists|].
  rewrite Hname, IH. simpl_bind. by eexists.
Qed.

(** C8: on a store in which [add_event] runs to its end (every department
    has a name and the posted status is a number), the new event gets the id
    [max + 1], where [max] is the result of the scan over all event ids: no
    numeric id of the collection is larger, and it is 0 or the numeric value
    of one of them. The event document is stored under the decimal numeral
    of that id, which no document had before; its [id] field holds the
    number; every other document and collection is unchanged. *)
Theorem add_event_assigns_max_plus_one (st : store) (f : event_form)
  (status : Z) :
  departments_named st ->
  py_int (form_get (f_status f) "1") = Some status ->
  let max_id := max_id_loop (events st) 0 in
  let new_id := max_id + 1 in
  (forall ev n, In ev (events st) -> py_int (fst ev) = Some n -> n <= max_id) /\
  (max_id = 0 \/
   exists ev, In ev (events st) /\ py_int (fst ev) = Some max_id) /\
  all_chars is_digit (str_of_int new_id) = true /\
  py_int (str_of_int new_id) = Some new_id /\
  document_get (events st) (str_of_int new_id) = None /\
  get (new_event_doc st f status) "id" = VInt new_id /\
  exists st',
    add_event st f = Ok st' /\
    document_get (events st') (str_of_int new_id)
    = Some (new_event_doc st f status) /\
    (forall id, id <> str_of_int new_id ->
       document_get (events st') id = document_get (events st) id) /\
    departments st' = departments st /\
    participants st' = participants st /\
    registrations st' = registrations st /\
    users st' = users st.
Proof.
  intros Hnamed Hstatus max_id new_id.
  assert (0 <= max_id) as Hpos by apply max_id_loop_ge.
  assert (py_int (str_of_int new_id) = Some new_id) as Hround
    by (apply py_int_str_of_int; lia).
  assert (forall ev n, In ev (events st) -> py_int (fst ev) = Some n ->
                       n <= max_id) as Hbound
    by (intros ev n; apply max_id_loop_bound).
  assert (document_get (events st) (str_of_int new_id) = None) as Hfresh.
  { unfold document_get.
    destruct (assoc (str_of_int new_id) (events st)) as [d|] eqn:Hd; [|done].
    apply assoc_In in Hd. specialize (Hbound _ new_id Hd Hround). lia. }
  split_and!; try done.
  - apply max_id_loop_attained.
  - apply str_of_int_digits. lia.
  - unfold add_event.
    destruct (dept_list_ok _ Hnamed) as [l ->]. unfold_bind.
    rewrite Hstatus. eexists. split; [reflexivity|].
    cbn [events departments participants registrations users].
    unfold document_set, document_get, new_event_id.
    fold max_id. fold new_id. split_and!; try done.
    + apply assoc_set_eq.
    + intros id Hid. apply assoc_set_ne. congruence.
Qed.

Lemma add_event_assigns_max_plus_one_witness :
  max_id_loop (events store_three_events) 0 = 10 /\
  document_get (events store_three_events) "11" = None /\
  exists st',
    add_event store_three_events sample_form = Ok st' /\
    is_Some (document_get (events st') "11").
Proof.
  assert (departments_named store_three_events) as Hnamed.
  { repeat constructor. by eexists. }
  destruct (add_event_assigns_max_plus_one store_three_events sample_form 1
              Hnamed eq_refl) as (_ & _ & _ & _ & Hfresh & _ & Hadd).
  split; [reflexivity|]. split; [exact Hfresh|].
  destruct Hadd as (st' & Hrun & Hdoc & _).
  exists st'. split; [exact Hrun|]. eexists. exact Hdoc.
Defined.

(* ================================================================== *)
(** ** [index]: the unique participant count *)

Section DashboardFacts.

Variable repr_dict : dict -> string.

Lemma unique_loop_spec (parts : collection) (acc : gset string) :
  unique_loop repr_dict parts acc
  = acc ∪ list_to_set
            (map (normalized_identity repr_dict)
                 (List.filter (fun pdoc => truthy (ident_of pdoc)) parts)).
Proof.
  revert acc. induction parts as [|pdoc rest IH]; intros acc; simpl.
  - set_solver.
  - destruct (truthy (ident_of pdoc)); simpl; rewrite IH; [|done].
    unfold normalized_identity. set_solver.
Qed.

Lemma ident_truthy (pdoc : string * dict) :
  fst pdoc <> "" -> truthy (ident_of pdoc) = true.
Proof.
  intros Hid. unfold ident_of, py_or.
  destruct (truthy (get (snd pdoc) "email")) eqn:He; simpl; rewrite ?He; [done|].
  destruct (truthy (get (snd pdoc) "phone")) eqn:Hp; simpl; rewrite ?Hp; [done|].
  simpl. by destruct (String.eqb_spec (fst pdoc) "").
Qed.

Lemma filter_all {A : Type} (p : A -> bool) (l : list A) :
  Forall (fun x => p x = true) l -> List.filter p l = l.
Proof. induction 1 as [|x t Hx _ IH]; simpl; [done|]. by rewrite Hx, IH. Qed.

Lemma ident_of_email (pdoc : string * dict) (e : string) :
  get (snd pdoc) "email" = VStr e -> e <> "" -> ident_of pdoc = VStr e.
Proof.
  intros He Hne. unfold ident_of, py_or. rewrite He. simpl.
  destruct (String.eqb_spec e ""); [done|]. simpl.
  by destruct (String.eqb_spec e "").
Qed.

End DashboardFacts.

(** C7: the unique participant count of the dashboard is the number of
    distinct normalized identities [lower(strip(email or phone or doc-id))]
    of the participants collection (a document whose email, phone and id are
    all empty has no identity; Firestore ids are never empty, and then every
    document counts). The identity of a document is its email when that is
    present (true in Python's sense), else its phone, else its document id.
    Consequently a second record whose email differs from the first one's
    only in letter case or surrounding white space does not change the
    count. *)
Theorem index_unique_participants (repr_dict : dict -> string) (st : store) :
  total_unique_participants (index repr_dict st)
  = size (list_to_set
            (map (normalized_identity repr_dict)
               (List.filter (fun pdoc => truthy (ident_of pdoc))
                  (participants st))) : gset string) /\
  (Forall (fun pdoc => fst pdoc <> "") (participants st) ->
   total_unique_participants (index repr_dict st)
   = size (list_to_set (map (normalized_identity repr_dict) (participants st))
           : gset string)) /\
  (forall pdoc,
     ident_of pdoc =
       if truthy (get (snd pdoc) "email") then get (snd pdoc) "email"
       else if truthy (get (snd pdoc) "phone") then get (snd pdoc) "phone"
       else VStr (fst pdoc)) /\
  (forall p1 p2 rest e1 e2 st2,
     participants st = p1 :: rest ->
     participants st2 = p1 :: p2 :: rest ->
     get (snd p1) "email" = VStr e1 -> e1 <> "" ->
     get (snd p2) "email" = VStr e2 -> e2 <> "" ->
     str_lower (str_strip e1) = str_lower (str_strip e2) ->
     total_unique_participants (index repr_dict st2)
     = total_unique_participants (index repr_dict st)).
Proof.
  assert (total_unique_participants (index repr_dict st)
          = size (list_to_set
                    (map (normalized_identity repr_dict)
                       (List.filter (fun pdoc => truthy (ident_of pdoc))
                          (participants st))) : gset string)) as Hcount.
  { unfold index. simpl. rewrite unique_loop_spec. f_equal. set_solver. }
  split_and!; [done|..].
  - intros Hids. rewrite Hcount, filter_all; [done|].
    eapply Forall_impl; [|exact Hids]. intros pdoc. apply ident_truthy.
  - intros pdoc. unfold ident_of, py_or.
    destruct (truthy (get (snd pdoc) "email")) eqn:He; simpl; rewrite ?He; [done|].
    by destruct (truthy (get (snd pdoc) "phone")) eqn:Hp; simpl; rewrite ?Hp.
  - intros p1 p2 rest e1 e2 st2 Hst Hst2 He1 Hn1 He2 Hn2 Heq.
    unfold index. simpl. rewrite Hst, Hst2, !unique_loop_spec. simpl.
    pose proof (ident_of_email p1 e1 He1 Hn1) as H1.
    pose proof (ident_of_email p2 e2 He2 Hn2) as H2.
    rewrite H1, H2. simpl.
    destruct (String.eqb_spec e1 ""); [done|].
    destruct (String.eqb_spec e2 ""); [done|]. simpl.
    unfold normalized_identity at 1 2 4. rewrite H1, H2. simpl.
    rewrite Heq. f_equal. set_solver.
Qed.

Lemma index_unique_participants_witness :
  total_unique_participants (index (fun _ => "{}") store_same_email) = 2%nat.
Proof.
  pose proof (index_unique_participants (fun _ => "{}") store_same_email)
    as (_ & Hcount & _ & _).
  rewrite Hcount; [|repeat constructor; discriminate].
  vm_compute. reflexivity.
Defined.

(* ================================================================== *)
(** ** [sorted]: the result is a sorted, stable rearrangement *)

Lemma string_compare_eq (x y : string) :
  String.compare x y = Eq <-> x = y.
Proof. apply String_as_OT.cmp_eq. Qed.

Lemma string_compare_refl (x : string) : String.compare x x = Eq.
Proof. by apply string_compare_eq. Qed.

Lemma string_compare_lt_trans (x y z : string) :
  String.compare x y = Lt -> String.compare y z = Lt ->
  String.compare x z = Lt.
Proof.
  intros H1%String_as_OT.cmp_lt H2%String_as_OT.cmp_lt.
  apply String_as_OT.cmp_lt. eapply String_as_OT.lt_trans; eauto.
Qed.

Lemma string_eqb_compare (x y : string) :
  String.eqb x y = match String.compare x y with Eq => true | _ => false end.
Proof.
  destruct (String.eqb_spec x y) as [->|Hne].
  - by rewrite string_compare_refl.
  - destruct (String.compare x y) eqn:E; try done.
    by apply string_compare_eq in E.
Qed.

Lemma lex_compare_eq (a b : list string) : lex_compare a b = Eq <-> a = b.
Proof.
  revert b. induction a as [|x a IH]; intros [|y b]; simpl; try done.
  destruct (String.compare x y) eqn:E.
  - apply string_compare_eq in E as ->. rewrite IH. split; congruence.
  - split; [done|]. intros [= -> _]. by rewrite string_compare_refl in E.
  - split; [done|]. intros [= -> _]. by rewrite string_compare_refl in E.
Qed.

Lemma lex_compare_antisym (a b : list string) :
  lex_compare a b = CompOpp (lex_compare b a).
Proof.
  revert b. induction a as [|x a IH]; intros [|y b]; simpl; try done.
  rewrite (String.compare_antisym y x).
  destruct (String.compare x y); simpl; auto.
Qed.

Lemma lex_compare_lt_trans (a b c : list string) :
  lex_compare a b = Lt -> lex_compare b c = Lt -> lex_compare a c = Lt.
Proof.
  revert b c. induction a as [|x a IH]; intros [|y b] [|z c]; simpl; try done.
  destruct (String.compare x y) eqn:Exy; try done.
  - apply string_compare_eq in Exy as ->.
    destruct (String.compare y z); try done. apply IH.
  - destruct (String.compare y z) eqn:Eyz; try done.
    + apply string_compare_eq in Eyz as ->. by rewrite Exy.
    + by rewrite (string_compare_lt_trans _ _ _ Exy Eyz).
Qed.

Lemma lex_le_refl (a : list string) : lex_le a a.
Proof. unfold lex_le. by rewrite (proj2 (lex_compare_eq a a) eq_refl). Qed.

Lemma lex_le_trans (a b c : list string) :
  lex_le a b -> lex_le b c -> lex_le a c.
Proof.
  unfold lex_le. intros Hab Hbc.
  destruct (lex_compare a b) eqn:Eab; try done.
  - by apply lex_compare_eq in Eab as ->.
  - destruct (lex_compare b c) eqn:Ebc; try done.
    + by apply lex_compare_eq in Ebc as <-; rewrite Eab.
    + by rewrite (lex_compare_lt_trans _ _ _ Eab Ebc).
Qed.

Lemma lex_ltb_false_le (a b : list string) :
  lex_ltb a b = false -> lex_le b a.
Proof.
  unfold lex_ltb, lex_le. rewrite (lex_compare_antisym b a).
  by destruct (lex_compare a b).
Qed.

Lemma lex_ltb_true_le (a b : list string) :
  lex_ltb a b = true -> lex_le a b.
Proof. unfold lex_ltb, lex_le. by destruct (lex_compare a b). Qed.

Lemma lex_ltb_true_ne (a b : list string) : lex_ltb a b = true -> a <> b.
Proof.
  unfold lex_ltb. intros H ->.
  by rewrite (proj2 (lex_compare_eq b b) eq_refl) in H.
Qed.

(** On tuples of strings the comparison of the model is the lexicographic
    one. *)
Lemma tuple_lt_strings (a b : list string) :
  tuple_lt (map VStr a) (map VStr b) = Ok (lex_ltb a b).
Proof.
  revert b. induction a as [|x a IH]; intros [|y b]; simpl; try done.
  rewrite string_eqb_compare, IH. unfold lex_ltb, String.ltb. simpl.
  by destruct (String.compare x y).
Qed.

Lemma map_str_of_strings (k : list value) :
  forallb is_str k = true -> k = map VStr (map str_of k).
Proof.
  induction k as [|v k IH]; simpl; [done|].
  intros [Hv Hk]%andb_prop. destruct v; try done. simpl. by rewrite <- IH.
Qed.

Section SortedFacts.

Context {A : Type}.
Variable key : A -> list value.

Let skey (x : A) : list string := map str_of (key x).
Let le (x y : A) : Prop := lex_le (skey x) (skey y).
Let str_keyed (l : list A) : Prop :=
  Forall (fun x => forallb is_str (key x) = true) l.

Lemma key_lt_strings (x y : A) :
  forallb is_str (key x) = true -> forallb is_str (key y) = true ->
  tuple_lt (key x) (key y) = Ok (lex_ltb (skey x) (skey y)).
Proof.
  intros Hx Hy. rewrite (map_str_of_strings _ Hx) at 1.
  rewrite (map_str_of_strings _ Hy) at 1. apply tuple_lt_strings.
Qed.

Lemma insert_sorted_ok (x : A) (l : list A) :
  forallb is_str (key x) = true -> str_keyed l -> StronglySorted le l ->
  exists r,
    insert_sorted key x l = Ok r /\ Permutation (x :: l) r /\
    StronglySorted le r /\
    (forall k, List.filter (fun y => bool_decide (skey y = k)) r
               = List.filter (fun y => bool_decide (skey y = k)) (x :: l)).
Proof.
  intros Hx Hl. induction Hl as [|y t Hy Ht IH]; intros Hs; simpl.
  - eexists. split_and!; try done. repeat constructor.
  - rewrite (key_lt_strings y x Hy Hx). simpl_bind.
    apply StronglySorted_inv in Hs as [Hst Hall].
    destruct (lex_ltb (skey y) (skey x)) eqn:Hlt.
    + destruct (IH Hst) as (r & -> & Hperm & Hsorted & Hstable).
      eexists. split_and!; try done.
      * rewrite perm_swap. by constructor.
      * constructor; [done|].
        eapply Permutation_Forall; [exact Hperm|].
        constructor; [by apply lex_ltb_true_le|done].
      * intros k. specialize (Hstable k). simpl in *.
        destruct (bool_decide_reflect (skey y = k)) as [Hyk|Hyk];
          destruct (bool_decide_reflect (skey x = k)) as [Hxk|Hxk];
          rewrite Hstable; try done.
        apply lex_ltb_true_ne in Hlt. congruence.
    + eexists. split_and!; try done.
      constructor; [by constructor|].
      assert (le x y) as Hxy by by apply lex_ltb_false_le.
      constructor; [done|].
      eapply Forall_impl; [|exact Hall]. intros z Hz.
      eapply lex_le_trans; eauto.
Qed.

(** Rows whose keys are tuples of strings are sorted without an exception;
    the result is a permutation of the input, ascending in the
    lexicographic order of the keys, and rows with the same key keep their
    order. *)
Lemma py_sorted_ok (l : list A) :
  str_keyed l ->
  exists r,
    py_sorted key l = Ok r /\ Permutation l r /\ StronglySorted le r /\
    (forall k, List.filter (fun y => bool_decide (skey y = k)) r
               = List.filter (fun y => bool_decide (skey y = k)) l).
Proof.
  induction 1 as [|x t Hx Ht (r & Hr & Hperm & Hsorted & Hstable)]; simpl.
  - eexists. split_and!; try done. constructor.
  - rewrite Hr. simpl_bind.
    destruct (insert_sorted_ok x r Hx) as (r' & -> & Hperm' & Hsorted' & Hstable');
      [|done|].
    { eapply Permutation_Forall; [exact Hperm|done]. }
    eexists. split_and!; try done.
    + by rewrite <- Hperm', <- Hperm.
    + intros k. rewrite Hstable'. simpl. by rewrite Hstable.
Qed.

End SortedFacts.

(* ================================================================== *)
(** ** [export_participants] *)

Lemma get_default_str (d : dict) (k : string) :
  str_or_missing d k = true -> is_str (get_default d k (VStr "")) = true.
Proof.
  unfold str_or_missing, get_default.
  destruct (assoc k d) as [[]|]; done.
Qed.

Lemma get_str_or_none (d : dict) (k : string) :
  str_or_missing d k = true -> get d k = VNone \/ exists s, get d k = VStr s.
Proof.
  unfold str_or_missing, get, get_default.
  destruct (assoc k d) as [[]|]; try done; eauto.
Qed.

Lemma filter_Forall {A : Type} (P : A -> Prop) (p : A -> bool) (l : list A) :
  Forall P l -> Forall P (List.filter p l).
Proof.
  induction 1 as [|x t Hx _ IH]; simpl; [done|].
  destruct (p x); [by constructor|done].
Qed.

Lemma Forall_map_iff {A B : Type} (P : B -> Prop) (f : A -> B) (l : list A) :
  Forall (fun x => P (f x)) l -> Forall P (map f l).
Proof. induction 1; simpl; by constructor. Qed.

Lemma export_rows_str_keys (st : store) (args : request_args) :
  store_typed st -> Forall str_keys (export_rows st args).
Proof.
  intros (Hparts & _ & _). unfold export_rows.
  apply Forall_map_iff.
  assert (forall q : collection, Forall (fun p =>
            str_or_missing (snd p) "name" = true /\
            str_or_missing (snd p) "department" = true /\
            str_or_missing (snd p) "event" = true) q ->
          Forall (fun doc => str_keys (export_row (snd doc))) q) as Hrows.
  { intros q. apply Forall_impl. intros [id p] (Hn & Hd & He).
    unfold str_keys. simpl.
    change (is_str (get_default p "department" (VStr ""))
            && (is_str (get_default p "event" (VStr ""))
                && (is_str (get_default p "name" (VStr "")) && true)) = true).
    by rewrite !get_default_str. }
  apply Hrows.
  destruct (truthy (selected_event_name _ _));
    destruct (truthy (selected_dept_name _ _));
    unfold where_eq; repeat apply filter_Forall; done.
Qed.

Lemma sanitize_str_or_none (v : value) (dflt : string) :
  v = VNone \/ (exists s, v = VStr s) ->
  exists r, (if truthy v then _sanitize v else Ok dflt) = Ok r.
Proof.
  intros [->|[s ->]]; simpl; [by eexists|].
  unfold _sanitize. simpl. destruct (String.eqb s ""); simpl; by eexists.
Qed.

Lemma selected_dept_name_typed (st : store) (dept_id : option string) :
  store_typed st ->
  selected_dept_name st dept_id = VNone \/
  exists s, selected_dept_name st dept_id = VStr s.
Proof.
  intros (_ & Hdepts & _). unfold selected_dept_name.
  destruct (arg_truthy dept_id); [|by left].
  destruct (document_get _ _) as [d|] eqn:Hd; [|by left].
  apply assoc_In in Hd. rewrite Forall_forall in Hdepts.
  apply (get_str_or_none d "name"), (Hdepts _ Hd).
Qed.

Lemma selected_event_name_typed (st : store) (event_id : option string) :
  store_typed st ->
  selected_event_name st event_id = VNone \/
  exists s, selected_event_name st event_id = VStr s.
Proof.
  intros (_ & _ & Hevents). unfold selected_event_name.
  destruct (arg_truthy event_id) eqn:Ht; [|by left].
  destruct (document_get _ _) as [d|] eqn:Hd.
  - apply assoc_In in Hd. rewrite Forall_forall in Hevents.
    apply (get_str_or_none d "name"), (Hevents _ Hd).
  - destruct event_id; simpl in *; [eauto|done].
Qed.

(** C5: whatever the store and the other parameters, a [format] other than
    [xlsx] and [pdf] (after lower-casing, [xlsx] when absent) never yields a
    file; whenever the handler returns a response, it is the 400 response
    with its message; and it does return on every store whose names are
    strings. *)
Theorem export_unsupported_format (env : environment) (st : store)
  (args : request_args) :
  str_lower (form_get (arg_format args) "xlsx") <> "xlsx" ->
  str_lower (form_get (arg_format args) "xlsx") <> "pdf" ->
  (forall name mime table,
     export_participants env st args <> Ok (SendFile name mime table)) /\
  (forall r, export_participants env st args = Ok r -> r = unsupported_format) /\
  (store_typed st -> export_participants env st args = Ok unsupported_format).
Proof.
  intros Hx Hp.
  assert (forall r, export_participants env st args = Ok r ->
                    r = unsupported_format) as Hret.
  { intros r. unfold export_participants.
    destruct (py_sorted _ _) as [rows|]; [|done]. unfold_bind.
    destruct (if truthy (selected_dept_name _ _) then _ else _); [|done].
    destruct (if truthy (selected_event_name _ _) then _ else _); [|done].
    destruct (String.eqb_spec (str_lower (form_get (arg_format args) "xlsx"))
                "xlsx"); [done|].
    destruct (String.eqb_spec (str_lower (form_get (arg_format args) "xlsx"))
                "pdf"); [done|].
    by intros [= <-]. }
  split_and!; [|done|].
  - intros name mime table H. by apply Hret in H.
  - intros Htyped. unfold export_participants.
    destruct (py_sorted_ok key_dept_event_name (export_rows st args))
      as (rows & -> & _); [by apply export_rows_str_keys|].
    unfold_bind.
    destruct (sanitize_str_or_none _ "all_departments"
                (selected_dept_name_typed st (arg_dept_id args) Htyped))
      as [pd ->].
    destruct (sanitize_str_or_none _ "all_events"
                (selected_event_name_typed st (arg_event_id args) Htyped))
      as [pe ->].
    cbn beta iota.
    destruct (String.eqb_spec (str_lower (form_get (arg_format args) "xlsx"))
                "xlsx"); [done|].
    destruct (String.eqb_spec (str_lower (form_get (arg_format args) "xlsx"))
                "pdf"); done.
Qed.

Lemma export_unsupported_format_witness :
  export_participants env_full store_two_events
    {| arg_dept_id := Some "d1"; arg_event_id := None;
       arg_format := Some "CSV" |}
  = Ok unsupported_format.
Proof.
  refine (proj2 (proj2 (export_unsupported_format env_full store_two_events
    {| arg_dept_id := Some "d1"; arg_event_id := None;
       arg_format := Some "CSV" |} _ _)) _).
  - vm_compute. discriminate.
  - vm_compute. discriminate.
  - unfold store_typed. simpl. repeat constructor.
Defined.

(** The sheet written for rows that carry exactly the canonical keys. *)
Lemma to_excel_canonical (rows : list dict) :
  Forall (fun r => map fst r = headers) rows ->
  to_excel (df_add_missing (pd_DataFrame rows) headers)
  = map VStr headers :: map row_cells rows.
Proof.
  intros Hrows.
  assert (forall rs : list dict,
            Forall (fun r => map fst r = headers) rs ->
            fold_left (fun seen r => union_keys seen (map fst r)) rs headers
            = headers) as Hfold.
  { induction 1 as [|r t Hr _ IH]; [done|]. cbn [fold_left]. by rewrite Hr. }
  destruct Hrows as [|r t Hr Ht]; [reflexivity|].
  unfold pd_DataFrame. cbn [fold_left]. rewrite Hr.
  change (union_keys [] headers) with headers. by rewrite Hfold.
Qed.

Lemma export_row_keys (p : dict) : map fst (export_row p) = headers.
Proof. reflexivity. Qed.

Lemma pdf_data_canonical (rows : list dict) :
  Forall (fun r => map fst r = headers) rows ->
  pdf_data rows = map VStr headers :: map row_cells rows.
Proof.
  intros Hrows. unfold pdf_data. f_equal.
  induction Hrows as [|r t Hr _ IH]; [done|]. cbn [map]. rewrite <- IH.
  f_equal. unfold row_cells, get. clear IH.
  assert (forall hs, Forall (fun h => is_Some (assoc h r)) hs ->
            map (fun h => get_default r h (VStr "")) hs
            = map (fun k => get_default r k VNone) hs) as Hcells.
  { induction 1 as [|h hs [v Hv] _ IH]; [done|]. cbn [map]. rewrite IH.
    unfold get_default. by rewrite Hv. }
  apply Hcells. rewrite <- Hr. clear.
  induction r as [|[k v] r IH]; [constructor|].
  cbn [map fst]. constructor.
  - simpl. rewrite String.eqb_refl. by eexists.
  - eapply Forall_impl; [|exact IH]. intros h [x Hx]. simpl.
    destruct (String.eqb h k); by eexists.
Qed.

(** C9: an export without department and event filter over no participant
    rows returns, in either format (with its library installed), a file
    named tantra_all_departments_all_events.<ext> whose table is the header
    row alone, in the canonical order. *)
Theorem export_empty_header_only (env : environment) (st : store)
  (args : request_args) :
  arg_truthy (arg_dept_id args) = false ->
  arg_truthy (arg_event_id args) = false ->
  export_rows st args = [] ->
  headers = [ "name"; "email"; "phone"; "college"; "branch"; "year";
              "event_name"; "dept_name"; "transaction_id" ] /\
  (str_lower (form_get (arg_format args) "xlsx") = "xlsx" ->
   has_pandas env = true ->
   export_participants env st args
   = Ok (SendFile "tantra_all_departments_all_events.xlsx" xlsx_mimetype
           [map VStr headers])) /\
  (str_lower (form_get (arg_format args) "xlsx") = "pdf" ->
   has_reportlab env = true ->
   export_participants env st args
   = Ok (SendFile "tantra_all_departments_all_events.pdf" "application/pdf"
           [map VStr headers])).
Proof.
  intros Hd He Hrows. split; [reflexivity|].
  unfold export_participants, selected_dept_name, selected_event_name.
  rewrite Hd, He, Hrows. split; intros -> ->; reflexivity.
Qed.

Lemma export_empty_header_only_witness :
  export_participants env_full store_empty no_args
  = Ok (SendFile "tantra_all_departments_all_events.xlsx" xlsx_mimetype
          [[VStr "name"; VStr "email"; VStr "phone"; VStr "college";
            VStr "branch"; VStr "year"; VStr "event_name"; VStr "dept_name";
            VStr "transaction_id"]]).
Proof.
  exact (proj1 (proj2 (export_empty_header_only env_full store_empty no_args
                         eq_refl eq_refl eq_refl)) eq_refl eq_refl).
Defined.

(* ================================================================== *)
(** ** [_sanitize] and the file name *)

Lemma lower_char_alnum (c : ascii) :
  is_lower_alnum (lower_char c) = is_alnum c.
Proof. destruct c as [[] [] [] [] [] [] [] []]; reflexivity. Qed.

Lemma lower_alnum_not_underscore (c : ascii) :
  is_lower_alnum c = true -> is_underscore c = false.
Proof. destruct c as [[] [] [] [] [] [] [] []]; done. Qed.

Lemma str_filter_lower (s : string) :
  str_filter is_lower_alnum (str_lower s) = str_lower (str_filter is_alnum s).
Proof.
  induction s as [|c t IH]; simpl; [done|].
  rewrite lower_char_alnum. destruct (is_alnum c); simpl; by rewrite IH.
Qed.

Lemma sub_runs_chars (b : bool) (s : string) :
  all_chars is_file_char (sub_runs b s) = true.
Proof.
  revert b. induction s as [|c t IH]; intros b; simpl; [done|].
  destruct (is_lower_alnum c) eqn:Hc; simpl.
  - unfold is_file_char at 1. by rewrite Hc, IH.
  - destruct b; [apply IH|]. simpl. by rewrite IH.
Qed.

Lemma sub_runs_start (s : string) :
  starts_with is_underscore (sub_runs true s) = false.
Proof.
  induction s as [|c t IH]; simpl; [done|].
  destruct (is_lower_alnum c) eqn:Hc; simpl; [|done].
  by apply lower_alnum_not_underscore.
Qed.

Lemma sub_runs_adjacent (b : bool) (s : string) :
  has_adjacent is_underscore (sub_runs b s) = false.
Proof.
  revert b. induction s as [|c t IH]; intros b; simpl; [done|].
  destruct (is_lower_alnum c) eqn:Hc; simpl.
  - by rewrite (lower_alnum_not_underscore c Hc), IH.
  - destruct b; [apply IH|]. simpl. by rewrite sub_runs_start, IH.
Qed.

Lemma sub_runs_filter (b : bool) (s : string) :
  str_filter is_lower_alnum (sub_runs b s) = str_filter is_lower_alnum s.
Proof.
  revert b. induction s as [|c t IH]; intros b; simpl; [done|].
  destruct (is_lower_alnum c) eqn:Hc; simpl.
  - by rewrite Hc, IH.
  - destruct b; [apply IH|]. simpl. apply IH.
Qed.

Section StripFacts.

Variables p q : ascii -> bool.

Lemma lstrip_chars (s : string) :
  all_chars q s = true -> all_chars q (lstrip p s) = true.
Proof.
  induction s as [|c t IH]; simpl; [done|].
  intros [Hc Ht]%andb_prop. destruct (p c); [by apply IH|].
  simpl. by rewrite Hc, Ht.
Qed.

Lemma rstrip_chars (s : string) :
  all_chars q s = true -> all_chars q (rstrip p s) = true.
Proof.
  induction s as [|c t IH]; simpl; [done|].
  intros [Hc Ht]%andb_prop. specialize (IH Ht).
  destruct (rstrip p t); [destruct (p c)|]; simpl in *; by rewrite ?Hc.
Qed.

Lemma lstrip_start (s : string) : starts_with p (lstrip p s) = false.
Proof.
  induction s as [|c t IH]; simpl; [done|].
  destruct (p c) eqn:Hc; [done|]. simpl. done.
Qed.

Lemma rstrip_start (s : string) :
  starts_with p s = false -> starts_with p (rstrip p s) = false.
Proof.
  destruct s as [|c t]; simpl; [done|]. intros Hc.
  destruct (rstrip p t); [by rewrite Hc|done].
Qed.

Lemma rstrip_end (s : string) : ends_with p (rstrip p s) = false.
Proof.
  induction s as [|c t IH]; simpl; [done|].
  destruct (rstrip p t) as [|c' r] eqn:Hr.
  - destruct (p c) eqn:Hc; simpl; done.
  - change (ends_with p (String c (String c' r)))
      with (ends_with p (String c' r)). done.
Qed.

Lemma lstrip_adjacent (s : string) :
  has_adjacent q s = false -> has_adjacent q (lstrip p s) = false.
Proof.
  induction s as [|c t IH]; simpl; [done|].
  intros [Hc Ht]%orb_false_elim. destruct (p c); [by apply IH|].
  simpl. by rewrite Hc, Ht.
Qed.

Lemma rstrip_starts (s : string) :
  starts_with q s = false -> starts_with q (rstrip p s) = false.
Proof.
  destruct s as [|c t]; simpl; [done|]. intros Hc.
  destruct (rstrip p t); [destruct (p c)|]; done.
Qed.

Lemma rstrip_adjacent (s : string) :
  has_adjacent q s = false -> has_adjacent q (rstrip p s) = false.
Proof.
  induction s as [|c t IH]; simpl; [done|].
  intros [Hc Ht]%orb_false_elim. specialize (IH Ht).
  destruct (rstrip p t) as [|c' r] eqn:Hr.
  - destruct (p c); simpl; [done|]. by rewrite andb_false_r.
  - simpl in *. apply orb_false_intro; [|done].
    apply andb_false_iff in Hc as [Hc|Hc]; [by rewrite Hc|].
    apply rstrip_starts in Hc. rewrite Hr in Hc. simpl in Hc.
    by rewrite Hc, andb_false_r.
Qed.

Hypothesis q_not_p : forall c, q c = true -> p c = false.

Lemma lstrip_filter (s : string) :
  str_filter q (lstrip p s) = str_filter q s.
Proof.
  induction s as [|c t IH]; simpl; [done|].
  destruct (p c) eqn:Hp; [|done].
  destruct (q c) eqn:Hq; [|done]. apply q_not_p in Hq. congruence.
Qed.

Lemma rstrip_filter (s : string) :
  str_filter q (rstrip p s) = str_filter q s.
Proof.
  induction s as [|c t IH]; simpl; [done|].
  destruct (rstrip p t) as [|c' r] eqn:Hr.
  - simpl in IH. rewrite <- IH.
    destruct (p c) eqn:Hp; simpl; [|done].
    destruct (q c) eqn:Hq; [|done]. apply q_not_p in Hq. congruence.
  - simpl in *. by rewrite IH.
Qed.

End StripFacts.

Lemma str_lower_empty (s : string) : str_lower s = "" -> s = "".
Proof. by destruct s. Qed.

(** The string [_sanitize] works out for a non-empty [s], before [value] is
    substituted: lower-case letters, digits and underscores only, no
    underscore first or last, no two underscores in a row, and exactly the
    letters and digits of [s], lower-cased, in order. *)
Lemma sanitize_core (s : string) :
  let core := strip is_underscore (sub_runs false (str_lower s)) in
  all_chars is_file_char core = true /\
  starts_with is_underscore core = false /\
  ends_with is_underscore core = false /\
  has_adjacent is_underscore core = false /\
  str_filter is_lower_alnum core = str_lower (str_filter is_alnum s) /\
  (core = "" <-> str_filter is_alnum s = "").
Proof.
  intros core.
  assert (all_chars is_file_char core = true) as Hchars
    by apply rstrip_chars, lstrip_chars, sub_runs_chars.
  assert (starts_with is_underscore core = false) as Hstart
    by apply rstrip_start, lstrip_start.
  assert (str_filter is_lower_alnum core = str_lower (str_filter is_alnum s))
    as Hfilter.
  { unfold core, strip.
    rewrite rstrip_filter, lstrip_filter, sub_runs_filter
      by apply lower_alnum_not_underscore.
    apply str_filter_lower. }
  split_and!; try done.
  - apply rstrip_end.
  - apply rstrip_adjacent, lstrip_adjacent, sub_runs_adjacent.
  - split; intros H.
    + rewrite H in Hfilter. symmetry in Hfilter.
      by apply str_lower_empty in Hfilter.
    + rewrite H in Hfilter. destruct core as [|c r]; [done|].
      simpl in *. apply andb_prop in Hchars as [Hc _].
      unfold is_file_char in Hc. rewrite Hstart, orb_false_r in Hc.
      by rewrite Hc in Hfilter.
Qed.

Lemma append_cons (c : ascii) (w x : string) :
  String c w ++ x = String c (w ++ x).
Proof. reflexivity. Qed.

Lemma cons_word_cons (c : ascii) (t : string) (ws : list string) :
  exists w ws', cons_word c t ws = String c w :: ws'.
Proof.
  unfold cons_word. destruct (starts_with is_lower_alnum t); [|by eexists _, _].
  destruct ws; by eexists _, _.
Qed.

Lemma alnum_words_nonempty (s : string) :
  Forall (fun w => w <> "") (alnum_words s).
Proof.
  induction s as [|c t IH]; cbn [alnum_words]; [constructor|].
  destruct (is_lower_alnum c); [|done]. unfold cons_word.
  destruct (starts_with is_lower_alnum t); [|by constructor].
  destruct IH; constructor; done.
Qed.

Lemma join_words_cons (c : ascii) (w : string) (ws : list string) :
  join_words (String c w :: ws) = String c (join_words (w :: ws)).
Proof. by destruct ws. Qed.

Lemma join_words_empty (ws : list string) :
  Forall (fun w => w <> "") ws -> join_words ws = "" -> ws = [].
Proof.
  intros [|[|c w] ws' Hw _]; [done|done|]. by rewrite join_words_cons.
Qed.

Lemma lstrip_sub_runs (s : string) :
  lstrip is_underscore (sub_runs false s) = sub_runs true s.
Proof.
  destruct s as [|c t]; [done|]. cbn [sub_runs].
  destruct (is_lower_alnum c) eqn:Hc; cbn [lstrip].
  - by rewrite (lower_alnum_not_underscore c Hc).
  - change (is_underscore "_") with true. cbn iota.
    pose proof (sub_runs_start t) as Hstart.
    destruct (sub_runs true t) as [|c' r]; [done|].
    cbn [starts_with] in Hstart. cbn [lstrip]. by rewrite Hstart.
Qed.

(** Replacing the runs and dropping the underscores at the ends leaves the
    words, joined by single underscores. *)
Lemma rstrip_sub_runs_words (s : string) :
  rstrip is_underscore (sub_runs true s) = join_words (alnum_words s).
Proof.
  induction s as [|c t IH]; [done|]. cbn [sub_runs alnum_words].
  destruct (is_lower_alnum c) eqn:Hc; [|exact IH].
  cbn [rstrip]. rewrite (lower_alnum_not_underscore c Hc).
  pose proof (alnum_words_nonempty t) as Hne.
  destruct t as [|c' t'].
  - reflexivity.
  - unfold cons_word. cbn [starts_with]. cbn [sub_runs alnum_words] in *.
    destruct (is_lower_alnum c') eqn:Hc'.
    + rewrite IH.
      destruct (cons_word_cons c' t' (alnum_words t')) as (w & ws' & Hw).
      rewrite Hw. rewrite !join_words_cons. reflexivity.
    + cbn [rstrip]. rewrite IH. change (is_underscore "_") with true.
      destruct (join_words (alnum_words t')) as [|a j] eqn:Hj.
      * by rewrite (join_words_empty _ Hne Hj).
      * destruct (alnum_words t') as [|w ws']; [done|].
        change (join_words (String c "" :: w :: ws'))
          with (String c "" ++ "_" ++ join_words (w :: ws')).
        by rewrite Hj.
Qed.

(** On a non-empty string [_sanitize] is the sanitization of the
    specification. *)
Lemma sanitize_spec (s : string) :
  s <> "" -> _sanitize (VStr s) = Ok (spec_sanitize s).
Proof.
  intros Hs. unfold _sanitize, spec_sanitize, strip. cbn [truthy].
  destruct (String.eqb_spec s ""); [done|]. cbn [negb].
  rewrite lstrip_sub_runs, rstrip_sub_runs_words.
  pose proof (alnum_words_nonempty (str_lower s)) as Hne.
  destruct (alnum_words (str_lower s)) as [|w ws]; [done|].
  destruct (String.eqb_spec (join_words (w :: ws)) "") as [Hj|]; [|done].
  by apply join_words_empty in Hj.
Qed.

(** C4, as amended: the two examples; a non-empty input is lower-cased, its
    runs of characters other than letters and digits become single
    underscores, underscores at the ends are dropped, and [value] stands in
    when nothing is left: the result is [spec_sanitize], the words of the
    lower-cased input joined by single underscores. The empty input gives
    the empty string. The download name is tantra_<dept>_<event>.<ext> with
    the sanitized names, or all_departments / all_events without a filter
    or with a selected name that is empty. *)
Theorem sanitize_filename :
  _sanitize (VStr "Computer Science & Engg.") = Ok "computer_science_engg" /\
  _sanitize (VStr "&&&") = Ok "value" /\
  _sanitize (VStr "") = Ok "" /\
  (forall s, s <> "" ->
     exists r,
       _sanitize (VStr s) = Ok r /\
       r = spec_sanitize s /\
       all_chars is_file_char r = true /\
       starts_with is_underscore r = false /\
       ends_with is_underscore r = false /\
       has_adjacent is_underscore r = false /\
       (if String.eqb (str_filter is_alnum s) "" then r = "value"
        else str_filter is_lower_alnum r = str_lower (str_filter is_alnum s))) /\
  (forall env st args name mime table,
     export_participants env st args = Ok (SendFile name mime table) ->
     exists part_dept part_event ext,
       name = ("tantra_" ++ part_dept ++ "_" ++ part_event) ++ "." ++ ext /\
       ext = str_lower (form_get (arg_format args) "xlsx") /\
       (if truthy (selected_dept_name st (arg_dept_id args))
        then _sanitize (selected_dept_name st (arg_dept_id args)) = Ok part_dept
        else part_dept = "all_departments") /\
       (if truthy (selected_event_name st (arg_event_id args))
        then _sanitize (selected_event_name st (arg_event_id args))
             = Ok part_event
        else part_event = "all_events")).
Proof.
  split_and!; try reflexivity.
  - intros s Hs.
    destruct (sanitize_core s) as (Hchars & Hstart & Hend & Hadj & Hfilter & Hempty).
    unfold _sanitize. cbn [truthy].
    destruct (String.eqb_spec s ""); [done|]. cbn [negb].
    set (core := strip is_underscore (sub_runs false (str_lower s))) in *.
    eexists. split; [reflexivity|].
    split.
    { pose proof (sanitize_spec s Hs) as Hspec. unfold _sanitize in Hspec.
      cbn [truthy] in Hspec. destruct (String.eqb_spec s ""); [done|].
      cbn [negb] in Hspec. fold core in Hspec. congruence. }
    destruct (String.eqb_spec core "") as [Hcore|Hcore].
    + split_and!; try reflexivity.
      apply Hempty in Hcore. by rewrite Hcore.
    + split_and!; try done.
      destruct (String.eqb_spec (str_filter is_alnum s) "") as [H|H]; [|done].
      by apply Hempty in H.
  - intros env st args name mime table. unfold export_participants.
    destruct (py_sorted _ _) as [rows|]; [|done]. unfold_bind.
    generalize (selected_dept_name st (arg_dept_id args)) as dn.
    generalize (selected_event_name st (arg_event_id args)) as en.
    generalize (str_lower (form_get (arg_format args) "xlsx")) as fmt.
    intros fmt en dn.
    destruct (if truthy dn then _sanitize dn else Ok "all_departments")
      as [pd|] eqn:Hpd; [|done].
    destruct (if truthy en then _sanitize en else Ok "all_events")
      as [pe|] eqn:Hpe; [|done].
    intros H. exists pd, pe, fmt.
    assert (name = ("tantra_" ++ pd ++ "_" ++ pe) ++ "." ++ fmt) as ->.
    { destruct (String.eqb_spec fmt "xlsx") as [->|_].
      - destruct (has_pandas env); [|done].
        apply (f_equal file_name) in H. cbv beta iota delta [file_name] in H.
        by rewrite <- H.
      - destruct (String.eqb_spec fmt "pdf") as [->|_]; [|done].
        destruct (has_reportlab env); [|done].
        apply (f_equal file_name) in H. cbv beta iota delta [file_name] in H.
        by rewrite <- H. }
    split_and!; [done|done|..].
    + destruct (truthy dn); [done|congruence].
    + destruct (truthy en); [done|congruence].
Qed.

Lemma sanitize_filename_witness :
  (exists r,
     _sanitize (VStr "R&D -- Club") = Ok r /\
     r = "r_d_club" /\
     str_filter is_lower_alnum r = "rdclub" /\
     starts_with is_underscore r = false) /\
  exists part_dept part_event ext,
    "tantra_arts_all_events.pdf"
    = ("tantra_" ++ part_dept ++ "_" ++ part_event) ++ "." ++ ext /\
    part_event = "all_events".
Proof.
  destruct sanitize_filename as (_ & _ & _ & Hs & Hname). split.
  - destruct (Hs "R&D -- Club")
      as (r & Hr & Hspec & _ & Hstart & _ & _ & Hfilter); [discriminate|].
    exists r. split_and!; [exact Hr|exact Hspec|exact Hfilter|exact Hstart].
  - destruct (Hname env_full store_two_events
                {| arg_dept_id := Some "d1"; arg_event_id := None;
                   arg_format := Some "PDF" |}
                "tantra_arts_all_events.pdf" "application/pdf"
                (pdf_data [export_row p_bob_acting; export_row p_amy_zumba])
                eq_refl)
      as (pd & pe & ext & Hn & _ & _ & Hpe).
    exists pd, pe, ext. split; [exact Hn|exact Hpe].
Defined.

(** C4 as stated fails on the empty string: [_sanitize] returns it
    unchanged instead of [value], and the export never hands it one. For a
    selected department whose name is empty the download name carries
    all_departments, not [value]. *)
Lemma sanitize_empty_counterexample :
  _sanitize (VStr "") = Ok "" /\
  _sanitize (VStr "") <> Ok "value" /\
  arg_truthy (arg_dept_id d1_args) = true /\
  selected_dept_name store_empty_name (arg_dept_id d1_args) = VStr "" /\
  export_participants env_full store_empty_name d1_args
  = Ok (SendFile "tantra_all_departments_all_events.xlsx" xlsx_mimetype
          [map VStr headers]) /\
  export_participants env_full store_empty_name d1_args
  <> Ok (SendFile "tantra_value_all_events.xlsx" xlsx_mimetype
           [map VStr headers]).
Proof.
  split_and!; try reflexivity; discriminate.
Qed.

(* ================================================================== *)
(** ** The resolver *)

Lemma first_doc_where_eq (email : value) (c : collection) :
  first_doc (limit 1 (where_eq "email" email c)) = first_with_email email c.
Proof.
  unfold limit, where_eq. induction c as [|[id d] rest IH]; simpl; [done|].
  destruct (assoc "email" d) as [x|]; [|exact IH].
  destruct (fs_eqb x email); [done|exact IH].
Qed.

Lemma resolve_unfold (st : store) (reg_data : dict) :
  _resolve_participant_from_registration st reg_data =
  match (if truthy (reg_inline reg_data) then as_dict (reg_inline reg_data)
         else None) with
  | Some p => Ok (Some p)
  | None =>
      by_id ← (if truthy (reg_pid reg_data) then
                 ref ← document_get_value (participants st) (reg_pid reg_data);
                 match ref with
                 | Some p => Ok (Some p)
                 | None => document_get_value (users st) (reg_pid reg_data)
                 end
               else Ok None);
      match by_id with
      | Some p => Ok (Some p)
      | None =>
          if truthy (reg_email reg_data) then
            Ok (match first_with_email (reg_email reg_data) (participants st)
                with
                | Some p => Some p
                | None => first_with_email (reg_email reg_data) (users st)
                end)
          else Ok None
      end
  end.
Proof.
  unfold _resolve_participant_from_registration.
  destruct reg_data as [|kv reg]; [reflexivity|].
  cbn [truthy negb]. fold (reg_inline (kv :: reg)) (reg_pid (kv :: reg))
    (reg_email (kv :: reg)).
  rewrite !first_doc_where_eq.
  destruct (if truthy (reg_inline (kv :: reg)) then _ else _); [done|].
  destruct (if truthy (reg_pid (kv :: reg)) then _ else _) as [[p|]|];
    unfold_bind; try done.
  destruct (truthy (reg_email (kv :: reg))); [|done].
  by destruct (first_with_email _ (participants st)).
Qed.

(** C1, as amended: the resolver goes through its sources in a fixed order
    and returns the first record found, never a merge. (1) A non-empty
    embedded [participant] dict is returned as it is, whatever the store
    holds. (2) Otherwise, with [pid] the first present one of
    participant_id, user_id, uid: the participants document with that id is
    returned if it exists, else the users document with that id if it
    exists; an id that is not a string makes the lookup raise. (3) Otherwise,
    that is without an id or with an id found in neither collection, with
    [email] the first present one of participant_email, email, user_email:
    the first participants document whose email equals it is returned, else
    the first such users document. (4) Otherwise the result is NotFound. *)
Theorem resolve_participant_order (st : store) (reg_data : dict) :
  let resolved := _resolve_participant_from_registration st reg_data in
  let inline := reg_inline reg_data in
  let pid := reg_pid reg_data in
  let email := reg_email reg_data in
  (forall p, inline = VDict p -> p <> [] -> resolved = Ok (Some p)) /\
  (truthy inline && is_dict inline = false ->
   (forall id p,
      pid = VStr id -> id <> "" ->
      document_get (participants st) id = Some p ->
      resolved = Ok (Some p)) /\
   (forall id p,
      pid = VStr id -> id <> "" ->
      document_get (participants st) id = None ->
      document_get (users st) id = Some p ->
      resolved = Ok (Some p)) /\
   (truthy pid = true -> is_str pid = false -> resolved = Raised) /\
   (truthy pid = false \/
    (exists id, pid = VStr id /\
       document_get (participants st) id = None /\
       document_get (users st) id = None) ->
    (truthy email = true ->
     resolved =
       Ok (match first_with_email email (participants st) with
           | Some p => Some p
           | None => first_with_email email (users st)
           end)) /\
    (truthy email = false -> resolved = Ok None))).
Proof.
  intros resolved inline pid email. subst resolved.
  rewrite resolve_unfold. fold inline pid email.
  clearbody inline pid email. split.
  - intros p -> Hp. by destruct p.
  - intros Hinline.
    assert ((if truthy inline then as_dict inline else None) = None) as ->.
    { destruct inline as [|b|n|s|d]; simpl in *; try done;
        [by destruct b | by destruct (n =? 0) | by destruct (String.eqb s "")
        | by destruct d]. }
    split_and!.
    + intros id p -> Hid Hp. cbn [truthy document_get_value].
      destruct (String.eqb_spec id ""); [done|]. cbn [negb]. unfold_bind.
      by rewrite Hp.
    + intros id p -> Hid Hp Hu. cbn [truthy document_get_value].
      destruct (String.eqb_spec id ""); [done|]. cbn [negb]. unfold_bind.
      by rewrite Hp, Hu.
    + intros Ht Hs. rewrite Ht. by destruct pid.
    + intros Hpid.
      assert ((if truthy pid then
                 ref ← document_get_value (participants st) pid;
                 match ref with
                 | Some p => Ok (Some p)
                 | None => document_get_value (users st) pid
                 end
               else Ok None) = Ok None) as ->.
      { destruct Hpid as [->|(id & -> & Hp & Hu)]; [done|].
        cbn [document_get_value]. unfold_bind. rewrite Hp, Hu.
        by destruct (truthy (VStr id)). }
      unfold_bind. split; intros ->; done.
Qed.

Lemma resolve_participant_order_witness :
  _resolve_participant_from_registration store_amy
    [("participant", VDict amy); ("participant_id", VStr "u1")]
  = Ok (Some amy) /\
  _resolve_participant_from_registration store_amy
    [("user_id", VStr "u1")]
  = Ok (Some [("name", VStr "Uma"); ("email", VStr "uma@example.org")]) /\
  _resolve_participant_from_registration store_amy reg_stale_id
  = Ok (Some amy).
Proof.
  split; [|split].
  - by apply (proj1 (resolve_participant_order store_amy
                       [("participant", VDict amy);
                        ("participant_id", VStr "u1")]) amy).
  - by apply (proj1 (proj2 (proj2 (resolve_participant_order store_amy
                       [("user_id", VStr "u1")]) eq_refl)) "u1").
  - apply (proj2 (proj2 (proj2 (proj2 (resolve_participant_order store_amy
             reg_stale_id) eq_refl)))); [|reflexivity].
    right. by exists "ghost".
Defined.

(** C1 as stated fails for a registration whose embedded [participant] is
    the empty dict: it is not returned; the lookup by id goes on and returns
    the stored participant. *)
Lemma resolver_empty_embedded_counterexample :
  reg_inline reg_empty_embedded = VDict [] /\
  _resolve_participant_from_registration store_amy reg_empty_embedded
  = Ok (Some amy) /\
  ~ returns_embedded_verbatim store_amy reg_empty_embedded.
Proof.
  split_and!; try reflexivity.
  intros H. specialize (H [] eq_refl). discriminate H.
Qed.

(** A registration whose id matches no document is still resolved through
    its email. *)
Example resolver_falls_through_to_email :
  document_get (participants store_amy) "ghost" = None /\
  document_get (users store_amy) "ghost" = None /\
  _resolve_participant_from_registration store_amy reg_stale_id
  = Ok (Some amy).
Proof. by split_and!. Qed.

(** The resolver raises exactly when, without a usable embedded
    participant, the id it picks is present and not a string. *)
Lemma resolve_raises_iff (st : store) (reg_data : dict) :
  _resolve_participant_from_registration st reg_data = Raised <->
  truthy (reg_inline reg_data) && is_dict (reg_inline reg_data) = false /\
  truthy (reg_pid reg_data) = true /\
  is_str (reg_pid reg_data) = false.
Proof.
  rewrite resolve_unfold.
  generalize (reg_inline reg_data) as inline, (reg_pid reg_data) as pid.
  intros inline pid.
  destruct (truthy inline) eqn:Hi; cbn [andb].
  - destruct inline; cbn [as_dict is_dict]; try (split; [|by intros (? & _)]).
    all: try by split; [|intros (? & _)].
    all: destruct (truthy pid) eqn:Hp; unfold_bind;
      [|destruct (truthy (reg_email reg_data));
        split; try done; by intros (_ & ? & _)].
    all: destruct pid; cbn [document_get_value is_str]; try done.
    all: destruct (document_get (participants st) _);
      [|destruct (document_get (users st) _)];
      destruct (truthy (reg_email reg_data));
      split; try done; by intros (_ & _ & ?).
  - destruct (truthy pid) eqn:Hp; unfold_bind;
      [|destruct (truthy (reg_email reg_data));
        split; try done; by intros (_ & ? & _)].
    destruct pid; cbn [document_get_value is_str]; try done.
    destruct (document_get (participants st) _);
      [|destruct (document_get (users st) _)];
      destruct (truthy (reg_email reg_data));
      split; try done; by intros (_ & _ & ?).
Qed.

(* ================================================================== *)
(** ** [_gather_participants]: batches *)

Lemma range_from_bounds (fuel start stop step i : nat) :
  In i (range_from fuel start stop step) -> (start <= i < stop)%nat.
Proof.
  revert start. induction fuel as [|fuel IH]; intros start; simpl; [done|].
  destruct (Nat.ltb_spec start stop); [|done].
  intros [<-|Hin]; [lia|]. apply IH in Hin. lia.
Qed.

Lemma concat_slices (A : Type) (l : list A) (fuel start : nat) :
  (length l <= fuel + start)%nat ->
  concat (map (fun i => slice i (i + BATCH) l)
              (range_from fuel start (length l) BATCH))
  = skipn start l.
Proof.
  revert start. induction fuel as [|fuel IH]; intros start Hfuel; simpl.
  - symmetry. apply skipn_all2. lia.
  - destruct (Nat.ltb_spec start (length l)) as [Hlt|Hge]; simpl.
    + rewrite IH by (unfold BATCH; lia). unfold slice.
      replace (start + BATCH - start)%nat with BATCH by lia.
      etransitivity; [|apply (firstn_skipn BATCH (skipn start l))].
      f_equal. rewrite skipn_skipn. f_equal. lia.
    + symmetry. apply skipn_all2. lia.
Qed.

Lemma length_range_from (fuel start stop : nat) :
  (stop <= fuel + start)%nat ->
  length (range_from fuel start stop BATCH) = ((stop - start + 9) / 10)%nat.
Proof.
  revert start. induction fuel as [|fuel IH]; intros start Hfuel;
    cbn [range_from].
  - replace (stop - start)%nat with 0%nat by lia. done.
  - destruct (Nat.ltb_spec start stop) as [Hlt|Hge]; cbn [length].
    + rewrite IH by (unfold BATCH; lia). unfold BATCH.
      destruct (Nat.le_gt_cases (stop - start) 10) as [Hle|Hgt].
      * replace (stop - (start + 10))%nat with 0%nat by lia.
        assert (((stop - start + 9) / 10)%nat = 1%nat) as ->; [|done].
        symmetry. apply (Nat.div_unique _ 10 1 (stop - start - 1)); lia.
      * replace (stop - start + 9)%nat
          with ((stop - (start + 10) + 9) + 1 * 10)%nat by lia.
        rewrite Nat.div_add by lia. lia.
    + replace (stop - start)%nat with 0%nat by lia. done.
Qed.

(** The batches partition the ids in order; each holds between one and ten
    ids; there are ceil(n / 10) of them. *)
Lemma batches_partition (ids : list string) :
  concat (batches ids) = ids /\
  Forall (fun b => (1 <= length b <= 10)%nat) (batches ids) /\
  length (batches ids) = ((length ids + 9) / 10)%nat.
Proof.
  unfold batches, py_range. split_and!.
  - rewrite concat_slices by lia. done.
  - apply Forall_forall. intros b Hb. apply in_map_iff in Hb as (i & <- & Hi).
    apply range_from_bounds in Hi. unfold slice.
    rewrite length_firstn, length_skipn. unfold BATCH. lia.
  - rewrite length_map, length_range_from by lia. f_equal. lia.
Qed.

Lemma batches_fifteen (ids : list string) :
  length ids = 15%nat ->
  batches ids = [firstn 10 ids; skipn 10 ids] /\
  length (firstn 10 ids) = 10%nat /\ length (skipn 10 ids) = 5%nat.
Proof.
  intros Hlen. unfold batches. rewrite Hlen.
  change (py_range 0 15 BATCH) with [0%nat; 10%nat]. cbn [map].
  unfold slice, BATCH. cbn [Nat.add Nat.sub skipn].
  rewrite length_firstn, length_skipn, Hlen. split_and!; try done.
  do 2 f_equal. apply firstn_all2. rewrite length_skipn. lia.
Qed.

(* ================================================================== *)
(** ** [_gather_participants]: rows *)

Lemma regs_loop_returns (st : store) (event_map : list (string * dict))
  (regs : collection) (rows rows' : list dict) :
  regs_loop st event_map regs rows = Ok rows' ->
  rows' = (rows ++ batch_rows st event_map regs)%list.
Proof.
  revert rows. induction regs as [|reg rest IH]; intros rows; simpl.
  - intros [= <-]. by rewrite app_nil_r.
  - destruct (_resolve_participant_from_registration st (snd reg))
      as [[[|f p]|]|]; unfold_bind; simpl; try done.
    + apply IH.
    + intros H%IH. by rewrite H, <- app_assoc.
    + apply IH.
Qed.

Lemma regs_loop_total (st : store) (event_map : list (string * dict))
  (regs : collection) (rows : list dict) :
  Forall (resolves st) regs ->
  exists rows', regs_loop st event_map regs rows = Ok rows'.
Proof.
  intros Hregs. revert rows.
  induction Hregs as [|reg rest Hreg _ IH]; intros rows; simpl; [by eexists|].
  unfold resolves in Hreg.
  destruct (_resolve_participant_from_registration st (snd reg))
    as [p|]; [|done].
  unfold_bind. destruct (not_p p); apply IH.
Qed.

Lemma batch_loop_returns (st : store) (event_ids : list string)
  (event_map : list (string * dict)) (indices : list nat)
  (queries : list (list string)) (rows rows' : list dict) :
  snd (batch_loop st event_ids event_map indices queries rows) = Ok rows' ->
  fst (batch_loop st event_ids event_map indices queries rows)
  = (queries ++ map (fun i => slice i (i + BATCH) event_ids) indices)%list /\
  rows' = (rows ++ flat_map (fun b => batch_rows st event_map (batch_regs st b))
                     (map (fun i => slice i (i + BATCH) event_ids) indices))%list.
Proof.
  revert queries rows. induction indices as [|i rest IH]; intros queries rows.
  - simpl. intros [= <-]. by rewrite !app_nil_r.
  - cbn [batch_loop map flat_map].
    destruct (regs_loop st event_map _ rows) as [rows1|] eqn:Hregs; [|done].
    apply regs_loop_returns in Hregs as ->.
    intros [-> ->]%IH. by rewrite <- !app_assoc.
Qed.

Lemma batch_loop_total (st : store) (event_ids : list string)
  (event_map : list (string * dict)) (indices : list nat)
  (queries : list (list string)) (rows : list dict) :
  Forall (resolves st) (registrations st) ->
  exists rows',
    snd (batch_loop st event_ids event_map indices queries rows) = Ok rows'.
Proof.
  intros Hregs. revert queries rows.
  induction indices as [|i rest IH]; intros queries rows; [by eexists|].
  cbn [batch_loop].
  destruct (regs_loop_total st event_map
              (where_in "event_id" (slice i (i + BATCH) event_ids)
                 (registrations st)) rows) as [rows1 ->].
  { by apply filter_Forall. }
  apply IH.
Qed.

Lemma gather_unfold (st : store) (dept_id : string) (event_id : option string) :
  dept_id <> "" ->
  fst (gather_events st dept_id event_id) <> [] ->
  _gather_participants st dept_id event_id
  = batch_loop st (fst (gather_events st dept_id event_id))
      (snd (gather_events st dept_id event_id))
      (py_range 0 (length (fst (gather_events st dept_id event_id))) BATCH)
      [] [].
Proof.
  intros Hd Hids. unfold _gather_participants.
  destruct (String.eqb_spec dept_id ""); [done|].
  destruct (gather_events st dept_id event_id) as [[|id ids] event_map];
    simpl in *; done.
Qed.

(** C3: in registration mode, for a non-empty list of event ids the ids are
    cut, in order, into batches of at most ten (none empty, ceil(n/10) of
    them; ten then five for fifteen ids). Whenever the listing returns, it
    has sent exactly one [in]-query per batch, in order, and its rows are the
    rows of the batches' registrations, batch after batch; it returns
    whenever no lookup raises. *)
Theorem gather_batches (st : store) (dept_id : string)
  (event_id : option string) :
  dept_id <> "" ->
  fst (gather_events st dept_id event_id) <> [] ->
  let event_ids := fst (gather_events st dept_id event_id) in
  let event_map := snd (gather_events st dept_id event_id) in
  let result := _gather_participants st dept_id event_id in
  concat (batches event_ids) = event_ids /\
  Forall (fun b => (1 <= length b <= 10)%nat) (batches event_ids) /\
  length (batches event_ids) = ((length event_ids + 9) / 10)%nat /\
  (length event_ids = 15%nat ->
   batches event_ids = [firstn 10 event_ids; skipn 10 event_ids] /\
   length (firstn 10 event_ids) = 10%nat /\
   length (skipn 10 event_ids) = 5%nat) /\
  (forall rows,
     snd result = Ok rows ->
     fst result = batches event_ids /\
     rows = flat_map (fun b => batch_rows st event_map (batch_regs st b))
              (batches event_ids)) /\
  (Forall (resolves st) (registrations st) ->
   exists rows, snd result = Ok rows).
Proof.
  intros Hd Hids event_ids event_map result.
  destruct (batches_partition event_ids) as (Hconcat & Hlen & Hcount).
  split_and!; try done.
  - apply batches_fifteen.
  - intros rows. subst result. rewrite gather_unfold by done.
    intros H. by apply batch_loop_returns in H.
  - intros Hregs. subst result. rewrite gather_unfold by done.
    by apply batch_loop_total.
Qed.

Lemma gather_batches_witness :
  fst (_gather_participants store_fifteen "cs" None)
  = [ ["1"; "2"; "3"; "4"; "5"; "6"; "7"; "8"; "9"; "10"];
      ["11"; "12"; "13"; "14"; "15"] ] /\
  exists rows,
    snd (_gather_participants store_fifteen "cs" None) = Ok rows /\
    map (fun r => get r "event_id") rows = [VStr "10"; VStr "11"].
Proof.
  assert ("cs" <> "") as Hd by discriminate.
  assert (fst (gather_events store_fifteen "cs" None) <> []) as Hids
    by discriminate.
  destruct (gather_batches store_fifteen "cs" None Hd Hids)
    as (_ & _ & _ & _ & Hret & Htotal).
  destruct Htotal as [rows Hrows].
  { repeat constructor; discriminate. }
  destruct (Hret rows Hrows) as [Hq Hr]. split; [exact Hq|].
  exists rows. split; [exact Hrows|]. rewrite Hr. reflexivity.
Defined.

(* ================================================================== *)
(** ** [_gather_participants]: unresolved registrations *)

Lemma length_batch_rows (st : store) (event_map : list (string * dict))
  (regs : collection) :
  length (batch_rows st event_map regs)
  = length (List.filter (resolved_nonempty st) regs).
Proof.
  unfold batch_rows, resolved_nonempty.
  induction regs as [|reg rest IH]; simpl; [done|].
  destruct (_resolve_participant_from_registration st (snd reg))
    as [[[|f p]|]|]; simpl; by rewrite ?IH.
Qed.

Lemma length_flat_map_rows (st : store) (event_map : list (string * dict))
  (bs : list (list string)) :
  length (flat_map (fun b => batch_rows st event_map (batch_regs st b)) bs)
  = length (List.filter (resolved_nonempty st) (flat_map (batch_regs st) bs)).
Proof.
  induction bs as [|b bs IH]; simpl; [done|].
  by rewrite length_app, List.filter_app, length_app, length_batch_rows, IH.
Qed.

(** C6, as amended: a registration for which the resolver yields NotFound
    adds no row and raises nothing, and the loop goes on with the remaining
    registrations; the same holds for a registration resolved to an empty
    record; every other resolved registration adds exactly one row. So the
    listing, when it returns, has as many rows as there are queried
    registrations resolved to a non-empty participant record. *)
Theorem gather_skips_unresolved (st : store) (dept_id : string)
  (event_id : option string) :
  (forall event_map reg rest rows,
     _resolve_participant_from_registration st (snd reg) = Ok None ->
     regs_loop st event_map (reg :: rest) rows
     = regs_loop st event_map rest rows) /\
  (forall event_map reg rest rows,
     _resolve_participant_from_registration st (snd reg) = Ok (Some []) ->
     regs_loop st event_map (reg :: rest) rows
     = regs_loop st event_map rest rows) /\
  (forall event_map reg rest rows p,
     _resolve_participant_from_registration st (snd reg) = Ok (Some p) ->
     p <> [] ->
     regs_loop st event_map (reg :: rest) rows
     = regs_loop st event_map rest
         (rows ++ [gather_row event_map (snd reg) p])%list) /\
  (dept_id <> "" ->
   forall rows,
     snd (_gather_participants st dept_id event_id) = Ok rows ->
     length rows =
     length (List.filter (resolved_nonempty st)
               (flat_map (batch_regs st)
                  (batches (fst (gather_events st dept_id event_id)))))).
Proof.
  split_and!.
  - intros event_map reg rest rows H. cbn [regs_loop]. by rewrite H.
  - intros event_map reg rest rows H. cbn [regs_loop]. by rewrite H.
  - intros event_map reg rest rows p H Hp. cbn [regs_loop]. rewrite H.
    by destruct p.
  - intros Hd rows.
    destruct (fst (gather_events st dept_id event_id)) as [|id ids] eqn:Hids.
    + unfold _gather_participants.
      destruct (String.eqb dept_id ""); [by intros [= <-]|].
      destruct (gather_events st dept_id event_id) as [ids em].
      simpl in Hids. subst ids. by intros [= <-].
    + rewrite gather_unfold by (done || by rewrite Hids).
      intros [_ ->]%batch_loop_returns. rewrite Hids.
      apply length_flat_map_rows.
Qed.

Lemma gather_skips_unresolved_witness :
  map (resolved_nonempty store_amy) (registrations store_amy)
  = [true; false; true] /\
  exists rows,
    snd (_gather_participants store_amy "cs" None) = Ok rows /\
    length rows = 2%nat.
Proof.
  split; [reflexivity|].
  destruct (gather_skips_unresolved store_amy "cs" None)
    as (_ & _ & _ & Hcount).
  eexists. split; [reflexivity|].
  rewrite (Hcount ltac:(discriminate) _ eq_refl). reflexivity.
Defined.

(** C6 as stated fails when a registration resolves to a participant
    document without fields: the resolver yields that record, not NotFound,
    and the listing still drops the registration. *)
Lemma gather_empty_record_counterexample :
  _resolve_participant_from_registration store_empty_participant
    [("event_id", VStr "1"); ("participant_id", VStr "p1")]
  = Ok (Some []) /\
  _gather_participants store_empty_participant "cs" None = ([["1"]], Ok []) /\
  ~ row_count_is_resolvable_count store_empty_participant "cs" None.
Proof.
  split_and!; try reflexivity.
  intros H. specialize (H [] eq_refl). discriminate H.
Qed.

(* ================================================================== *)
(** ** The order of listings and exports *)

Lemma str_keys_dept_name (r : dict) :
  str_keys r -> forallb is_str (key_dept_name r) = true.
Proof.
  unfold str_keys, key_dept_event_name, key_dept_name. cbn [forallb].
  intros H. apply andb_prop in H as [Hd H]. apply andb_prop in H as [_ Hn].
  by rewrite Hd, Hn.
Qed.

Lemma export_rows_keys (st : store) (args : request_args) :
  Forall (fun r => map fst r = headers) (export_rows st args).
Proof.
  unfold export_rows. apply Forall_map_iff, Forall_forall. intros doc _.
  apply export_row_keys.
Qed.

Lemma export_table (env : environment) (st : store) (args : request_args)
  (rows : list dict) (name mime : string) (table : list (list value)) :
  py_sorted key_dept_event_name (export_rows st args) = Ok rows ->
  Forall (fun r => map fst r = headers) rows ->
  export_participants env st args = Ok (SendFile name mime table) ->
  table = map VStr headers :: map row_cells rows.
Proof.
  intros Hsorted Hkeys. unfold export_participants. rewrite Hsorted.
  unfold_bind.
  destruct (if truthy (selected_dept_name _ _) then _ else _); [|done].
  destruct (if truthy (selected_event_name _ _) then _ else _); [|done].
  destruct (String.eqb _ "xlsx").
  - destruct (has_pandas env); [|done]. intros H.
    apply (f_equal file_table) in H. cbv beta iota delta [file_table] in H.
    rewrite <- H. by apply to_excel_canonical.
  - destruct (String.eqb _ "pdf"); [|done].
    destruct (has_reportlab env); [|done]. intros H.
    apply (f_equal file_table) in H. cbv beta iota delta [file_table] in H.
    rewrite <- H. by apply pdf_data_canonical.
Qed.

(** The order of listings and exports, on rows whose sort fields are
    strings. The listing of [view_participants] is its rows in ascending,
    case-sensitive order of (dept_name, event_name, name) when an event is
    selected and of (dept_name, name) otherwise. The export is always in the
    order of (dept_name, event_name, name), with or without an event filter,
    and its table holds the rows in that order. A missing department or
    event is the empty string in both, and so is a missing name in the
    export. *)
Lemma rows_sorted (st : store) (args : request_args) :
  (departments_named st ->
   Forall str_keys (view_rows st args) ->
   exists out,
     view_participants st args = Ok out /\
     Permutation (view_rows st args) out /\
     if arg_truthy (arg_event_id args)
     then StronglySorted le_dept_event_name out
     else StronglySorted le_dept_name out) /\
  (Forall str_keys (export_rows st args) ->
   exists rows,
     py_sorted key_dept_event_name (export_rows st args) = Ok rows /\
     Permutation (export_rows st args) rows /\
     StronglySorted le_dept_event_name rows /\
     forall env name mime table,
       export_participants env st args = Ok (SendFile name mime table) ->
       table = map VStr headers :: map row_cells rows) /\
  (forall p,
     (assoc "department" p = None ->
      get (view_row p) "dept_name" = VStr "" /\
      get (export_row p) "dept_name" = VStr "") /\
     (assoc "event" p = None ->
      get (view_row p) "event_name" = VStr "" /\
      get (export_row p) "event_name" = VStr "") /\
     (assoc "name" p = None -> get (export_row p) "name" = VStr "")).
Proof.
  split_and!.
  - intros Hnamed Hkeys. unfold view_participants.
    destruct (dept_list_ok _ Hnamed) as [l ->]. unfold_bind.
    destruct (arg_truthy (arg_event_id args)).
    + destruct (py_sorted_ok key_dept_event_name (view_rows st args) Hkeys)
        as (out & -> & Hperm & Hsorted & _).
      by exists out.
    + destruct (py_sorted_ok key_dept_name (view_rows st args))
        as (out & -> & Hperm & Hsorted & _).
      { eapply Forall_impl; [|exact Hkeys]. apply str_keys_dept_name. }
      by exists out.
  - intros Hkeys.
    destruct (py_sorted_ok key_dept_event_name (export_rows st args) Hkeys)
      as (rows & Hrows & Hperm & Hsorted & _).
    exists rows. split_and!; try done.
    intros env name mime table. apply export_table; [done|].
    eapply Permutation_Forall; [exact Hperm|]. apply export_rows_keys.
  - intros p. unfold view_row, export_row, get, get_default, py_or.
    split_and!; intros ->; done.
Qed.

Example rows_sorted_selected_event :
  view_participants store_two_events
    {| arg_dept_id := None; arg_event_id := Some "Zumba"; arg_format := None |}
  = Ok [view_row p_amy_zumba] /\
  file_table (export_participants env_full store_two_events pdf_args)
  = [ map VStr headers; row_cells (export_row p_bob_acting);
      row_cells (export_row p_amy_zumba) ].
Proof.
  destruct (rows_sorted store_two_events pdf_args) as (_ & Hexport & _).
  destruct Hexport as (rows & Hrows & _ & _ & Htable).
  { repeat constructor. }
  vm_compute in Hrows. injection Hrows as <-.
  split; [reflexivity|].
  assert (export_participants env_full store_two_events pdf_args
          = Ok (SendFile "tantra_all_departments_all_events.pdf"
                  "application/pdf"
                  (pdf_data [export_row p_bob_acting; export_row p_amy_zumba])))
    as Hrun by reflexivity.
  rewrite (Htable _ _ _ _ Hrun) in Hrun. rewrite Hrun. reflexivity.
Qed.

(** C2 fails on the code. With no event requested, [view_participants]
    lists Amy before Bob, the order of (dept_name, name); the export of the
    same participants puts Bob (event Acting) before Amy (event Zumba): it
    sorts by (dept_name, event_name, name) whether or not an event was
    requested. *)
Theorem export_order_differs_from_listing :
  arg_truthy (arg_event_id pdf_args) = false /\
  view_participants store_two_events pdf_args
  = Ok [view_row p_amy_zumba; view_row p_bob_acting] /\
  export_participants env_full store_two_events pdf_args
  = Ok (SendFile "tantra_all_departments_all_events.pdf" "application/pdf"
          [ map VStr headers; row_cells (export_row p_bob_acting);
            row_cells (export_row p_amy_zumba) ]) /\
  le_dept_name (export_row p_amy_zumba) (export_row p_bob_acting) /\
  ~ le_dept_name (export_row p_bob_acting) (export_row p_amy_zumba) /\
  ~ StronglySorted le_dept_name
      [export_row p_bob_acting; export_row p_amy_zumba].
Proof.
  assert (~ le_dept_name (export_row p_bob_acting) (export_row p_amy_zumba))
    as Hle by (intros H; by apply H).
  split_and!; try reflexivity; try done.
  intros H. apply StronglySorted_inv in H as [_ H].
  apply Forall_inv in H. done.
Qed.

(** In the listing a participant without a name keeps [None] as name (the
    key is always present in the row, so the default of the sort key never
    applies), and comparing it with a string raises TypeError. *)
Example view_missing_name_raises :
  view_rows store_missing_name no_args
  = [ view_row [("name", VStr "Bob"); ("department", VStr "Arts")];
      view_row [("department", VStr "Arts")] ] /\
  get (view_row [("department", VStr "Arts")]) "name" = VNone /\
  view_participants store_missing_name no_args = Raised.
Proof. by split_and!. Qed.

(* ================================================================== *)
(** * Further properties of the handlers *)

(** ** [toggle_event_status], repeated *)

Lemma assoc_set_same {A : Type} (k : string) (v : A) (d : list (string * A)) :
  assoc k d = Some v -> assoc_set k v d = d.
Proof.
  induction d as [|[k' v'] t IH]; simpl; [done|].
  destruct (String.eqb_spec k k') as [->|Hne]; [congruence|].
  intros H. by rewrite IH.
Qed.

Lemma assoc_set_twice {A : Type} (k : string) (v v' : A)
  (d : list (string * A)) :
  assoc_set k v (assoc_set k v' d) = assoc_set k v d.
Proof.
  induction d as [|[k0 v0] t IH]; simpl.
  - by rewrite String.eqb_refl.
  - destruct (String.eqb k k0) eqn:E; simpl.
    + by rewrite String.eqb_refl.
    + by rewrite E, IH.
Qed.

Lemma document_update_twice (c : collection) (id k : string) (v v' : value) :
  document_update (document_update c id k v') id k v = document_update c id k v.
Proof.
  induction c as [|[id0 d] t IH]; simpl; [done|].
  destruct (String.eqb id id0) eqn:E; simpl.
  - by rewrite E, assoc_set_twice.
  - by rewrite E, IH.
Qed.

Lemma document_update_same (c : collection) (id k : string) (v : value)
  (d : dict) :
  document_get c id = Some d -> assoc k d = Some v ->
  document_update c id k v = c.
Proof.
  unfold document_get. induction c as [|[id0 d0] t IH]; simpl; [done|].
  destruct (String.eqb id id0) eqn:E.
  - intros [= ->] Hk. by rewrite assoc_set_same.
  - intros Hd Hk. by rewrite IH.
Qed.

Lemma toggle_existing (st : store) (id : string) (ev : dict) :
  id <> "" -> document_get (events st) id = Some ev ->
  toggle_event_status st (Some id)
  = {| departments := departments st;
       events := document_update (events st) id "status"
                   (VInt (toggled_status ev));
       participants := participants st;
       registrations := registrations st;
       users := users st |}.
Proof.
  intros Hid Hev. unfold toggle_event_status.
  destruct (String.eqb_spec id ""); [done|]. rewrite Hev.
  unfold toggled_status, get_default. by destruct (assoc "status" ev).
Qed.

Lemma toggled_status_set (t : Z) (ev : dict) :
  toggled_status (assoc_set "status" (VInt t) ev) = if t =? 1 then 0 else 1.
Proof. unfold toggled_status. by rewrite assoc_set_eq. Qed.

(** After a toggle the status of the event is 0 or 1; a second toggle gives
    back the store as it was when the status was 0 or 1 to begin with; a
    third toggle always gives the store of the first. *)
Theorem toggle_twice (st : store) (id : string) (ev : dict) :
  id <> "" ->
  document_get (events st) id = Some ev ->
  let st1 := toggle_event_status st (Some id) in
  let st2 := toggle_event_status st1 (Some id) in
  let st3 := toggle_event_status st2 (Some id) in
  (exists ev1,
     document_get (events st1) id = Some ev1 /\
     (assoc "status" ev1 = Some (VInt 0) \/
      assoc "status" ev1 = Some (VInt 1))) /\
  (assoc "status" ev = Some (VInt 0) \/ assoc "status" ev = Some (VInt 1) ->
   st2 = st) /\
  st3 = st1.
Proof.
  intros Hid Hev st1 st2 st3.
  assert (st1 = {| departments := departments st;
                   events := document_update (events st) id "status"
                               (VInt (toggled_status ev));
                   participants := participants st;
                   registrations := registrations st;
                   users := users st |}) as H1
    by by apply toggle_existing.
  set (ev1 := assoc_set "status" (VInt (toggled_status ev)) ev).
  assert (document_get (events st1) id = Some ev1) as Hev1.
  { rewrite H1. cbn [events]. by rewrite document_update_get, Hev. }
  pose proof (toggle_existing st1 id ev1 Hid Hev1) as H2. fold st2 in H2.
  rewrite H1 in H2. cbn [events departments participants registrations users]
    in H2. rewrite document_update_twice in H2.
  unfold ev1 in H2. rewrite toggled_status_set in H2.
  set (ev2 := assoc_set "status"
                (VInt (if toggled_status ev =? 1 then 0 else 1)) ev).
  assert (document_get (events st2) id = Some ev2) as Hev2.
  { rewrite H2. cbn [events]. by rewrite document_update_get, Hev. }
  pose proof (toggle_existing st2 id ev2 Hid Hev2) as H3. fold st3 in H3.
  rewrite H2 in H3. cbn [events departments participants registrations users]
    in H3. rewrite document_update_twice in H3.
  unfold ev2 in H3. rewrite toggled_status_set in H3.
  assert (toggled_status ev = 0 \/ toggled_status ev = 1) as Ht.
  { unfold toggled_status. destruct (assoc "status" ev) as [c|]; [|by left].
    destruct (py_eqb c (VInt 1)); auto. }
  split_and!.
  - exists ev1. split; [done|]. unfold ev1. rewrite assoc_set_eq.
    destruct Ht as [->| ->]; auto.
  - intros Hs. rewrite H2. destruct st as [ds es ps rs us]. simpl in *.
    f_equal. apply (document_update_same _ _ _ _ ev Hev).
    unfold toggled_status. destruct Hs as [-> | ->]; reflexivity.
  - rewrite H3, H1. f_equal. f_equal. f_equal.
    destruct Ht as [->| ->]; reflexivity.
Qed.

Lemma toggle_twice_witness :
  let st := {| departments := []; participants := []; registrations := [];
               users := [];
               events := [("7", [("name", VStr "Quiz"); ("status", VInt 1)])] |}
  in
  toggle_event_status (toggle_event_status st (Some "7")) (Some "7") = st.
Proof.
  intros st.
  refine (proj1 (proj2 (toggle_twice st "7"
            [("name", VStr "Quiz"); ("status", VInt 1)] _ eq_refl)) _).
  - discriminate.
  - by right.
Defined.

(* ================================================================== *)
(** ** [add_event], repeated, and its failures *)

Lemma max_id_loop_app (l1 l2 : collection) (m : Z) :
  max_id_loop (l1 ++ l2)%list m = max_id_loop l2 (max_id_loop l1 m).
Proof.
  revert m. induction l1 as [|ev rest IH]; intros m; simpl; [done|].
  destruct (py_int (fst ev)) as [eid|]; [|apply IH].
  destruct (eid >? m); apply IH.
Qed.

Lemma new_event_id_pos (st : store) : 0 < new_event_id st.
Proof.
  unfold new_event_id. pose proof (max_id_loop_ge (events st) 0). lia.
Qed.

Lemma new_event_id_fresh (st : store) :
  document_get (events st) (str_of_int (new_event_id st)) = None.
Proof.
  unfold document_get.
  destruct (assoc (str_of_int (new_event_id st)) (events st)) as [d|] eqn:Hd;
    [|done].
  apply assoc_In in Hd.
  pose proof (max_id_loop_bound (events st) 0 _ (new_event_id st) Hd
                (py_int_str_of_int _ (new_event_id_pos st))) as Hle.
  unfold new_event_id in Hle. lia.
Qed.

Lemma dept_list_raises (depts : collection) :
  dept_list depts = Raised <->
  Exists (fun d => assoc "name" (snd d) = None) depts.
Proof.
  induction depts as [|[id d] t IH]; simpl.
  - split; [done|]. intros H. inversion H.
  - destruct (assoc "name" d) as [name|] eqn:Hname.
    + destruct (dept_list t) as [l|]; unfold_bind.
      * split; [done|]. intros H. apply Exists_cons in H as [H|H].
        -- simpl in H. congruence.
        -- by apply IH in H.
      * split; [|done]. intros _. apply Exists_cons_tl. by apply IH.
    + split; [|done]. intros _. by apply Exists_cons_hd.
Qed.

(** What a successful [add_event] leaves: the events collection with the
    new document under the next id (which the model of the store puts at
    the end of the stream). *)
Lemma add_event_inv (st st1 : store) (f : event_form) :
  add_event st f = Ok st1 ->
  exists status,
    py_int (form_get (f_status f) "1") = Some status /\
    st1 = {| departments := departments st;
             events := (events st ++
                        [(str_of_int (new_event_id st),
                          new_event_doc st f status)])%list;
             participants := participants st;
             registrations := registrations st;
             users := users st |}.
Proof.
  unfold add_event. destruct (dept_list (departments st)); [|done].
  unfold_bind.
  destruct (py_int (form_get (f_status f) "1")) as [status|]; [|done].
  intros [= <-]. exists status. split; [done|].
  unfold document_set. by rewrite assoc_set_fresh by apply new_event_id_fresh.
Qed.

(** Event ids grow by one with every [add_event], and an [add_event] never
    touches a document that was there: the collection gains exactly one
    document. *)
Theorem add_event_ids_increase (st st1 : store) (f : event_form) :
  add_event st f = Ok st1 ->
  new_event_id st1 = new_event_id st + 1 /\
  (forall id d, document_get (events st) id = Some d ->
                document_get (events st1) id = Some d) /\
  length (events st1) = S (length (events st)).
Proof.
  intros (status & _ & ->)%add_event_inv. cbn [events]. split_and!.
  - unfold new_event_id at 1. cbn [events]. rewrite max_id_loop_app.
    cbn [max_id_loop fst].
    rewrite (py_int_str_of_int _ (new_event_id_pos st)).
    fold (new_event_id st - 1 + 1). unfold new_event_id.
    destruct (Z.gtb_spec (max_id_loop (events st) 0 + 1)
                (max_id_loop (events st) 0)); lia.
  - intros id d Hd. unfold document_get in *.
    induction (events st) as [|[k v] t IH]; simpl in *; [done|].
    destruct (String.eqb id k); [done|]. by apply IH.
  - rewrite length_app. simpl. lia.
Qed.

Lemma add_event_ids_increase_witness :
  exists st1 st2,
    add_event store_three_events sample_form = Ok st1 /\
    add_event st1 sample_form = Ok st2 /\
    new_event_id store_three_events = 11 /\
    new_event_id st1 = 12 /\
    new_event_id st2 = 13.
Proof.
  destruct (add_event store_three_events sample_form) as [st1|] eqn:H1;
    [|discriminate H1].
  destruct (add_event st1 sample_form) as [st2|] eqn:H2.
  - exists st1, st2.
    destruct (add_event_ids_increase _ _ _ H1) as (Hn1 & _ & _).
    destruct (add_event_ids_increase _ _ _ H2) as (Hn2 & _ & _).
    rewrite Hn2, Hn1. by split_and!.
  - apply add_event_inv in H1 as (status & _ & ->). discriminate H2.
Defined.

(** Both [add_event] and [view_participants] begin by listing the
    departments as (id, name): a department document without [name] makes
    [add_event] fail for every form and [view_participants] for every
    request. A posted status that is not a number makes [add_event] fail as
    well. *)
Theorem handlers_need_department_names (st : store) :
  (Exists (fun d => assoc "name" (snd d) = None) (departments st) ->
   (forall f, add_event st f = Raised) /\
   (forall args, view_participants st args = Raised)) /\
  (forall f,
     py_int (form_get (f_status f) "1") = None -> add_event st f = Raised).
Proof.
  split.
  - intros H%dept_list_raises. split.
    + intros f. unfold add_event. by rewrite H.
    + intros args. unfold view_participants. by rewrite H.
  - intros f Hstatus. unfold add_event.
    destruct (dept_list (departments st)); [|done]. unfold_bind.
    by rewrite Hstatus.
Qed.

Lemma handlers_need_department_names_witness :
  let st := {| departments := [("d1", [("description", VStr "no name")])];
               events := []; participants := []; registrations := [];
               users := [] |} in
  add_event st sample_form = Raised /\ view_participants st no_args = Raised.
Proof.
  intros st.
  destruct (handlers_need_department_names st) as [Hnames _].
  assert (Exists (fun d => assoc "name" (snd d) = None) (departments st))
    as Hex by (by apply Exists_cons_hd).
  destruct (Hnames Hex) as [Hadd Hview].
  split; [apply Hadd|apply Hview].
Defined.

(* ================================================================== *)
(** ** [get_event] after [add_event] and [toggle_event_status] *)

Lemma py_int_nonempty (s : string) (n : Z) : py_int s = Some n -> s <> "".
Proof. by intros H ->. Qed.

Lemma new_event_id_nonempty (st : store) :
  str_of_int (new_event_id st) <> "".
Proof.
  eapply py_int_nonempty, py_int_str_of_int, new_event_id_pos.
Qed.

Lemma document_get_app_new (c : collection) (id id' : string) (d : dict) :
  document_get c id = None ->
  document_get (c ++ [(id, d)])%list id'
  = if String.eqb id' id then Some d else document_get c id'.
Proof.
  intros Hfresh. unfold document_get in *.
  rewrite <- (assoc_set_fresh id d c Hfresh).
  destruct (String.eqb_spec id' id) as [->|Hne].
  - apply assoc_set_eq.
  - apply assoc_set_ne. congruence.
Qed.

(** An event that [add_event] has stored is what [get_event] returns under
    the new id, field by field as posted; before the request that id was not
    found, and the answers for all other ids are unchanged. *)
Theorem add_event_then_get_event (st st1 : store) (f : event_form) :
  add_event st f = Ok st1 ->
  let id := str_of_int (new_event_id st) in
  get_event st id = EventError "not found" 404 /\
  (exists status,
     py_int (form_get (f_status f) "1") = Some status /\
     get_event st1 id
     = EventFound
         [ ("id", VStr id);
           ("name", VStr (f_name f));
           ("description", VStr (f_description f));
           ("date", VStr (f_date f));
           ("time", VStr (f_time f));
           ("venue", VStr (f_venue f));
           ("image_url", VStr (f_image_url f));
           ("status", VInt status);
           ("department", VStr (f_dept_id f));
           ("price", VStr (form_get (f_price f) ""));
           ("prize", VStr (form_get (f_prize f) "")) ]) /\
  (forall id', id' <> id -> get_event st1 id' = get_event st id').
Proof.
  intros (status & Hstatus & ->)%add_event_inv id.
  pose proof (new_event_id_fresh st) as Hfresh. fold id in Hfresh.
  pose proof (new_event_id_nonempty st) as Hne. fold id in Hne.
  unfold get_event. cbn [events].
  destruct (String.eqb_spec id ""); [done|]. split_and!.
  - by rewrite Hfresh.
  - exists status. split; [done|].
    rewrite (document_get_app_new _ _ _ _ Hfresh), String.eqb_refl.
    reflexivity.
  - intros id' Hid'. rewrite (document_get_app_new _ _ _ _ Hfresh).
    by destruct (String.eqb_spec id' id).
Qed.

Lemma add_event_then_get_event_witness :
  get_event store_three_events "11" = EventError "not found" 404 /\
  exists st1,
    add_event store_three_events sample_form = Ok st1 /\
    get_event st1 "11"
    = EventFound
        [ ("id", VStr "11"); ("name", VStr "Quiz");
          ("description", VStr "A quiz"); ("date", VStr "2025-01-10");
          ("time", VStr "10:00"); ("venue", VStr "Hall");
          ("image_url", VStr ""); ("status", VInt 1);
          ("department", VStr "cs"); ("price", VStr "50");
          ("prize", VStr "") ].
Proof.
  destruct (add_event store_three_events sample_form) as [st1|] eqn:H1;
    [|discriminate H1].
  destruct (add_event_then_get_event _ _ _ H1)
    as (Hbefore & (status & Hstatus & Hafter) & _).
  split; [exact Hbefore|]. exists st1. split; [reflexivity|].
  injection Hstatus as <-. exact Hafter.
Defined.

Lemma get_assoc_set_ne (d : dict) (k k' : string) (v dflt : value) :
  k <> k' ->
  get_default (assoc_set k v d) k' dflt = get_default d k' dflt.
Proof. intros Hne. unfold get_default. by rewrite assoc_set_ne. Qed.

Lemma get_assoc_set_eq (d : dict) (k : string) (v dflt : value) :
  get_default (assoc_set k v d) k dflt = v.
Proof. unfold get_default. by rewrite assoc_set_eq. Qed.

(** [get_event] after a toggle shows the toggled status and every other
    field as before; the answers for all other ids are unchanged. *)
Theorem toggle_then_get_event (st : store) (id : string) (ev : dict) :
  id <> "" ->
  document_get (events st) id = Some ev ->
  get_event (toggle_event_status st (Some id)) id
  = EventFound (assoc_set "status" (VInt (toggled_status ev))
                  (event_details id ev)) /\
  get_event st id = EventFound (event_details id ev) /\
  (forall id', id' <> id ->
     get_event (toggle_event_status st (Some id)) id' = get_event st id').
Proof.
  intros Hid Hev. rewrite (toggle_existing st id ev Hid Hev).
  unfold get_event. cbn [events].
  destruct (String.eqb_spec id ""); [done|]. split_and!.
  - rewrite document_update_get, Hev. cbn [fmap option_fmap option_map].
    f_equal. unfold event_details, get.
    rewrite get_assoc_set_eq.
    rewrite !get_assoc_set_ne by discriminate. reflexivity.
  - by rewrite Hev.
  - intros id' Hid'. by rewrite document_update_get_ne by congruence.
Qed.

Lemma toggle_then_get_event_witness :
  get_event (toggle_event_status store_amy (Some "1")) "1"
  = EventFound
      [ ("id", VStr "1"); ("name", VStr "Quiz"); ("description", VStr "");
        ("date", VStr ""); ("time", VStr ""); ("venue", VStr "");
        ("image_url", VStr ""); ("status", VInt 0);
        ("department", VStr "cs"); ("price", VStr ""); ("prize", VStr "") ].
Proof.
  refine (eq_trans (proj1 (toggle_then_get_event store_amy "1"
            [("name", VStr "Quiz"); ("department", VStr "cs")] _ eq_refl)) _).
  - discriminate.
  - reflexivity.
Defined.

(* ================================================================== *)
(** ** [dept_events] *)

Lemma fs_eqb_str (x : value) (s : string) :
  fs_eqb x (VStr s) = true -> x = VStr s.
Proof.
  destruct x; cbn [fs_eqb]; try discriminate.
  by intros ->%String.eqb_eq.
Qed.

Lemma where_eq_app (k : string) (v : value) (c1 c2 : collection) :
  where_eq k v (c1 ++ c2)%list = (where_eq k v c1 ++ where_eq k v c2)%list.
Proof. apply List.filter_app. Qed.

Lemma where_eq_field (k : string) (s : string) (c : collection) :
  Forall (fun doc => assoc k (snd doc) = Some (VStr s)) (where_eq k (VStr s) c).
Proof.
  apply Forall_forall. intros doc [_ Hdoc]%List.filter_In.
  destruct (assoc k (snd doc)) as [x|]; [|discriminate].
  by rewrite (fs_eqb_str _ _ Hdoc).
Qed.

(** The events that [dept_events] returns for a department are those whose
    registrations [_gather_participants] collects for it, in the same order,
    and each of them names that department. *)
Theorem dept_events_of_department (st : store) (dept_id : string) :
  dept_id <> "" ->
  let r := dept_events st dept_id in
  ej_dept_id r = Some dept_id /\
  map (fun e => get e "id") (ej_events r)
  = map VStr (fst (gather_events st dept_id None)) /\
  Forall (fun e => get e "department" = VStr dept_id) (ej_events r).
Proof.
  intros Hne r. subst r. unfold dept_events, gather_events.
  destruct (String.eqb_spec dept_id ""); [done|].
  cbn [ej_dept_id ej_events arg_truthy fst]. split_and!; [done| |].
  - rewrite !map_map.
    apply (List.map_ext (fun e => get (event_summary e) "id")
             (fun e => VStr (fst e))).
    by intros [id ed].
  - apply List.Forall_map.
    eapply List.Forall_impl; [|apply where_eq_field].
    intros [id ed] Hd. cbn [snd] in Hd.
    unfold event_summary, get, get_default. cbn [snd fst].
    rewrite Hd. reflexivity.
Qed.

Lemma dept_events_of_department_witness :
  map (fun e => get e "id") (ej_events (dept_events store_amy "cs"))
  = map VStr (fst (gather_events store_amy "cs" None)).
Proof.
  refine (proj1 (proj2 (dept_events_of_department store_amy "cs" _))).
  discriminate.
Defined.

(** After [add_event], [dept_events] lists the new event under the
    department of the form, with the posted name, date, status, image and
    venue: the list of that department is the former list with this one
    entry put in at some place, and the lists of the other departments are
    unchanged. *)
Theorem add_event_then_dept_events (st st1 : store) (f : event_form) :
  add_event st f = Ok st1 ->
  exists status,
    py_int (form_get (f_status f) "1") = Some status /\
    forall dept_id, dept_id <> "" ->
      if String.eqb (f_dept_id f) dept_id then
        exists l1 l2,
          ej_events (dept_events st dept_id) = (l1 ++ l2)%list /\
          ej_events (dept_events st1 dept_id)
          = (l1 ++
             [ ("id", VStr (str_of_int (new_event_id st)));
               ("name", VStr (f_name f));
               ("date", VStr (f_date f));
               ("status", VInt status);
               ("image_url", VStr (f_image_url f));
               ("venue", VStr (f_venue f));
               ("department", VStr dept_id) ] :: l2)%list
      else
        ej_events (dept_events st1 dept_id)
        = ej_events (dept_events st dept_id).
Proof.
  intros (status & Hstatus & ->)%add_event_inv. exists status.
  split; [done|]. intros dept_id Hne. unfold dept_events.
  destruct (String.eqb_spec dept_id ""); [done|]. cbn [ej_events events].
  rewrite where_eq_app, map_app.
  unfold where_eq. cbn [List.filter snd].
  change (assoc "department" (new_event_doc st f status))
    with (Some (VStr (f_dept_id f))).
  cbn [fs_eqb].
  destruct (String.eqb_spec (f_dept_id f) dept_id) as [<-|].
  - eexists _, []. split; [by rewrite app_nil_r|reflexivity].
  - cbn [map]. by rewrite app_nil_r.
Qed.

Lemma add_event_then_dept_events_witness :
  exists st1,
    add_event store_three_events sample_form = Ok st1 /\
    In [ ("id", VStr "11"); ("name", VStr "Quiz");
         ("date", VStr "2025-01-10"); ("status", VInt 1);
         ("image_url", VStr ""); ("venue", VStr "Hall");
         ("department", VStr "cs") ]
       (ej_events (dept_events st1 "cs")).
Proof.
  destruct (add_event store_three_events sample_form) as [st1|] eqn:H1;
    [|discriminate H1].
  exists st1. split; [reflexivity|].
  destruct (add_event_then_dept_events _ _ _ H1) as (status & Hstatus & Hev).
  assert (Hne : "cs" <> "") by discriminate.
  specialize (Hev "cs" Hne). cbn [sample_form f_dept_id String.eqb Ascii.eqb
    Bool.eqb] in Hev.
  destruct Hev as (l1 & l2 & _ & ->).
  injection Hstatus as <-.
  apply in_or_app. right. left. reflexivity.
Defined.

(* ================================================================== *)
(** ** [db_content] and [fix_events] *)

Lemma problematic_loop_app (ids : list string) (c : collection)
  (e : string * dict) (l : list dict) :
  problematic_loop ids c = Ok l ->
  problematic_loop ids (c ++ [e])%list
  = match is_problematic ids (get (snd e) "dept_id") with
    | Ok b => Ok (l ++ if b : bool then [problematic_entry e] else [])%list
    | Raised => Raised
    end.
Proof.
  revert l. induction c as [|e' rest IH]; intros l.
  - intros [= <-]. cbn [app problematic_loop]. unfold_bind.
    by destruct (is_problematic ids (get (snd e) "dept_id")) as [[]|].
  - cbn [app problematic_loop]. unfold_bind.
    destruct (is_problematic ids (get (snd e') "dept_id")) as [b'|]; [|done].
    destruct (problematic_loop ids rest) as [l'|]; [|done].
    intros [= <-]. rewrite (IH l' eq_refl).
    destruct (is_problematic ids (get (snd e) "dept_id")) as [b|]; [|done].
    by destruct b'.
Qed.

(** An event that [add_event] has stored carries its department under
    [department], not under [dept_id]: [db_content] lists it under no
    department (the page is what it was before), and [fix_events] reports it
    as an event without department: its list is the former list with the
    new event put in at some place. *)
Theorem add_event_not_under_dept_id (st st1 : store) (f : event_form) :
  add_event st f = Ok st1 ->
  db_content st1 = db_content st /\
  (forall r, fix_events st None = Ok r ->
     exists l1 l2,
       fr_events r = (l1 ++ l2)%list /\
       fix_events st1 None
       = Ok {| fr_store := st1;
               fr_events :=
                 (l1 ++
                  [ ("id", VStr (str_of_int (new_event_id st)));
                    ("name", VStr (f_name f));
                    ("date", VStr (f_date f));
                    ("dept_id", VNone) ] :: l2)%list;
               fr_message := "" |}).
Proof.
  intros (status & Hstatus & ->)%add_event_inv. split.
  - unfold db_content. cbn [departments events].
    apply List.map_ext. intros dept. f_equal.
    rewrite where_eq_app.
    change (where_eq "dept_id" (VStr (fst dept))
              [(str_of_int (new_event_id st), new_event_doc st f status)])
      with (@nil (string * dict)).
    by rewrite app_nil_r.
  - intros r. unfold fix_events. unfold_bind. cbn [fst snd departments events].
    destruct (problematic_loop (map fst (departments st)) (events st))
      as [l|] eqn:Hl; [|done].
    intros [= <-]. cbn [fr_events]. exists l, [].
    split; [by rewrite app_nil_r|].
    rewrite (problematic_loop_app _ _ _ _ Hl). reflexivity.
Qed.

Lemma add_event_not_under_dept_id_witness :
  exists st1,
    add_event store_three_events sample_form = Ok st1 /\
    db_content st1 = db_content store_three_events.
Proof.
  destruct (add_event store_three_events sample_form) as [st1|] eqn:H1;
    [|discriminate H1].
  exists st1. split; [reflexivity|].
  exact (proj1 (add_event_not_under_dept_id _ _ _ H1)).
Defined.

Lemma is_problematic_spec (ids : list string) (v : value) :
  is_problematic ids v
  = if unhashable v then Raised else Ok (negb (names_department ids v)).
Proof.
  unfold is_problematic, unhashable, names_department.
  destruct v as [|b|n|s|[|]]; cbn [truthy is_dict negb andb]; try done.
  - by destruct b.
  - by destruct (n =? 0).
  - by destruct (String.eqb s "").
Qed.

Lemma problematic_loop_raises (ids : list string) (c : collection) :
  problematic_loop ids c = Raised <->
  Exists (fun e => unhashable (get (snd e) "dept_id") = true) c.
Proof.
  induction c as [|e rest IH]; cbn [problematic_loop].
  - split; [done|]. by intros ?%Exists_nil.
  - unfold_bind. rewrite is_problematic_spec, Exists_cons.
    destruct (unhashable (get (snd e) "dept_id")); [by split; [left|]|].
    destruct (problematic_loop ids rest).
    + split; [done|]. intros [?|H]; [done|]. by apply IH in H.
    + split; [|done]. intros _. right. by apply IH.
Qed.

Lemma problematic_loop_returns (ids : list string) (c : collection)
  (l : list dict) :
  problematic_loop ids c = Ok l ->
  l = map problematic_entry
        (List.filter
           (fun e => negb (names_department ids (get (snd e) "dept_id"))) c).
Proof.
  revert l. induction c as [|e rest IH]; intros l; cbn [problematic_loop].
  - by intros [= <-].
  - unfold_bind. rewrite is_problematic_spec. cbn [List.filter].
    destruct (unhashable (get (snd e) "dept_id")); [done|].
    destruct (problematic_loop ids rest) as [l'|]; [|done].
    intros [= <-]. rewrite (IH l' eq_refl).
    by destruct (negb (names_department ids (get (snd e) "dept_id"))).
Qed.

Lemma problematic_loop_total (ids : list string) (c : collection) :
  Forall (fun e => unhashable (get (snd e) "dept_id") = false) c ->
  exists l, problematic_loop ids c = Ok l.
Proof.
  intros Hall. destruct (problematic_loop ids c) as [l|] eqn:Hl; [by exists l|].
  apply problematic_loop_raises, Exists_exists in Hl as (e & He & Hu).
  rewrite Forall_forall in Hall. specialize (Hall e He). congruence.
Qed.

(** A GET of [fix_events] changes nothing and lists exactly the events whose
    [dept_id] is not the id of a department (missing, empty, not a string, or
    a string that names none), in the order of the stream; it fails exactly
    when some event's [dept_id] is a non-empty map. *)
Theorem fix_events_lists_unassigned (st : store) :
  (fix_events st None = Raised <->
   Exists (fun e => unhashable (get (snd e) "dept_id") = true) (events st)) /\
  (forall r, fix_events st None = Ok r ->
     fr_store r = st /\ fr_message r = "" /\
     fr_events r = map problematic_entry (unassigned st)).
Proof.
  unfold fix_events. unfold_bind. cbn [fst snd]. split.
  - rewrite <- (problematic_loop_raises (map fst (departments st))).
    by destruct (problematic_loop _ _).
  - intros r.
    destruct (problematic_loop _ _) as [l|] eqn:Hl; [|done].
    intros [= <-]. cbn [fr_store fr_message fr_events].
    split_and!; [done..|]. by apply problematic_loop_returns.
Qed.

Lemma fix_events_lists_unassigned_witness :
  exists r,
    fix_events store_dept_id None = Ok r /\
    fr_events r
    = [ [ ("id", VStr "2"); ("name", VStr "Race"); ("date", VNone);
          ("dept_id", VNone) ];
        [ ("id", VStr "3"); ("name", VStr "Jam"); ("date", VNone);
          ("dept_id", VStr "gone") ] ].
Proof.
  destruct (fix_events store_dept_id None) as [r|] eqn:Hr; [|discriminate Hr].
  exists r. split; [reflexivity|].
  exact (proj2 (proj2 (proj2 (fix_events_lists_unassigned store_dept_id)
                         r Hr))).
Defined.

Lemma unique_ids_In (c : collection) (id : string) (d1 d2 : dict) :
  unique_ids c -> In (id, d1) c -> In (id, d2) c -> d1 = d2.
Proof.
  unfold unique_ids. induction c as [|[id' d'] rest IH]; [done|].
  cbn [map fst]. intros [Hnotin Hnd]%NoDup_cons_iff [H1|H1] [H2|H2].
  - congruence.
  - injection H1 as -> ->. destruct Hnotin.
    by apply (in_map fst _ _ H2).
  - injection H2 as -> ->. destruct Hnotin.
    by apply (in_map fst _ _ H1).
  - by apply IH.
Qed.

Lemma document_update_unique (c : collection) (id k : string) (v : value) :
  unique_ids c ->
  document_update c id k v
  = map (fun e => if String.eqb (fst e) id
                  then (fst e, assoc_set k v (snd e)) else e) c.
Proof.
  unfold unique_ids. induction c as [|[id' d'] rest IH]; [done|].
  cbn [map fst snd document_update]. intros [Hnotin Hnd]%NoDup_cons_iff.
  rewrite (String.eqb_sym id' id).
  destruct (String.eqb_spec id id') as [->|Hne].
  - f_equal. symmetry. etransitivity; [|apply map_id].
    apply map_ext_in. intros [id'' d''] Hin. cbn [fst snd].
    destruct (String.eqb_spec id'' id') as [->|]; [|done].
    destruct Hnotin. by apply (in_map fst _ _ Hin).
  - f_equal. by apply IH.
Qed.

(** A POST of [fix_events] for an event that does not exist fails. For an
    existing event it stores the posted department under [dept_id] of that
    event and nothing else; if the posted id is the id of a department, the
    event leaves the list of events without department and the others stay
    listed as before, and [db_content] lists it under that department. *)
Theorem fix_events_post_assigns (st : store) (event_id dept_id : string) :
  event_id <> "" -> dept_id <> "" ->
  (document_get (events st) event_id = None ->
   fix_events st (fix_post event_id dept_id) = Raised) /\
  (forall ev,
     document_get (events st) event_id = Some ev ->
     unique_ids (events st) ->
     Forall (fun e => fst e <> event_id ->
                      unhashable (get (snd e) "dept_id") = false)
            (events st) ->
     exists r,
       fix_events st (fix_post event_id dept_id) = Ok r /\
       fr_message r = "Updated event department." /\
       fr_store r
       = {| departments := departments st;
            events := document_update (events st) event_id "dept_id"
                        (VStr dept_id);
            participants := participants st;
            registrations := registrations st;
            users := users st |} /\
       document_get (events (fr_store r)) event_id
       = Some (assoc_set "dept_id" (VStr dept_id) ev) /\
       (is_Some (document_get (departments st) dept_id) ->
        fr_events r
        = map problematic_entry
            (List.filter (fun e => negb (String.eqb (fst e) event_id))
               (unassigned st)) /\
        exists dc,
          In dc (db_content (fr_store r)) /\ dc_dept_id dc = dept_id /\
          In (assoc_set "_id" (VStr event_id)
                (assoc_set "dept_id" (VStr dept_id) ev))
             (dc_events dc))).
Proof.
  intros Heid Hdid.
  assert (Hpost : arg_truthy (Some event_id) && arg_truthy (Some dept_id)
                  = true).
  { cbn [arg_truthy]. destruct (String.eqb_spec event_id ""); [done|].
    by destruct (String.eqb_spec dept_id ""). }
  unfold fix_events, fix_post. cbn [fx_event_id fx_dept_id form_get].
  rewrite Hpost. unfold document_update_checked. split.
  - by intros ->.
  - intros ev Hev Huniq Hall. rewrite Hev. unfold_bind.
    cbn [fst snd events departments].
    set (evs := document_update (events st) event_id "dept_id" (VStr dept_id)).
    set (ids := map fst (departments st)).
    assert (Hevs : evs = map (fun e => if String.eqb (fst e) event_id
                                       then (fst e, assoc_set "dept_id"
                                                      (VStr dept_id) (snd e))
                                       else e) (events st))
      by by apply document_update_unique.
    assert (Hget : document_get evs event_id
                   = Some (assoc_set "dept_id" (VStr dept_id) ev)).
    { unfold evs. by rewrite document_update_get, Hev. }
    destruct (problematic_loop_total ids evs) as [l Hl].
    { rewrite Hevs. apply List.Forall_map.
      eapply List.Forall_impl; [|exact Hall].
      intros [id d] Hd. cbn [fst snd] in *.
      destruct (String.eqb_spec id event_id) as [->|Hne]; [|by apply Hd].
      cbn [snd]. unfold get. rewrite get_assoc_set_eq.
      unfold unhashable. cbn [is_dict]. apply andb_false_r. }
    rewrite Hl. eexists. split; [reflexivity|].
    cbn [fr_store fr_message fr_events events departments].
    split_and!; [done..|]. fold evs.
    intros [dd Hdd]. split.
    + rewrite (problematic_loop_returns _ _ _ Hl). f_equal.
      unfold unassigned. fold ids. rewrite Hevs.
      assert (Hin : existsb (String.eqb dept_id) ids = true).
      { apply existsb_exists. exists dept_id. split; [|apply String.eqb_refl].
        apply (in_map fst _ _ (assoc_In _ _ _ Hdd)). }
      clear -Hin Hdid. induction (events st) as [|[id d] rest IH]; [done|].
      cbn [map List.filter fst snd]. rewrite IH.
      destruct (String.eqb_spec id event_id) as [->|Hne]; cbn [negb snd].
      * unfold get at 1. rewrite get_assoc_set_eq.
        cbn [names_department]. rewrite Hin.
        destruct (String.eqb_spec dept_id ""); [done|]. cbn [negb andb].
        destruct (negb (names_department ids (get d "dept_id"))); [|done].
        cbn [List.filter fst]. by rewrite String.eqb_refl.
      * destruct (negb (names_department ids (get d "dept_id"))); [|done].
        cbn [List.filter fst]. by destruct (String.eqb_spec id event_id).
    + eexists. split.
      * unfold db_content. cbn [departments events].
        apply (in_map _ _ _ (assoc_In _ _ _ Hdd)).
      * cbn [dc_dept_id dc_events fst]. split; [done|].
        apply (in_map with_id _
                 (event_id, assoc_set "dept_id" (VStr dept_id) ev)).
        apply List.filter_In. split; [by apply assoc_In|].
        cbn [snd]. rewrite assoc_set_eq. cbn [fs_eqb].
        apply String.eqb_refl.
Qed.

Lemma fix_events_post_assigns_witness :
  exists r,
    fix_events store_dept_id (fix_post "2" "ec") = Ok r /\
    fr_events r
    = [ [ ("id", VStr "3"); ("name", VStr "Jam"); ("date", VNone);
          ("dept_id", VStr "gone") ] ].
Proof.
  assert (H1 : "2" <> "") by discriminate.
  assert (H2 : "ec" <> "") by discriminate.
  destruct (proj2 (fix_events_post_assigns store_dept_id "2" "ec" H1 H2)
              [("name", VStr "Race"); ("department", VStr "ec")] eq_refl)
    as (r & Hr & _ & _ & _ & Hlist).
  - unfold unique_ids. cbn [store_dept_id events map fst].
    repeat (apply List.NoDup_cons; [cbn [In]; intuition discriminate|]).
    apply List.NoDup_nil.
  - cbn [store_dept_id events].
    repeat first [ apply List.Forall_cons; [intros _; reflexivity|]
                 | apply List.Forall_nil ].
  - exists r. split; [exact Hr|].
    destruct Hlist as [Hlist _]; [by eexists|]. exact Hlist.
Defined.

Lemma get_str_assoc (d : dict) (k s : string) :
  get d k = VStr s <-> assoc k d = Some (VStr s).
Proof.
  unfold get, get_default. destruct (assoc k d); split; congruence.
Qed.

Lemma names_department_inv (ids : list string) (v : value) :
  names_department ids v = true <-> exists s, v = VStr s /\ s <> "" /\ In s ids.
Proof.
  unfold names_department. split.
  - destruct v as [|b|n|s|d]; try discriminate.
    intros [Hne Hin]%andb_prop. exists s. split_and!; [done| |].
    + intros ->. discriminate Hne.
    + apply existsb_exists in Hin as (s' & Hin & ->%String.eqb_eq). done.
  - intros (s & -> & Hne & Hin).
    destruct (String.eqb_spec s ""); [done|]. cbn [negb andb].
    apply existsb_exists. exists s. split; [done|apply String.eqb_refl].
Qed.

(** [db_content] has one entry per department, in the order of the stream.
    The events listed under a department are documents of [events] whose
    [dept_id] is the id of that department, each with its own id under
    [_id]. Together with [fix_events] the page splits the events: an event is
    listed under some department exactly when it is not among the events
    without department. *)
Theorem db_content_lists_assigned (st : store) :
  ~ In "" (map fst (departments st)) ->
  map dc_dept_id (db_content st) = map fst (departments st) /\
  (forall dc ev, In dc (db_content st) -> In ev (dc_events dc) ->
     get ev "dept_id" = VStr (dc_dept_id dc) /\
     exists e, In e (events st) /\ ev = with_id e /\
               get ev "_id" = VStr (fst e)) /\
  (forall e, In e (events st) ->
     (exists dc, In dc (db_content st) /\ In (with_id e) (dc_events dc)) <->
     ~ In e (unassigned st)).
Proof.
  intros Hids.
  assert (Hlisted : forall dc ev,
            In dc (db_content st) -> In ev (dc_events dc) ->
            In (dc_dept_id dc) (map fst (departments st)) /\
            exists e, In e (events st) /\ ev = with_id e /\
                      assoc "dept_id" (snd e) = Some (VStr (dc_dept_id dc))).
  { intros dc ev (dept & <- & Hdept)%in_map_iff.
    cbn [dc_events dc_dept_id].
    intros (e & <- & He)%in_map_iff. split; [by apply in_map|].
    exists e. apply List.filter_In in He as [He Hd]. split_and!; [done..|].
    destruct e as [id ed]. cbn [snd fst] in *.
    destruct (assoc "dept_id" ed) as [x|]; [|done].
    by rewrite (fs_eqb_str _ _ Hd). }
  split_and!.
  - unfold db_content. rewrite map_map. reflexivity.
  - intros dc ev Hdc Hev.
    destruct (Hlisted dc ev Hdc Hev) as (_ & e & He & -> & Hd).
    split; [|exists e; split_and!; [done..|]].
    + unfold with_id, get. rewrite get_assoc_set_ne by discriminate.
      by apply get_str_assoc.
    + unfold with_id, get. by rewrite get_assoc_set_eq.
  - intros e He. unfold unassigned. rewrite List.filter_In. split.
    + intros (dc & Hdc & Hev) [_ Hun].
      destruct (Hlisted dc _ Hdc Hev) as (Hin & e' & He' & Heq & Hd).
      apply (f_equal (fun d => get d "dept_id")) in Heq.
      unfold with_id, get in Heq.
      rewrite !get_assoc_set_ne in Heq by discriminate.
      fold (get (snd e) "dept_id") in Heq. rewrite Heq in Hun.
      apply get_str_assoc in Hd. unfold get in Hd. rewrite Hd in Hun.
      apply negb_true_iff, not_true_iff_false in Hun. apply Hun.
      apply names_department_inv. eexists. split_and!; [done| |done].
      by intros Heq'; rewrite Heq' in Hin.
    + intros Hun.
      destruct (names_department (map fst (departments st))
                  (get (snd e) "dept_id")) eqn:Hn;
        [|destruct Hun; by split].
      apply names_department_inv in Hn as (s & Hs & _ & Hin).
      apply in_map_iff in Hin as (dept & <- & Hdept).
      eexists. split; [unfold db_content; apply (in_map _ _ _ Hdept)|].
      cbn [dc_events]. apply in_map. apply List.filter_In. split; [done|].
      destruct e as [id ed]. cbn [snd fst] in *.
      apply get_str_assoc in Hs. rewrite Hs. cbn [fs_eqb].
      apply String.eqb_refl.
Qed.

Lemma db_content_lists_assigned_witness :
  map dc_dept_id (db_content store_dept_id) = ["cs"; "ec"] /\
  Forall (fun dc =>
            Forall (fun ev => get ev "dept_id" = VStr (dc_dept_id dc))
                   (dc_events dc))
         (db_content store_dept_id).
Proof.
  assert (H : ~ In "" (map fst (departments store_dept_id))).
  { cbn [store_dept_id departments map fst In]. intuition discriminate. }
  destruct (db_content_lists_assigned store_dept_id H) as (H1 & H2 & _).
  split; [exact H1|].
  apply Forall_forall. intros dc Hdc. apply Forall_forall. intros ev Hev.
  exact (proj1 (H2 dc ev Hdc Hev)).
Defined.

(* ================================================================== *)
(** ** What the listing and the export select *)

Lemma map_snd_filter {A B : Type} (f : B -> bool) (l : list (A * B)) :
  map snd (List.filter (fun x => f (snd x)) l) = List.filter f (map snd l).
Proof.
  induction l as [|[a b] l IH]; [done|]. cbn [List.filter map snd].
  destruct (f b); cbn [map snd]; by rewrite IH.
Qed.

Lemma filter_filter {A : Type} (f g : A -> bool) (l : list A) :
  List.filter g (List.filter f l) = List.filter (fun x => f x && g x) l.
Proof.
  induction l as [|x l IH]; [done|]. cbn [List.filter].
  destruct (f x); cbn [List.filter andb]; [|done].
  by destruct (g x); rewrite IH.
Qed.

Lemma where_eq_field_is (k : string) (v : value) (q : collection) :
  (if truthy v then where_eq k v q else q)
  = List.filter (fun doc => field_is k v (snd doc)) q.
Proof.
  unfold field_is, where_eq. destruct (truthy v); cbn [negb orb]; [done|].
  induction q as [|x q IH]; [done|]. cbn [List.filter]. by rewrite <- IH.
Qed.

Lemma view_filter_field_is (k : string) (v : value) (p : dict) :
  str_or_none v = true ->
  negb (truthy v && negb (py_eqb (py_or (get p k) (VStr "")) v))
  = field_is k v p.
Proof.
  unfold field_is, py_or, get, get_default.
  destruct v as [|b|n|s|d]; try done. intros _. cbn [truthy].
  destruct (String.eqb_spec s "") as [->|Hs]; [done|]. cbn [negb andb orb].
  rewrite negb_involutive.
  destruct (assoc k p) as [[|b|n|t|d]|]; cbn [truthy];
    try destruct b; try destruct (n =? 0);
    try destruct (String.eqb_spec t "") as [->|]; try destruct d;
    cbn [negb py_eqb fs_eqb as_int]; try done;
    by (destruct s; [destruct Hs|]).
Qed.

(** With a department name that is a string (or none selected), the listing
    and the export take their rows from the participants whose [department]
    is that name and whose [event] is the selected event value, in stream
    order. For the listing the event value is the [event_id] of the request
    itself; for the export it is the name of the event with that id. So both
    select the same participants when no event is requested or no event with
    that id exists. *)
Theorem listing_and_export_select (st : store) (args : request_args) :
  let dept := selected_dept_name st (arg_dept_id args) in
  str_or_none dept = true ->
  view_rows st args
  = map view_row (selected st dept (arg_value (arg_event_id args))) /\
  export_rows st args
  = map export_row
      (selected st dept (selected_event_name st (arg_event_id args))) /\
  (arg_truthy (arg_event_id args) = false \/
   document_get (events st) (form_get (arg_event_id args) "") = None ->
   selected st dept (selected_event_name st (arg_event_id args))
   = selected st dept (arg_value (arg_event_id args))).
Proof.
  intros dept Hdept. split_and!.
  - unfold view_rows, selected. fold dept. f_equal.
    apply List.filter_ext. intros p. cbn beta zeta.
    rewrite (view_filter_field_is "department" dept p Hdept).
    rewrite (view_filter_field_is "event"); [done|].
    by destruct (arg_event_id args).
  - unfold export_rows, selected. fold dept. cbn zeta.
    rewrite !where_eq_field_is, filter_filter.
    rewrite <- (map_snd_filter
                  (fun p => field_is "department" dept p
                            && field_is "event"
                                 (selected_event_name st (arg_event_id args)) p)).
    by rewrite map_map.
  - unfold selected, selected_event_name. intros [Hev|Hev].
    + rewrite Hev. apply List.filter_ext. intros p. f_equal.
      unfold field_is. destruct (arg_event_id args) as [s|]; [|done].
      cbn [arg_truthy] in Hev. cbn [arg_value truthy]. by rewrite Hev.
    + rewrite Hev. destruct (arg_truthy (arg_event_id args)) eqn:Ht; [done|].
      apply List.filter_ext. intros p. f_equal.
      unfold field_is. destruct (arg_event_id args) as [s|]; [|done].
      cbn [arg_truthy] in Ht. cbn [arg_value truthy]. by rewrite Ht.
Qed.

Lemma listing_and_export_select_witness :
  view_rows store_arts arts_args
  = map view_row
      [ [("name", VStr "Cy"); ("department", VStr "Arts");
         ("event", VStr "Zumba")];
        [("name", VStr "Bob"); ("department", VStr "Arts");
         ("event", VStr "Acting")];
        [("name", VStr "Amy"); ("department", VStr "Arts");
         ("event", VStr "Zumba")] ].
Proof.
  exact (proj1 (listing_and_export_select store_arts arts_args eq_refl)).
Defined.

(* ================================================================== *)
(** ** The order of the listing and of the export *)

Lemma view_row_str_keys (p : dict) :
  is_str (get p "name") = true ->
  str_or_missing p "department" = true ->
  str_or_missing p "event" = true ->
  str_keys (view_row p).
Proof.
  unfold str_keys, str_or_missing, get, get_default, py_or.
  intros Hn Hd He.
  change (is_str (if truthy (match assoc "department" p with
                             | Some v => v | None => VNone end)
                  then match assoc "department" p with
                       | Some v => v | None => VNone end
                  else VStr "")
          && (is_str (if truthy (match assoc "event" p with
                                 | Some v => v | None => VNone end)
                      then match assoc "event" p with
                           | Some v => v | None => VNone end
                      else VStr "")
              && (is_str (match assoc "name" p with
                          | Some v => v | None => VNone end) && true))
          = true).
  rewrite Hn.
  destruct (assoc "department" p) as [[| | |s|]|]; try done;
    destruct (assoc "event" p) as [[| | |t|]|]; try done; cbn [truthy];
    try destruct (String.eqb s ""); try destruct (String.eqb t ""); done.
Qed.

(** On a store whose departments are named and whose participants have
    string names, departments and events, the listing returns: it is its
    rows in ascending order of the sort key, which is (dept_name, event_name,
    name) when an event is requested and (dept_name, name) otherwise, and
    rows with equal keys keep the order of the stream. *)
Theorem view_participants_sorted_stable (st : store) (args : request_args) :
  departments_named st ->
  participants_typed st ->
  exists out,
    view_participants st args = Ok out /\
    Permutation (view_rows st args) out /\
    StronglySorted
      (fun r1 r2 => lex_le (map str_of (view_key args r1))
                           (map str_of (view_key args r2))) out /\
    (forall k,
       List.filter (fun r => bool_decide (map str_of (view_key args r) = k)) out
       = List.filter (fun r => bool_decide (map str_of (view_key args r) = k))
           (view_rows st args)).
Proof.
  intros Hnamed Htyped.
  assert (Hkeys : Forall str_keys (view_rows st args)).
  { unfold view_rows. apply Forall_map_iff, filter_Forall, Forall_map_iff.
    eapply List.Forall_impl; [|exact Htyped].
    intros [id p] (Hn & Hd & He). by apply view_row_str_keys. }
  unfold view_participants, view_key.
  destruct (dept_list_ok _ Hnamed) as [l ->]. unfold_bind.
  destruct (arg_truthy (arg_event_id args)).
  - destruct (py_sorted_ok key_dept_event_name (view_rows st args) Hkeys)
      as (out & -> & Hperm & Hsorted & Hstable).
    by exists out.
  - destruct (py_sorted_ok key_dept_name (view_rows st args))
      as (out & -> & Hperm & Hsorted & Hstable).
    { eapply List.Forall_impl; [|exact Hkeys]. apply str_keys_dept_name. }
    by exists out.
Qed.

Lemma view_participants_sorted_stable_witness :
  exists out,
    view_participants store_arts arts_args = Ok out /\
    map (fun r => get r "name") out = [VStr "Amy"; VStr "Bob"; VStr "Cy"].
Proof.
  destruct (view_participants_sorted_stable store_arts arts_args)
    as (out & Hout & _).
  - unfold departments_named. cbn [store_arts departments].
    repeat first [ apply List.Forall_cons; [by eexists|]
                 | apply List.Forall_nil ].
  - unfold participants_typed. cbn [store_arts participants].
    repeat first [ apply List.Forall_cons; [by split_and!|]
                 | apply List.Forall_nil ].
  - exists out. split; [exact Hout|].
    assert (Hrun : view_participants store_arts arts_args
                   = Ok (map view_row
                           [ [("name", VStr "Amy"); ("department", VStr "Arts");
                              ("event", VStr "Zumba")];
                             [("name", VStr "Bob"); ("department", VStr "Arts");
                              ("event", VStr "Acting")];
                             [("name", VStr "Cy"); ("department", VStr "Arts");
                              ("event", VStr "Zumba")] ]))
      by reflexivity.
    rewrite Hrun in Hout. injection Hout as <-. reflexivity.
Defined.

(** On a store whose names are strings the export answers for every
    request. For [xlsx] and [pdf] with the library present it sends a file
    whose table is the header line followed by one line per selected
    participant, in ascending order of (dept_name, event_name, name), rows
    with equal keys in stream order; both formats carry the same table. With
    the library missing the answer is a 500 response and no file. *)
Theorem export_typed_store_answers (env : environment) (st : store)
  (args : request_args) :
  store_typed st ->
  let fmt := str_lower (form_get (arg_format args) "xlsx") in
  exists rows part_dept part_event,
    Permutation (export_rows st args) rows /\
    StronglySorted le_dept_event_name rows /\
    (forall k,
       List.filter
         (fun r => bool_decide (map str_of (key_dept_event_name r) = k)) rows
       = List.filter
           (fun r => bool_decide (map str_of (key_dept_event_name r) = k))
           (export_rows st args)) /\
    (fmt = "xlsx" -> has_pandas env = true ->
     export_participants env st args
     = Ok (SendFile (("tantra_" ++ part_dept ++ "_" ++ part_event) ++ ".xlsx")
             xlsx_mimetype (map VStr headers :: map row_cells rows))) /\
    (fmt = "pdf" -> has_reportlab env = true ->
     export_participants env st args
     = Ok (SendFile (("tantra_" ++ part_dept ++ "_" ++ part_event) ++ ".pdf")
             "application/pdf" (map VStr headers :: map row_cells rows))) /\
    (fmt = "xlsx" -> has_pandas env = false ->
     exists body, export_participants env st args = Ok (Response body 500)) /\
    (fmt = "pdf" -> has_reportlab env = false ->
     exists body, export_participants env st args = Ok (Response body 500)).
Proof.
  intros Htyped fmt. unfold export_participants. fold fmt. clearbody fmt.
  destruct (py_sorted_ok key_dept_event_name (export_rows st args))
    as (rows & -> & Hperm & Hsorted & Hstable);
    [by apply export_rows_str_keys|].
  unfold_bind.
  destruct (sanitize_str_or_none _ "all_departments"
              (selected_dept_name_typed st (arg_dept_id args) Htyped))
    as [pd ->].
  destruct (sanitize_str_or_none _ "all_events"
              (selected_event_name_typed st (arg_event_id args) Htyped))
    as [pe ->].
  cbn beta iota.
  assert (Hkeys : Forall (fun r => map fst r = headers) rows).
  { eapply Permutation_Forall; [exact Hperm|]. apply export_rows_keys. }
  exists rows, pd, pe. split_and!; [done..| | | |].
  - intros -> ->. cbn [String.eqb Ascii.eqb Bool.eqb].
    by rewrite (to_excel_canonical _ Hkeys).
  - intros -> ->. cbn [String.eqb Ascii.eqb Bool.eqb].
    by rewrite (pdf_data_canonical _ Hkeys).
  - intros -> ->. cbn [String.eqb Ascii.eqb Bool.eqb]. by eexists.
  - intros -> ->. cbn [String.eqb Ascii.eqb Bool.eqb]. by eexists.
Qed.

Lemma export_typed_store_answers_witness :
  exists name table,
    export_participants env_full store_arts arts_args
    = Ok (SendFile name xlsx_mimetype table) /\
    map (fun line => nth 0 line VNone) table
    = [VStr "name"; VStr "Bob"; VStr "Amy"; VStr "Cy"].
Proof.
  assert (Htyped : store_typed store_arts).
  { unfold store_typed. cbn [store_arts participants departments events].
    repeat constructor. }
  destruct (export_typed_store_answers env_full store_arts arts_args Htyped)
    as (rows & pd & pe & _ & _ & _ & Hxlsx & _).
  specialize (Hxlsx eq_refl eq_refl).
  eexists _, _. split; [exact Hxlsx|].
  assert (Hrun : export_participants env_full store_arts arts_args
                 = Ok (SendFile "tantra_arts_all_events.xlsx" xlsx_mimetype
                         (map VStr headers
                          :: map row_cells
                               (map export_row
                                  [ [("name", VStr "Bob");
                                     ("department", VStr "Arts");
                                     ("event", VStr "Acting")];
                                    [("name", VStr "Amy");
                                     ("department", VStr "Arts");
                                     ("event", VStr "Zumba")];
                                    [("name", VStr "Cy");
                                     ("department", VStr "Arts");
                                     ("event", VStr "Zumba")] ]))))
    by reflexivity.
  rewrite Hrun in Hxlsx.
  apply (f_equal file_table) in Hxlsx.
  cbv beta iota delta [file_table] in Hxlsx. rewrite <- Hxlsx. reflexivity.
Defined.

Lemma lower_char_idem (c : ascii) : lower_char (lower_char c) = lower_char c.
Proof. destruct c as [[] [] [] [] [] [] [] []]; reflexivity. Qed.

Lemma str_lower_idem (s : string) : str_lower (str_lower s) = str_lower s.
Proof.
  induction s as [|c s IH]; [done|]. cbn [str_lower].
  by rewrite lower_char_idem, IH.
Qed.

(** The export reads [format] without regard to case, and a request without
    [format] is a request for [xlsx]. *)
Theorem export_format_case_insensitive (env : environment) (st : store)
  (dept_id event_id : option string) (format : string) :
  export_participants env st
    {| arg_dept_id := dept_id; arg_event_id := event_id;
       arg_format := Some (str_lower format) |}
  = export_participants env st
      {| arg_dept_id := dept_id; arg_event_id := event_id;
         arg_format := Some format |} /\
  export_participants env st
    {| arg_dept_id := dept_id; arg_event_id := event_id; arg_format := None |}
  = export_participants env st
      {| arg_dept_id := dept_id; arg_event_id := event_id;
         arg_format := Some "XLSX" |}.
Proof.
  unfold export_participants, export_rows.
  cbn [arg_format arg_dept_id arg_event_id form_get].
  by rewrite str_lower_idem.
Qed.

(* ================================================================== *)
(** ** [_sanitize], applied again *)

Lemma lower_char_file (c : ascii) : is_file_char c = true -> lower_char c = c.
Proof. destruct c as [[] [] [] [] [] [] [] []]; by intros H. Qed.

Lemma str_lower_file (s : string) :
  all_chars is_file_char s = true -> str_lower s = s.
Proof.
  induction s as [|c s IH]; [done|]. cbn [all_chars str_lower].
  intros [Hc Hs]%andb_prop. by rewrite (lower_char_file c Hc), IH.
Qed.

Lemma underscore_char (c : ascii) : is_underscore c = true -> c = "_"%char.
Proof. destruct c as [[] [] [] [] [] [] [] []]; by intros H. Qed.

Lemma sub_runs_file (in_run : bool) (s : string) :
  all_chars is_file_char s = true ->
  has_adjacent is_underscore s = false ->
  (in_run = true -> starts_with is_underscore s = false) ->
  sub_runs in_run s = s.
Proof.
  revert in_run. induction s as [|c s IH]; intros in_run; [done|].
  cbn [all_chars has_adjacent starts_with sub_runs].
  intros [Hc Hs]%andb_prop [Hadj Hrest]%orb_false_elim Hrun.
  destruct (is_lower_alnum c) eqn:Hl.
  - rewrite IH; done.
  - unfold is_file_char in Hc. rewrite Hl in Hc. cbn [orb] in Hc.
    destruct in_run; [by rewrite Hrun in Hc|].
    rewrite Hc in Hadj. cbn [andb] in Hadj.
    rewrite (IH true Hs Hrest (fun _ => Hadj)).
    by rewrite (underscore_char c Hc).
Qed.

Lemma lstrip_fix (p : ascii -> bool) (s : string) :
  starts_with p s = false -> lstrip p s = s.
Proof. destruct s as [|c s]; [done|]. cbn [starts_with lstrip]. by intros ->. Qed.

Lemma rstrip_fix (p : ascii -> bool) (s : string) :
  ends_with p s = false -> rstrip p s = s.
Proof.
  induction s as [|c s IH]; [done|]. cbn [ends_with rstrip].
  destruct s as [|c' s'].
  - cbn [rstrip]. by intros ->.
  - intros H. by rewrite (IH H).
Qed.

(** [_sanitize] is idempotent: what it returns it returns unchanged when
    applied again, the fallback [value] included. *)
Theorem sanitize_idempotent (v : value) (r : string) :
  _sanitize v = Ok r -> _sanitize (VStr r) = Ok r.
Proof.
  unfold _sanitize at 1. destruct (truthy v) eqn:Hv; cbn [negb].
  - destruct v as [| | |s|]; try done.
    destruct (sanitize_core s) as (Hchars & Hstart & Hend & Hadj & _).
    cbn zeta in *.
    set (core := strip is_underscore (sub_runs false (str_lower s))) in *.
    destruct (String.eqb_spec core "") as [|Hcore]; intros [= <-];
      [reflexivity|].
    unfold _sanitize. cbn [truthy].
    destruct (String.eqb_spec core ""); [done|]. cbn [negb].
    rewrite (str_lower_file core Hchars).
    rewrite (sub_runs_file false core Hchars Hadj) by done.
    unfold strip. rewrite (lstrip_fix _ _ Hstart), (rstrip_fix _ _ Hend).
    by destruct (String.eqb_spec core "").
  - by intros [= <-].
Qed.

Lemma sanitize_idempotent_witness :
  _sanitize (VStr "computer_science_engg") = Ok "computer_science_engg".
Proof.
  exact (sanitize_idempotent (VStr "Computer Science & Engg.")
           "computer_science_engg" eq_refl).
Defined.

(* ================================================================== *)
(** ** Where a resolved participant comes from *)

Lemma first_with_email_In (email : value) (c : collection) (p : dict) :
  first_with_email email c = Some p ->
  In p (map snd c) /\
  exists x, assoc "email" p = Some x /\ fs_eqb x email = true.
Proof.
  induction c as [|[id d] rest IH]; [done|].
  cbn [first_with_email map snd In].
  destruct (assoc "email" d) as [x|] eqn:Hx.
  - destruct (fs_eqb x email) eqn:Hf.
    + intros [= <-]. split; [by left|]. by exists x.
    + intros H. destruct (IH H) as [Hin Hex]. split; [by right|done].
  - intros H. destruct (IH H) as [Hin Hex]. split; [by right|done].
Qed.

(** The resolver makes nothing up: a participant it returns is the embedded
    [participant] object of the registration, or the document stored under
    the registration's id in [participants] (in [users] only when
    [participants] has none), or a document of [participants] or [users]
    whose [email] equals the e-mail of the registration. *)
Theorem resolved_participant_is_stored (st : store) (reg_data p : dict) :
  _resolve_participant_from_registration st reg_data = Ok (Some p) ->
  reg_inline reg_data = VDict p \/
  (exists id,
     reg_pid reg_data = VStr id /\ id <> "" /\
     (document_get (participants st) id = Some p \/
      document_get (participants st) id = None /\
      document_get (users st) id = Some p)) \/
  (truthy (reg_email reg_data) = true /\
   (exists x, assoc "email" p = Some x /\
              fs_eqb x (reg_email reg_data) = true) /\
   (In p (map snd (participants st)) \/ In p (map snd (users st)))).
Proof.
  rewrite resolve_unfold.
  generalize (reg_inline reg_data) (reg_pid reg_data) (reg_email reg_data).
  intros inline pid email.
  assert (Hrest :
    (if truthy email
     then Ok (match first_with_email email (participants st) with
              | Some p0 => Some p0
              | None => first_with_email email (users st)
              end)
     else Ok None) = Ok (Some p) ->
    truthy email = true /\
    (exists x, assoc "email" p = Some x /\ fs_eqb x email = true) /\
    (In p (map snd (participants st)) \/ In p (map snd (users st)))).
  { destruct (truthy email); [|done].
    destruct (first_with_email email (participants st)) as [q|] eqn:Hq.
    - intros [= ->]. apply first_with_email_In in Hq as [Hin Hx].
      split_and!; [done..|by left].
    - intros [= Hu]. apply first_with_email_In in Hu as [Hin Hx].
      split_and!; [done..|by right]. }
  destruct (if truthy inline then as_dict inline else None) as [q|] eqn:Hin.
  - intros [= ->]. left. destruct (truthy inline); [|done].
    destruct inline; try done. cbn [as_dict] in Hin. congruence.
  - unfold_bind. destruct (truthy pid) eqn:Hpid.
    + destruct pid as [| | |id|]; cbn [document_get_value]; try done.
      assert (Hid : id <> "").
      { intros ->. cbn [truthy] in Hpid. discriminate Hpid. }
      destruct (document_get (participants st) id) as [q|] eqn:Hq.
      * intros [= ->]. right. left. exists id. split_and!; [done..|by left].
      * destruct (document_get (users st) id) as [q|] eqn:Hu.
        -- intros [= ->]. right. left. exists id.
           split_and!; [done..|by right].
        -- intros H. right. right. by apply Hrest.
    + intros H. right. right. by apply Hrest.
Qed.

Lemma resolved_participant_is_stored_witness :
  document_get (participants store_amy) "p1" = Some amy.
Proof.
  destruct (resolved_participant_is_stored store_amy
              [("event_id", VStr "1"); ("participant_id", VStr "p1")] amy
              eq_refl)
    as [Hinline|[(id & Hid & _ & [Hp|[Hp _]])|(Hemail & _)]].
  - discriminate Hinline.
  - injection Hid as <-. exact Hp.
  - injection Hid as <-. discriminate Hp.
  - discriminate Hemail.
Defined.

(* ================================================================== *)
(** ** The rows of [_gather_participants] *)

Lemma event_map_fold_notin (evs : collection) (acc : list (string * dict))
  (id : string) :
  ~ In id (map fst evs) ->
  assoc id (fold_left (fun m e => assoc_set (fst e) (snd e) m) evs acc)
  = assoc id acc.
Proof.
  revert acc. induction evs as [|[id' ev'] rest IH]; intros acc; [done|].
  cbn [map fst fold_left snd In]. intros Hnotin.
  rewrite IH by (intros ?; apply Hnotin; by right).
  apply assoc_set_ne. intros ->. apply Hnotin. by left.
Qed.

Lemma event_map_fold (evs : collection) (acc : list (string * dict))
  (id : string) :
  In id (map fst evs) ->
  exists ev, assoc id (fold_left (fun m e => assoc_set (fst e) (snd e) m)
                         evs acc) = Some ev /\
             In (id, ev) evs.
Proof.
  revert acc. induction evs as [|[id' ev'] rest IH]; intros acc; [done|].
  cbn [map fst fold_left snd]. intros Hin.
  destruct (in_dec String.string_dec id (map fst rest)) as [Hrest|Hrest].
  - destruct (IH (assoc_set id' ev' acc) Hrest) as (ev & Hev & Hin').
    exists ev. split; [done|by right].
  - destruct Hin as [->|Hin]; [|done].
    exists ev'. split; [|by left].
    rewrite event_map_fold_notin by done. apply assoc_set_eq.
Qed.

Lemma gather_row_fields (em : list (string * dict)) (rd p : dict) :
  get (gather_row em rd p) "event_id" = get rd "event_id" /\
  get (gather_row em rd p) "event_name"
  = get (event_map_get em (get rd "event_id")) "name" /\
  get (gather_row em rd p) "dept_name"
  = py_or (py_or (get (event_map_get em (get rd "event_id")) "department")
                 (get (event_map_get em (get rd "event_id")) "dept_id"))
          (VStr "").
Proof. by split_and!. Qed.

Lemma gather_events_spec (st : store) (dept_id : string)
  (event_id : option string) (id : string) :
  In id (fst (gather_events st dept_id event_id)) ->
  exists ev,
    assoc id (snd (gather_events st dept_id event_id)) = Some ev /\
    In (id, ev) (events st) /\
    if arg_truthy event_id then event_id = Some id
    else assoc "department" ev = Some (VStr dept_id).
Proof.
  unfold gather_events. destruct (arg_truthy event_id) eqn:Ht.
  - destruct event_id as [x|]; [|done]. cbn [form_get].
    destruct (document_get (events st) x) as [d|] eqn:Hd; [|done].
    cbn [fst snd In]. intros [<-|[]]. exists d.
    cbn [assoc]. rewrite String.eqb_refl. split_and!; [done| |done].
    by apply assoc_In.
  - cbn [fst snd]. intros Hin.
    destruct (event_map_fold _ [] _ Hin) as (ev & Hev & Hin').
    exists ev. split; [done|].
    apply List.filter_In in Hin' as [Hin' Hd]. split; [done|].
    cbn [snd] in Hd. destruct (assoc "department" ev) as [x|]; [|done].
    by rewrite (fs_eqb_str _ _ Hd).
Qed.

Lemma batches_In (ids b : list string) (s : string) :
  In b (batches ids) -> In s b -> In s ids.
Proof.
  intros Hb Hs. destruct (batches_partition ids) as (<- & _).
  apply in_concat. by exists b.
Qed.

(** Every row of [_gather_participants] belongs to a registration of one of
    the events looked up: its [event_id] is the id of a stored event and its
    [event_name] that event's name. Without [event_id] the events are those
    of the department, and [dept_name] holds the department's id, as stored
    in the event. With [event_id] that event alone is looked up, whatever
    department the request names. *)
Theorem gather_rows_name_their_event (st : store) (dept_id : string)
  (event_id : option string) :
  dept_id <> "" ->
  (forall rows,
     snd (_gather_participants st dept_id event_id) = Ok rows ->
     Forall (fun r =>
               exists id ev,
                 get r "event_id" = VStr id /\
                 In (id, ev) (events st) /\
                 get r "event_name" = get ev "name" /\
                 if arg_truthy event_id then event_id = Some id
                 else get r "dept_name" = VStr dept_id) rows) /\
  (forall dept_id',
     dept_id' <> "" -> arg_truthy event_id = true ->
     _gather_participants st dept_id' event_id
     = _gather_participants st dept_id event_id).
Proof.
  intros Hd. split.
  - intros rows.
    destruct (fst (gather_events st dept_id event_id)) as [|id0 ids0] eqn:Hids.
    { unfold _gather_participants.
      destruct (String.eqb dept_id ""); [by intros [= <-]|].
      destruct (gather_events st dept_id event_id) as [ids em].
      cbn [fst] in Hids. subst ids. by intros [= <-]. }
    rewrite gather_unfold by (done || by rewrite Hids).
    intros [_ ->]%batch_loop_returns. cbn [app].
    fold (batches (fst (gather_events st dept_id event_id))).
    apply Forall_forall. intros r (b & Hb & Hr)%in_flat_map.
    unfold batch_rows in Hr. apply in_flat_map in Hr as ([rid rd] & Hreg & Hr).
    cbn [snd] in Hr.
    destruct (_resolve_participant_from_registration st rd)
      as [[[|f p]|]|]; try done.
    destruct Hr as [<-|[]].
    apply List.filter_In in Hreg as [_ Hreg]. cbn [snd] in Hreg.
    destruct (assoc "event_id" rd) as [[| | |s|]|] eqn:Hs; try done.
    apply existsb_exists in Hreg as (s' & Hin & ->%String.eqb_eq).
    pose proof (batches_In _ _ _ Hb Hin) as Hid.
    destruct (gather_events_spec _ _ _ _ Hid) as (ev & Hev & Hstored & Hdept).
    destruct (gather_row_fields (snd (gather_events st dept_id event_id))
                rd (f :: p)) as (-> & -> & ->).
    apply get_str_assoc in Hs. rewrite Hs. cbn [event_map_get]. rewrite Hev.
    exists s', ev. split_and!; [done..|].
    destruct (arg_truthy event_id); [done|].
    apply get_str_assoc in Hdept. rewrite Hdept. unfold py_or.
    cbn [truthy]. destruct (String.eqb dept_id "") eqn:He.
    { by apply String.eqb_eq in He. }
    cbn [negb truthy]. by rewrite He.
  - intros d' Hd' Ht. unfold _gather_participants, gather_events.
    rewrite Ht.
    destruct (String.eqb_spec dept_id ""); [done|].
    by destruct (String.eqb_spec d' "").
Qed.

Lemma gather_rows_name_their_event_witness :
  exists rows,
    snd (_gather_participants store_amy "cs" None) = Ok rows /\
    Forall (fun r => get r "event_id" = VStr "1" /\
                     get r "event_name" = VStr "Quiz" /\
                     get r "dept_name" = VStr "cs") rows.
Proof.
  assert (Hd : "cs" <> "") by discriminate.
  destruct (snd (_gather_participants store_amy "cs" None)) as [rows|]
    eqn:Hrows; [|discriminate Hrows].
  exists rows. split; [reflexivity|].
  eapply List.Forall_impl;
    [|exact (proj1 (gather_rows_name_their_event store_amy "cs" None Hd)
               rows Hrows)].
  intros r (id & ev & Hid & Hin & Hname & Hdept). cbn [arg_truthy] in Hdept.
  destruct Hin as [[= <- <-]|[]]. by split_and!.
Defined.

(* ================================================================== *)
(** ** The batches read every registration once *)

Lemma filter_or_perm {A : Type} (f g : A -> bool) (l : list A) :
  (forall x, In x l -> f x && g x = false) ->
  Permutation (List.filter (fun x => f x || g x) l)
              (List.filter f l ++ List.filter g l)%list.
Proof.
  induction l as [|x l IH]; intros Hdisj; [done|]. cbn [List.filter].
  pose proof (Hdisj x (or_introl eq_refl)) as Hx.
  specialize (IH (fun y Hy => Hdisj y (or_intror Hy))).
  destruct (f x), (g x); cbn [orb andb app] in *; try done.
  - by apply perm_skip.
  - by apply Permutation_cons_app.
Qed.

Lemma filter_perm_length {A : Type} (f : A -> bool) (l1 l2 : list A) :
  Permutation l1 l2 ->
  length (List.filter f l1) = length (List.filter f l2).
Proof.
  induction 1 as [|x l1 l2 _ IH|x y l|l1 l2 l3 _ IH1 _ IH2];
    cbn [List.filter]; [done| | |congruence].
  - destruct (f x); cbn [length]; by rewrite IH.
  - by destruct (f x), (f y).
Qed.

Lemma NoDup_filter_ids (f : string * dict -> bool) (c : collection) :
  unique_ids c -> NoDup (map fst (List.filter f c)).
Proof.
  unfold unique_ids. induction c as [|x c IH]; cbn [map List.filter]; [done|].
  intros [Hnotin Hnd]%NoDup_cons_iff. destruct (f x); [|by apply IH].
  cbn [map]. apply List.NoDup_cons; [|by apply IH].
  intros (y & Hy & Hin)%in_map_iff. apply List.filter_In in Hin as [Hin _].
  apply Hnotin. rewrite <- Hy. by apply in_map.
Qed.

Lemma NoDup_app_disjoint {A : Type} (l1 l2 : list A) (x : A) :
  NoDup (l1 ++ l2)%list -> In x l1 -> In x l2 -> False.
Proof.
  induction l1 as [|y l1 IH]; [done|]. cbn [app In].
  intros [Hnotin Hnd]%NoDup_cons_iff [->|Hin] H2.
  - apply Hnotin, in_or_app. by right.
  - by apply IH.
Qed.

Lemma where_in_batches (bs : list (list string)) (regs : collection) :
  NoDup (concat bs) ->
  Permutation (flat_map (fun b => where_in "event_id" b regs) bs)
              (where_in "event_id" (concat bs) regs).
Proof.
  induction bs as [|b bs IH]; cbn [flat_map concat].
  - intros _. unfold where_in.
    induction regs as [|[id d] regs IHr]; [done|]. cbn [List.filter snd].
    by destruct (assoc "event_id" d) as [[]|].
  - intros Hnd. etransitivity.
    { apply Permutation_app_head, IH. by apply NoDup_app_remove_l in Hnd. }
    symmetry.
    pose (mem := fun (ids : list string) (doc : string * dict) =>
                   match assoc "event_id" (snd doc) with
                   | Some (VStr s) => existsb (String.eqb s) ids
                   | _ => false
                   end).
    change (Permutation
              (List.filter (mem (b ++ concat bs)%list) regs)
              (List.filter (mem b) regs
               ++ List.filter (mem (concat bs)) regs)%list).
    rewrite (List.filter_ext (mem (b ++ concat bs)%list)
               (fun x => mem b x || mem (concat bs) x)).
    + apply filter_or_perm. intros [id d] _. unfold mem. cbn [snd].
      destruct (assoc "event_id" d) as [[| | |s|]|]; try done.
      destruct (existsb (String.eqb s) b) eqn:Hb; [|done].
      destruct (existsb (String.eqb s) (concat bs)) eqn:Hc; [|done].
      apply existsb_exists in Hb as (s1 & Hb & ->%String.eqb_eq).
      apply existsb_exists in Hc as (s2 & Hc & ->%String.eqb_eq).
      destruct (NoDup_app_disjoint _ _ _ Hnd Hb Hc).
    + intros [id d]. unfold mem. cbn [snd].
      destruct (assoc "event_id" d) as [[| | |s|]|]; try done.
      apply existsb_app.
Qed.

(** With unique event ids, the queries of [_gather_participants] read every
    registration of the events looked up exactly once, however many batches
    there are; so the number of rows is the number of those registrations
    that resolve to a non-empty participant. *)
Theorem gather_reads_each_registration_once (st : store) (dept_id : string)
  (event_id : option string) :
  unique_ids (events st) ->
  let event_ids := fst (gather_events st dept_id event_id) in
  NoDup event_ids /\
  Permutation (flat_map (batch_regs st) (batches event_ids))
              (where_in "event_id" event_ids (registrations st)) /\
  (dept_id <> "" ->
   forall rows,
     snd (_gather_participants st dept_id event_id) = Ok rows ->
     length rows
     = length (List.filter (resolved_nonempty st)
                 (where_in "event_id" event_ids (registrations st)))).
Proof.
  intros Huniq event_ids.
  assert (Hnd : NoDup event_ids).
  { subst event_ids. unfold gather_events.
    destruct (arg_truthy event_id).
    - destruct (document_get _ _); cbn [fst].
      + apply List.NoDup_cons; [by intros []|apply List.NoDup_nil].
      + apply List.NoDup_nil.
    - cbn [fst]. by apply NoDup_filter_ids. }
  assert (Hperm : Permutation (flat_map (batch_regs st) (batches event_ids))
                    (where_in "event_id" event_ids (registrations st))).
  { destruct (batches_partition event_ids) as (Hconcat & _).
    rewrite <- Hconcat at 2. apply where_in_batches. by rewrite Hconcat. }
  split_and!; [done..|].
  intros Hd rows. subst event_ids.
  rewrite <- (filter_perm_length _ _ _ Hperm).
  destruct (fst (gather_events st dept_id event_id)) as [|id ids] eqn:Hids.
  - unfold _gather_participants.
    destruct (String.eqb dept_id ""); [by intros [= <-]|].
    destruct (gather_events st dept_id event_id) as [ids em].
    cbn [fst] in Hids. subst ids. by intros [= <-].
  - rewrite gather_unfold by (done || by rewrite Hids).
    intros [_ ->]%batch_loop_returns. rewrite Hids.
    apply length_flat_map_rows.
Qed.

Lemma gather_reads_each_registration_once_witness :
  Permutation
    (flat_map (batch_regs store_fifteen)
       (batches (fst (gather_events store_fifteen "cs" None))))
    (where_in "event_id" (fst (gather_events store_fifteen "cs" None))
       (registrations store_fifteen)).
Proof.
  refine (proj1 (proj2 (gather_reads_each_registration_once store_fifteen
                          "cs" None _))).
  unfold unique_ids.
  change (map fst (events store_fifteen))
    with ["1"; "2"; "3"; "4"; "5"; "6"; "7"; "8"; "9"; "10"; "11"; "12";
          "13"; "14"; "15"].
  repeat (apply List.NoDup_cons; [cbn [In]; intuition discriminate|]).
  apply List.NoDup_nil.
Defined.

(* ================================================================== *)
(** ** [make_static_url] *)

Lemma rstrip_app_char (p : ascii -> bool) (s : string) (c : ascii) :
  p c = true -> rstrip p (s ++ String c "") = rstrip p s.
Proof.
  intros Hc. induction s as [|a s IH].
  - change ("" ++ String c "") with (String c ""). cbn [rstrip].
    by rewrite Hc.
  - change (String a s ++ String c "") with (String a (s ++ String c "")).
    cbn [rstrip]. by rewrite IH.
Qed.

(** The URL is the path appended to the base link without its trailing
    slashes: a slash more at the end of the base link changes nothing, and a
    base link without trailing slash is used as it is. *)
Theorem make_static_url_base (curr_link path : string) :
  make_static_url (curr_link ++ "/") path = make_static_url curr_link path /\
  (exists base,
     make_static_url curr_link path = base ++ path /\
     ends_with is_slash base = false) /\
  (ends_with is_slash curr_link = false ->
   make_static_url curr_link path = curr_link ++ path).
Proof.
  unfold make_static_url. split_and!.
  - by rewrite rstrip_app_char.
  - eexists. split; [reflexivity|apply rstrip_end].
  - intros H. by rewrite rstrip_fix.
Qed.

Lemma make_static_url_base_witness :
  make_static_url "https://tantra-vl7d.onrender.com" "/static/logos/a.png"
  = "https://tantra-vl7d.onrender.com/static/logos/a.png".
Proof.
  exact (proj2 (proj2 (make_static_url_base
                         "https://tantra-vl7d.onrender.com"
                         "/static/logos/a.png")) eq_refl).
Defined.

(* ================================================================== *)
(** ** [add_department] *)

Lemma document_get_set (c : collection) (id id' : string) (d : dict) :
  document_get (document_set c id d) id'
  = if String.eqb id' id then Some d else document_get c id'.
Proof.
  unfold document_get, document_set.
  destruct (String.eqb_spec id' id) as [->|Hne].
  - apply assoc_set_eq.
  - apply assoc_set_ne. congruence.
Qed.

(** A department stored by [add_department] under a new id is found under
    that id with the posted fields and leaves the other departments and all
    events as they were. It has a name, so the handlers that list the
    departments go on working; [db_content] shows the former entries and, at
    some place among them, the new department with the events that already
    name it; and an event that [add_event] then creates for it carries the
    posted QR link as [payment_qr_url]. *)
Theorem add_department_then_add_event (st : store) (auto_id : string)
  (df : department_form) :
  document_get (departments st) auto_id = None ->
  let st1 := add_department st auto_id df in
  document_get (departments st1) auto_id = Some (new_department_doc df) /\
  (forall id, id <> auto_id ->
     document_get (departments st1) id = document_get (departments st) id) /\
  events st1 = events st /\
  (departments_named st -> departments_named st1) /\
  (exists l1 l2,
     db_content st = (l1 ++ l2)%list /\
     db_content st1
     = (l1 ++
        {| dc_dept_id := auto_id;
           dc_dept_name := VStr (d_name df);
           dc_description := VStr (d_description df);
           dc_logo_url := VStr (d_logo_url df);
           dc_qr_url := VStr (d_qr_url df);
           dc_events :=
             map with_id (where_eq "dept_id" (VStr auto_id) (events st)) |}
        :: l2)%list) /\
  (forall f st2,
     f_dept_id f = auto_id ->
     add_event st1 f = Ok st2 ->
     exists ev,
       document_get (events st2) (str_of_int (new_event_id st)) = Some ev /\
       get ev "department" = VStr auto_id /\
       get ev "payment_qr_url" = VStr (d_qr_url df)).
Proof.
  intros Hfresh st1.
  assert (Hdepts : departments st1
                   = (departments st ++ [(auto_id, new_department_doc df)])%list).
  { subst st1. unfold add_department, document_set. cbn [departments].
    by apply assoc_set_fresh. }
  assert (Hget : forall id,
            document_get (departments st1) id
            = if String.eqb id auto_id then Some (new_department_doc df)
              else document_get (departments st) id).
  { intros id. subst st1. unfold add_department. cbn [departments].
    apply document_get_set. }
  split_and!.
  - by rewrite Hget, String.eqb_refl.
  - intros id Hid. rewrite Hget. by destruct (String.eqb_spec id auto_id).
  - done.
  - unfold departments_named. rewrite Hdepts. intros Hnamed.
    apply Forall_app. split; [done|].
    apply List.Forall_cons; [by eexists|apply List.Forall_nil].
  - exists (db_content st), []. split; [by rewrite app_nil_r|].
    unfold db_content. rewrite Hdepts, map_app. reflexivity.
  - intros f st2 Hf (status & Hstatus & ->)%add_event_inv.
    change (new_event_id st1) with (new_event_id st).
    cbn [events]. change (events st1) with (events st).
    rewrite (document_get_app_new _ _ _ _ (new_event_id_fresh st)).
    rewrite String.eqb_refl. eexists. split; [reflexivity|].
    split; [change (VStr (f_dept_id f) = VStr auto_id); by rewrite Hf|].
    change (match document_get (departments st1) (f_dept_id f) with
            | Some d => get_default d "qr_url" (VStr "")
            | None => VStr ""
            end = VStr (d_qr_url df)).
    by rewrite Hf, Hget, String.eqb_refl.
Qed.

Lemma add_department_then_add_event_witness :
  document_get
    (departments
       (add_department store_dept_id "ee"
          {| d_name := "Electrical"; d_description := "";
             d_logo_url := ""; d_qr_url := "https://x/static/qr/e.png";
             d_created_at := VNone |})) "ee"
  = Some [ ("name", VStr "Electrical"); ("description", VStr "");
           ("logo_url", VStr ""); ("qr_url", VStr "https://x/static/qr/e.png");
           ("created_at", VNone) ].
Proof.
  exact (proj1 (add_department_then_add_event store_dept_id "ee"
                  {| d_name := "Electrical"; d_description := "";
                     d_logo_url := ""; d_qr_url := "https://x/static/qr/e.png";
                     d_created_at := VNone |} eq_refl)).
Defined.

(* ================================================================== *)
(** ** The dashboard counts under the writing handlers *)

Lemma size_list_to_set_le (l : list string) :
  (size (list_to_set l : gset string) <= length l)%nat.
Proof.
  induction l as [|x l IH]; [done|]. cbn [list_to_set length].
  destruct (decide (x ∈ (list_to_set l : gset string))) as [Hx|Hx].
  - replace ({[x]} ∪ list_to_set l) with (list_to_set l : gset string)
      by set_solver.
    lia.
  - rewrite size_union by set_solver. rewrite size_singleton. lia.
Qed.

(** The counts of the dashboard: there are never more unique participants
    than participants. [add_event] raises the number of events by one, a new
    department raises the number of departments by one, and neither touches
    another count; [toggle_event_status] and [fix_events] change no count. *)
Theorem dashboard_counts_after_writes (repr_dict : dict -> string)
  (st : store) :
  let d := index repr_dict st in
  (total_unique_participants d <= total_registrations d)%nat /\
  (forall f st1,
     add_event st f = Ok st1 ->
     index repr_dict st1
     = {| total_departments := total_departments d;
          total_events := S (total_events d);
          total_registrations := total_registrations d;
          total_unique_participants := total_unique_participants d |}) /\
  (forall event_id,
     index repr_dict (toggle_event_status st event_id) = d) /\
  (forall auto_id df,
     document_get (departments st) auto_id = None ->
     index repr_dict (add_department st auto_id df)
     = {| total_departments := S (total_departments d);
          total_events := total_events d;
          total_registrations := total_registrations d;
          total_unique_participants := total_unique_participants d |}) /\
  (forall post r,
     fix_events st post = Ok r -> index repr_dict (fr_store r) = d).
Proof.
  intros d. subst d. split_and!.
  - unfold index.
    cbn [total_unique_participants total_registrations].
    rewrite unique_loop_spec, union_empty_l_L.
    etransitivity; [apply size_list_to_set_le|].
    rewrite length_map. apply List.filter_length_le.
  - intros f st1 (status & _ & ->)%add_event_inv. unfold index.
    cbn [departments events participants total_departments total_events
         total_registrations total_unique_participants].
    rewrite length_app. cbn [length]. f_equal. lia.
  - intros [id|]; [|done]. unfold toggle_event_status.
    destruct (String.eqb id ""); [done|].
    destruct (document_get (events st) id); [|done].
    unfold index. cbn [departments events participants].
    by rewrite document_update_length.
  - intros auto_id df Hfresh. unfold index, add_department, document_set.
    cbn [departments events participants total_departments total_events
         total_registrations total_unique_participants].
    rewrite (assoc_set_fresh _ _ _ Hfresh), length_app. cbn [length].
    f_equal. lia.
  - intros post r. unfold fix_events. unfold_bind.
    destruct post as [f|].
    + destruct (arg_truthy (fx_event_id f) && arg_truthy (fx_dept_id f)).
      * unfold document_update_checked.
        destruct (document_get (events st) _); [|done]. cbn [fst snd].
        destruct (problematic_loop _ _); [|done]. intros [= <-].
        unfold index. cbn [fr_store departments events participants].
        by rewrite document_update_length.
      * cbn [fst snd]. destruct (problematic_loop _ _); [|done].
        by intros [= <-].
    + cbn [fst snd]. destruct (problematic_loop _ _); [|done].
      by intros [= <-].
Qed.

(* ================================================================== *)
(** ** The recent events of the dashboard *)

Lemma assoc_notin {A : Type} (k : string) (d : list (string * A)) :
  ~ In k (map fst d) -> assoc k d = None.
Proof.
  induction d as [|[k' v] d IH]; [done|]. cbn [map fst In assoc].
  intros Hnotin. destruct (String.eqb_spec k k') as [->|Hne].
  - destruct Hnotin. by left.
  - apply IH. intros ?. apply Hnotin. by right.
Qed.

Lemma dept_map_fold (depts : collection) (acc : list (string * value))
  (s : string) :
  unique_ids depts ->
  assoc s (fold_left (fun m d => assoc_set (fst d)
                                   (get_default (snd d) "name" (VStr "")) m)
             depts acc)
  = match assoc s depts with
    | Some d => Some (get_default d "name" (VStr ""))
    | None => assoc s acc
    end.
Proof.
  unfold unique_ids. revert acc.
  induction depts as [|[id d] rest IH]; intros acc; [done|].
  cbn [map fst snd fold_left assoc]. intros [Hnotin Hnd]%NoDup_cons_iff.
  rewrite (IH _ Hnd). destruct (String.eqb_spec s id) as [->|Hne].
  - by rewrite (assoc_notin _ _ Hnotin), assoc_set_eq.
  - rewrite assoc_set_ne by congruence. done.
Qed.

Lemma dept_map_get_spec (st : store) (did : value) :
  unique_ids (departments st) ->
  dept_map_get (dept_map (departments st)) did
  = if is_dict did then Raised else Ok (shown_dept_name st did).
Proof.
  intros Huniq. unfold dept_map_get, shown_dept_name, dept_map.
  destruct did as [|b|n|s|d]; cbn [is_dict]; try done.
  rewrite (dept_map_fold _ [] s Huniq). unfold document_get.
  destruct (assoc s (departments st)); [done|]. cbn [assoc].
  unfold py_or. cbn [truthy]. by destruct (String.eqb_spec s "") as [->|].
Qed.

Lemma recent_events_loop_raises (m : list (string * value))
  (evs : collection) :
  recent_events_loop m evs = Raised <->
  Exists (fun e => is_dict (get (snd e) "department") = true) evs.
Proof.
  induction evs as [|e rest IH]; cbn [recent_events_loop].
  - split; [done|]. by intros ?%Exists_nil.
  - unfold_bind. rewrite Exists_cons.
    destruct (get (snd e) "department") as [|b|n|s|d] eqn:Hd;
      cbn [dept_map_get is_dict].
    5: { split; [by left|done]. }
    all: destruct (recent_events_loop m rest);
      [ split; [done|]; intros [?|H]; [done|]; by apply IH in H
      | split; [|done]; intros _; right; by apply IH ].
Qed.

Lemma recent_events_loop_app (m : list (string * value))
  (evs : collection) (e : string * dict) (l : list dict) :
  recent_events_loop m evs = Ok l ->
  recent_events_loop m (evs ++ [e])%list
  = match recent_events_loop m [e] with
    | Ok r => Ok (l ++ r)%list
    | Raised => Raised
    end.
Proof.
  revert l. induction evs as [|e' rest IH]; intros l.
  - intros [= <-]. cbn [app]. by destruct (recent_events_loop m [e]).
  - cbn [app]. cbn [recent_events_loop]. unfold_bind.
    destruct (dept_map_get m (get (snd e') "department")) as [n'|]; [|done].
    destruct (recent_events_loop m rest) as [l'|]; [|done].
    intros [= <-]. rewrite (IH l' eq_refl).
    change (recent_events_loop m [e])
      with (match dept_map_get m (get (snd e) "department") with
            | Ok dept_name =>
                Ok [ [ ("id", VStr (fst e)); ("name", get (snd e) "name");
                       ("dept_id", get (snd e) "department");
                       ("dept_name", dept_name);
                       ("date", get (snd e) "date");
                       ("status", get_default (snd e) "status" (VInt 1)) ] ]
            | Raised => Raised
            end).
    by destruct (dept_map_get m (get (snd e) "department")).
Qed.

(** The list of recent events fails exactly when the [department] of some
    event is a map. Otherwise it has one entry per event, in stream order;
    with unique department ids the [dept_name] of an entry is the stored
    name of the event's department, or the raw value where no such
    department exists. An event that [add_event] creates appears as one
    more entry, at some place among the former ones, with the name of the
    department of the form. *)
Theorem recent_events_show_department_names (st : store) :
  (recent_events st = Raised <->
   Exists (fun e => is_dict (get (snd e) "department") = true) (events st)) /\
  (unique_ids (departments st) ->
   forall l, recent_events st = Ok l ->
     Forall2 (fun e r =>
                get r "id" = VStr (fst e) /\
                get r "dept_id" = get (snd e) "department" /\
                get r "dept_name"
                = shown_dept_name st (get (snd e) "department"))
             (events st) l /\
     forall f st1,
       add_event st f = Ok st1 ->
       exists r l1 l2,
         l = (l1 ++ l2)%list /\
         recent_events st1 = Ok (l1 ++ r :: l2)%list /\
         get r "id" = VStr (str_of_int (new_event_id st)) /\
         get r "name" = VStr (f_name f) /\
         get r "dept_name" = shown_dept_name st (VStr (f_dept_id f))).
Proof.
  split; [apply recent_events_loop_raises|].
  intros Huniq l Hl. split.
  - revert l Hl. unfold recent_events.
    induction (events st) as [|e rest IH]; intros l.
    + intros [= <-]. constructor.
    + cbn [recent_events_loop]. unfold_bind.
      rewrite (dept_map_get_spec st _ Huniq).
      destruct (is_dict (get (snd e) "department")); [done|].
      destruct (recent_events_loop _ rest) as [l'|]; [|done].
      intros [= <-]. constructor; [by split_and!|by apply IH].
  - intros f st1 (status & _ & ->)%add_event_inv.
    unfold recent_events in *. cbn [departments events].
    rewrite (recent_events_loop_app _ _ _ _ Hl).
    cbn [recent_events_loop snd fst]. unfold_bind.
    rewrite (dept_map_get_spec st _ Huniq).
    change (get (new_event_doc st f status) "department")
      with (VStr (f_dept_id f)).
    cbn [is_dict]. eexists _, l, [].
    split; [by rewrite app_nil_r|]. split; [reflexivity|]. by split_and!.
Qed.

Lemma recent_events_show_department_names_witness :
  exists l,
    recent_events store_amy = Ok l /\
    map (fun r => get r "dept_name") l = [VStr "Computer Science"].
Proof.
  assert (Huniq : unique_ids (departments store_amy)).
  { unfold unique_ids. cbn [store_amy departments map fst].
    apply List.NoDup_cons; [by intros []|apply List.NoDup_nil]. }
  destruct (recent_events store_amy) as [l|] eqn:Hl; [|discriminate Hl].
  exists l. split; [reflexivity|].
  destruct (proj2 (recent_events_show_department_names store_amy) Huniq l Hl)
    as [Hall _].
  cbn [store_amy events] in Hall.
  apply Forall2_cons_inv_l in Hall as (r & l' & (_ & _ & Hr) & Hnil & ->).
  apply Forall2_nil_inv_l in Hnil as ->.
  cbn [map]. by rewrite Hr.
Defined.

(* ================================================================== *)
(** ** The events offered by the listing *)

(** The events that the listing offers for a department are, by name and in
    order, the events that [dept_events] returns for it. An offered value is
    the name of an event, which the listing then compares with the [event]
    field of the participants; the export reads the same value as an event
    id, and falls back to it as a name when no event has that id, so it then
    selects by the same name. *)
Theorem events_for_select_of_department (st : store) (dept_id : string) :
  dept_id <> "" ->
  events_for_select st (Some dept_id)
  = map (fun e => get e "name") (ej_events (dept_events st dept_id)) /\
  (forall name,
     In (VStr name) (events_for_select st (Some dept_id)) ->
     exists id ev,
       In (id, ev) (events st) /\ get ev "name" = VStr name /\
       get ev "department" = VStr dept_id) /\
  (forall name,
     name <> "" ->
     document_get (events st) name = None ->
     selected_event_name st (Some name) = VStr name).
Proof.
  intros Hne. unfold events_for_select, dept_events. cbn [arg_truthy form_get].
  destruct (String.eqb_spec dept_id ""); [done|].
  cbn [negb ej_events]. split_and!.
  - rewrite map_map.
    by apply (List.map_ext (fun e : string * dict => get (snd e) "name")
                (fun e => get (event_summary e) "name")).
  - intros name ([id ev] & Hname & Hin)%in_map_iff. cbn [snd] in Hname.
    exists id, ev.
    pose proof (where_eq_field "department" dept_id (events st)) as Hall.
    rewrite Forall_forall in Hall. specialize (Hall _ Hin). cbn [snd] in Hall.
    apply List.filter_In in Hin as [Hin _]. split_and!; [done..|].
    by apply get_str_assoc.
  - intros name Hname Hnone. unfold selected_event_name.
    cbn [arg_truthy form_get arg_value]. rewrite Hnone.
    by destruct (String.eqb_spec name "").
Qed.

Lemma events_for_select_of_department_witness :
  events_for_select store_arts (Some "d1") = [VStr "Zumba"].
Proof.
  assert (Hne : "d1" <> "") by discriminate.
  rewrite (proj1 (events_for_select_of_department store_arts "d1" Hne)).
  reflexivity.
Defined.
